(** * helm-resources-checker: a shallow embedding and its specification

    The program (one Python script) lists the resources a Helm release
    declares at a given revision and reports which of them exist in the
    cluster.  This file embeds its functions

      - [secret_version], [find_release_secret]   (release record resolver)
      - [_try_decompress], [decode_release_payload] (payload decoder)
      - [manifest_objects]                          (manifest extractor)
      - [object_exists], [main]                     (orchestration)

    as Rocq functions and proves the properties of the natural-language
    specification about them.

    Conventions.  A Python [str] is a [string] whose characters are code
    points below 256; [bytes] is a [list byte].  An exception is a value of
    [exn]; code that can raise returns a [result].  The libraries the script
    calls are modelled as far as the script observes them: [str.isdigit],
    [int], [str.lstrip], [PurePath.suffix], [max], [sorted], [base64.b64decode]
    and the byte-decoding front end of [json.loads] are defined here after
    CPython 3.11; [gzip.decompress], the JSON and YAML parsers and the
    Kubernetes client are an interface ([Runtime], [DynamicClient]). *)

From Stdlib Require Import ZArith NArith Lia List Bool Permutation Sorted.
From Stdlib Require OrderedTypeEx.
From Stdlib.Strings Require Ascii String Byte.
From Stdlib.Floats Require SpecFloat.
From stdpp Require Import base option list strings gmap pretty.
Import Stdlib.Strings.Ascii.

Set Warnings "-register-all".
Local Open Scope Z_scope.

(* ===================================================================== *)
(** ** Exceptions and results *)
(* ===================================================================== *)

Module Py.

(** The exception classes the script can meet.  [Other] stands for any
    further subclass of [Exception] raised by a library. *)
Inductive exn : Type :=
| ValueError
| UnicodeDecodeError          (* subclass of ValueError *)
| JSONDecodeError             (* json.JSONDecodeError, subclass of ValueError *)
| BinasciiError               (* binascii.Error, subclass of ValueError *)
| OSError
| BadGzipFile                 (* gzip.BadGzipFile, subclass of OSError *)
| EOFError
| ZlibError                   (* zlib.error, subclass of Exception only *)
| AttributeError
| TypeError
| YAMLError
| DynamicApiError             (* kubernetes.dynamic.exceptions *)
| NotFoundError               (* subclass of DynamicApiError *)
| RuntimeError (msg : string)
| SystemExit (msg : string)   (* not a subclass of Exception *)
| Other (name : string).

Inductive result (A : Type) : Type :=
| Ok (a : A)
| Raise (e : exn).
Arguments Ok {A} a.
Arguments Raise {A} e.

Definition bind {A B} (r : result A) (k : A -> result B) : result B :=
  match r with
  | Ok a => k a
  | Raise e => Raise e
  end.

(** [except ValueError] *)
Definition is_ValueError (e : exn) : bool :=
  match e with
  | ValueError | UnicodeDecodeError | JSONDecodeError | BinasciiError => true
  | _ => false
  end.

(** [except json.JSONDecodeError] *)
Definition is_JSONDecodeError (e : exn) : bool :=
  match e with JSONDecodeError => true | _ => false end.

(** [except (OSError, EOFError, gzip.BadGzipFile)] *)
Definition is_gzip_failure (e : exn) : bool :=
  match e with OSError | BadGzipFile | EOFError => true | _ => false end.

(** [except Exception] *)
Definition is_Exception (e : exn) : bool :=
  match e with SystemExit _ => false | _ => true end.

(** [except NotFoundError] *)
Definition is_NotFoundError (e : exn) : bool :=
  match e with NotFoundError => true | _ => false end.

(** [except (DynamicApiError, NotFoundError)] *)
Definition is_DynamicApiError (e : exn) : bool :=
  match e with DynamicApiError | NotFoundError => true | _ => false end.

(** [try: body except <cls>: handler]: an exception of the class is handled,
    any other propagates. *)
Definition try_except {A} (body : result A) (cls : exn -> bool)
    (handler : exn -> result A) : result A :=
  match body with
  | Ok a => Ok a
  | Raise e => if cls e then handler e else Raise e
  end.

Definition is_ok {A} (r : result A) : bool :=
  match r with Ok _ => true | Raise _ => false end.

End Py.
Import Py.

(** [result] is a monad; stdpp's [x ← r; k] sequences two computations. *)
Global Instance result_ret : MRet result := @Ok.
Global Instance result_bind : MBind result := fun A B k r => Py.bind r k.

(* ===================================================================== *)
(** ** Python strings *)
(* ===================================================================== *)

Module Str.

Definition code (c : ascii) : N := N_of_ascii c.

(** Characters with the Unicode digit property below code point 256: the
    decimal digits and the superscripts U+00B2, U+00B3, U+00B9. *)
Definition is_decimal (c : ascii) : bool :=
  ((48 <=? code c) && (code c <=? 57))%N.

Definition is_digit_char (c : ascii) : bool :=
  is_decimal c || (code c =? 178)%N || (code c =? 179)%N || (code c =? 185)%N.

Fixpoint all_chars (p : ascii -> bool) (s : string) : bool :=
  match s with
  | EmptyString => true
  | String c s' => p c && all_chars p s'
  end.

(** [str.isdigit]: at least one character, all of them digits. *)
Definition isdigit (s : string) : bool :=
  match s with
  | EmptyString => false
  | _ => all_chars is_digit_char s
  end.

Definition is_ascii (s : string) : bool :=
  all_chars (fun c => (code c <? 128)%N) s.

(** [str.lstrip(chars)] for a one-character [chars]. *)
Fixpoint lstrip (ch : ascii) (s : string) : string :=
  match s with
  | String c s' => if Ascii.eqb c ch then lstrip ch s' else s
  | EmptyString => EmptyString
  end.

(** The whitespace [int] drops around a literal, below code point 256: the
    ASCII whitespace (tab to carriage return, and the space) and the
    Unicode spaces U+0085 and U+00A0.  The separators U+001C to U+001F,
    which [str.isspace] accepts, are not among them. *)
Definition is_space (c : ascii) : bool :=
  let n := code c in
  (((9 <=? n) && (n <=? 13)) || (n =? 32) || (n =? 133) || (n =? 160))%N.

Fixpoint lstrip_space (s : string) : string :=
  match s with
  | String c s' => if is_space c then lstrip_space s' else s
  | EmptyString => EmptyString
  end.

Fixpoint rev_acc (s acc : string) : string :=
  match s with
  | EmptyString => acc
  | String c s' => rev_acc s' (String c acc)
  end.

Definition rev (s : string) : string := rev_acc s EmptyString.

Definition strip (s : string) : string :=
  rev (lstrip_space (rev (lstrip_space s))).

Definition digit_val (c : ascii) : Z := Z.of_N (code c) - 48.

(** The digits of an [int] literal in base 10: decimal digits, single
    underscores allowed between two digits.  [acc] is the value so far,
    [n] the number of digits read, [prev_digit] whether the previous
    character was a digit. *)
Fixpoint int_digits (s : string) (prev_digit : bool) (acc : Z) (n : N)
  : option (Z * N) :=
  match s with
  | EmptyString => if prev_digit then Some (acc, n) else None
  | String c s' =>
      if is_decimal c then int_digits s' true (10 * acc + digit_val c) (N.succ n)
      else if Ascii.eqb c "_"%char then
        if prev_digit then int_digits s' false acc n else None
      else None
  end.

(** [sys.get_int_max_str_digits()], the default. *)
Definition int_max_str_digits : N := 4300.

(** [int(s)] for a [str]: surrounding whitespace is dropped, a sign is
    allowed, the rest must be digits; anything else is a [ValueError], and
    so is a literal of more than [int_max_str_digits] digits. *)
Definition int (s : string) : result Z :=
  let t := strip s in
  let '(neg, body) :=
    match t with
    | String "-"%char r => (true, r)
    | String "+"%char r => (false, r)
    | _ => (false, t)
    end in
  match int_digits body false 0 0%N with
  | Some (v, n) =>
      if (int_max_str_digits <? n)%N then Raise ValueError
      else Ok (if neg then - v else v)
  | None => Raise ValueError
  end.

(** The value of a string of decimal digits, most significant first. *)
Fixpoint decimal_acc (s : string) (acc : Z) : Z :=
  match s with
  | EmptyString => acc
  | String c s' => decimal_acc s' (10 * acc + digit_val c)
  end.

Definition decimal_value (s : string) : Z := decimal_acc s 0.

(** [s.split("/")] *)
Fixpoint split_slash (s : string) (cur : string) : list string :=
  match s with
  | EmptyString => [rev cur]
  | String c s' =>
      if Ascii.eqb c "/"%char then rev cur :: split_slash s' EmptyString
      else split_slash s' (String c cur)
  end.

(** [s.rfind(".")]: the index of the last dot, if there is one. *)
Fixpoint rfind_dot (s : string) (i : nat) (last : option nat) : option nat :=
  match s with
  | EmptyString => last
  | String c s' =>
      rfind_dot s' (S i) (if Ascii.eqb c "."%char then Some i else last)
  end.

(** [s[i:]] *)
Fixpoint drop (i : nat) (s : string) : string :=
  match i, s with
  | O, _ => s
  | S i', String _ s' => drop i' s'
  | S _, EmptyString => EmptyString
  end.

End Str.

(** [PurePath(p).name] on POSIX: the last component that is neither empty
    nor ".", or "" when there is none. *)
Definition PurePath_name (p : string) : string :=
  List.last
    (List.filter (fun x => negb (String.eqb x "") && negb (String.eqb x "."))
       (Str.split_slash p EmptyString))
    "".

(** [PurePath(p).suffix]: the part of the name from its last dot on, when
    that dot is neither the first nor the last character of the name. *)
Definition PurePath_suffix (p : string) : string :=
  let name := PurePath_name p in
  match Str.rfind_dot name 0%nat None with
  | Some i =>
      if (0 <? i)%nat && (i <? String.length name - 1)%nat
      then Str.drop i name else ""
  | None => ""
  end.

(* ===================================================================== *)
(** ** Python values *)
(* ===================================================================== *)

(** The objects [json.loads] and [yaml.safe_load_all] build.  A [dict] keeps
    its items in insertion order, with distinct keys. *)
Inductive pyval : Type :=
| VNone
| VBool (b : bool)
| VInt (z : Z)
| VFloat (f : SpecFloat.spec_float)
| VStr (s : string)
| VBytes (b : list Byte.byte)
| VList (l : list pyval)
| VDict (d : list (pyval * pyval))
| VSet (l : list pyval)
| VDate (iso : string).

(** [bool(v)] *)
Definition truthy (v : pyval) : bool :=
  match v with
  | VNone => false
  | VBool b => b
  | VInt z => negb (z =? 0)
  | VFloat f => match f with SpecFloat.S754_zero _ => false | _ => true end
  | VStr s => negb (String.eqb s "")
  | VBytes b => match b with [] => false | _ => true end
  | VList l => match l with [] => false | _ => true end
  | VDict d => match d with [] => false | _ => true end
  | VSet l => match l with [] => false | _ => true end
  | VDate _ => true
  end.

(** The item of a [dict] under a [str] key; only a [str] key equals it. *)
Fixpoint dict_lookup (d : list (pyval * pyval)) (k : string) : option pyval :=
  match d with
  | [] => None
  | (VStr k', v) :: d' => if String.eqb k' k then Some v else dict_lookup d' k
  | _ :: d' => dict_lookup d' k
  end.

(** [v.get(k, dflt)]: only a [dict] has the method. *)
Definition py_get (v : pyval) (k : string) (dflt : pyval) : result pyval :=
  match v with
  | VDict d => Ok (default dflt (dict_lookup d k))
  | _ => Raise AttributeError
  end.

(** [a or b] *)
Definition py_or (a b : pyval) : pyval := if truthy a then a else b.

(* ===================================================================== *)
(** ** The Kubernetes client, as the script uses it *)
(* ===================================================================== *)

Module K8s.

Record ObjectMeta : Type := {
  name : string;
  labels : gmap string string
}.

Record Secret : Type := {
  metadata : ObjectMeta;
  data : gmap string string
}.

(** A resource kind of the dynamic client: [res.namespaced],
    [res.get(name=..., namespace=...)] and, for the record store,
    [res.get(namespace=..., label_selector=...).items]. *)
Record Resource : Type := {
  namespaced : bool;
  get : pyval -> option pyval -> result unit;
  list_items : string -> string -> result (list Secret)
}.

(** [dyn_client.resources.get(api_version=..., kind=...)] *)
Record DynamicClient : Type := {
  resources_get : pyval -> pyval -> result Resource
}.

End K8s.

(* ===================================================================== *)
(** ** Release record resolver *)
(* ===================================================================== *)

Definition OWNER_LABEL : string := "owner=helm".

(** The label [key] of a record, if it has one. *)
Definition label (sec : K8s.Secret) (key : string) : option string :=
  K8s.labels (K8s.metadata sec) !! key.

(** [sec.metadata.labels.get(key, dflt)].  The client hands out the labels
    as a [ResourceField], not a dict: its attributes are its entries first
    and the attributes of the underlying dict second.  So [labels.get] is
    the bound [dict.get] only when no label is named "get"; when one is,
    [labels.get] is that label's value, a [str], and calling it raises
    [TypeError]. *)
Definition labels_get (sec : K8s.Secret) (key dflt : string) : result string :=
  match label sec "get" with
  | Some _ => Raise TypeError
  | None => Ok (default dflt (label sec key))
  end.

(** [sec.metadata.labels.get("version", "")] *)
Definition version_label (sec : K8s.Secret) : result string :=
  labels_get sec "version" "".

(** The text of the [version] label, "" when there is none. *)
Definition version_text (sec : K8s.Secret) : string :=
  default "" (label sec "version").

(** The labels can be read (none is named "get") and the [version] label
    is one the API server admits: at most 63 characters, all of them
    ASCII. *)
Definition version_label_ok (sec : K8s.Secret) : bool :=
  match label sec "get" with
  | Some _ => false
  | None =>
      Str.is_ascii (version_text sec)
      && (String.length (version_text sec) <=? 63)%nat
  end.

(** The revision of a stored record: the [version] label when it is made of
    digits, else the integer read from the name's suffix, else 0.  [int(lbl)]
    stands outside the [try], so its [ValueError] is not handled. *)
Definition secret_version (sec : K8s.Secret) : result Z :=
  lbl ← version_label sec;
  if Str.isdigit lbl then Str.int lbl
  else
    try_except
      (Str.int (Str.lstrip "v" (PurePath_suffix (K8s.name (K8s.metadata sec)))))
      is_ValueError
      (fun _ => Ok 0).

(** [max(l, key=key)]: the keys are computed once, in order, and an item
    replaces the best so far only when its key is strictly greater. *)
Fixpoint max_from {A} (key : A -> result Z) (best : A) (kbest : Z)
    (l : list A) : result A :=
  match l with
  | [] => Ok best
  | x :: l' =>
      kx ← key x;
      if kbest <? kx then max_from key x kx l' else max_from key best kbest l'
  end.

Definition py_max {A} (key : A -> result Z) (l : list A) : result A :=
  match l with
  | [] => Raise ValueError
  | x :: l' => kx ← key x; max_from key x kx l'
  end.

(** [for sec in candidates: if secret_version(sec) == revision: return sec]
    followed by [return None]. *)
Fixpoint first_with_revision (revision : Z) (candidates : list K8s.Secret)
  : result (option K8s.Secret) :=
  match candidates with
  | [] => Ok None
  | sec :: rest =>
      v ← secret_version sec;
      if v =? revision then Ok (Some sec) else first_with_revision revision rest
  end.

(** What [find_release_secret] does with the candidates the store returned. *)
Definition select_release_secret (candidates : list K8s.Secret)
    (revision : option Z) : result (option K8s.Secret) :=
  match candidates with
  | [] => Ok None
  | _ =>
      match revision with
      | None => sec ← py_max secret_version candidates; Ok (Some sec)
      | Some r => first_with_revision r candidates
      end
  end.

Definition find_release_secret (dyn_client : K8s.DynamicClient)
    (release_name release_ns : string) (revision : option Z)
  : result (option K8s.Secret) :=
  v1_secrets ← K8s.resources_get dyn_client (VStr "v1") (VStr "Secret");
  let label_sel := OWNER_LABEL +:+ ",name=" +:+ release_name in
  match K8s.list_items v1_secrets release_ns label_sel with
  | Raise e => if is_NotFoundError e then Ok None else Raise e
  | Ok candidates => select_release_secret candidates revision
  end.

(** *** The revision as the specification words it

    The specification resolves the revision of a record in two tiers: the
    [version] label when it is present and all digits; otherwise the
    number that ends the name, after its last dot and an optional "v";
    otherwise 0.  These definitions follow those words, not the code. *)

Definition all_digits (s : string) : bool :=
  negb (String.eqb s "") && Str.all_chars Str.is_decimal s.

Definition name_revision (name : string) : option Z :=
  match Str.rfind_dot name 0%nat None with
  | Some i =>
      let tail := Str.drop (S i) name in
      let digits := match tail with String "v"%char r => r | _ => tail end in
      if all_digits digits then Some (Str.decimal_value digits) else None
  | None => None
  end.

Definition spec_revision (sec : K8s.Secret) : Z :=
  match label sec "version" with
  | Some lbl =>
      if all_digits lbl then Str.decimal_value lbl
      else default 0 (name_revision (K8s.name (K8s.metadata sec)))
  | None => default 0 (name_revision (K8s.name (K8s.metadata sec)))
  end.

(** A record as Helm 3 stores it: its [version] label is made of decimal
    digits, at most 63 of them, and it has no label named "get". *)
Definition numeric_label (sec : K8s.Secret) : bool :=
  match label sec "get", label sec "version" with
  | None, Some lbl => all_digits lbl && (String.length lbl <=? 63)%nat
  | _, _ => false
  end.

(* ===================================================================== *)
(** ** bytes and base64 *)
(* ===================================================================== *)

Abbreviation bytes := (list Byte.byte).

(** The byte with value [n mod 256]: a store into an [unsigned char]. *)
Definition byte_of_N (n : N) : Byte.byte :=
  default Byte.x00 (Byte.of_N (N.land n 255)).

Definition bytes_of_codes (l : list N) : bytes := map byte_of_N l.

(** [s.encode("ascii")] as [base64] calls it: a character outside ASCII is
    reported as a [ValueError]. *)
Definition encode_ascii (s : string) : result bytes :=
  if Str.is_ascii s then Ok (String.list_byte_of_string s)
  else Raise ValueError.

(** [b.startswith(prefix)] *)
Fixpoint startswith (prefix data : bytes) : bool :=
  match prefix, data with
  | [], _ => true
  | p :: prefix', d :: data' => Byte.eqb p d && startswith prefix' data'
  | _ :: _, [] => false
  end.

Module Base64.

Definition BASE64_PAD : N := 61.

(** [table_a2b_base64]: the value of a character of the alphabet, 255 for
    any other byte. *)
Definition table_a2b_base64 (c : N) : N :=
  (if (65 <=? c) && (c <=? 90) then c - 65
   else if (97 <=? c) && (c <=? 122) then c - 71
   else if (48 <=? c) && (c <=? 57) then c + 4
   else if c =? 43 then 62
   else if c =? 47 then 63
   else 255)%N.

(** [binascii.a2b_base64(data)] with [strict_mode] off.  [quad_pos] counts
    the alphabet characters of the current group of four, [leftchar] holds
    the bits not yet written, [pads] the pad characters seen since the last
    alphabet character; [out] is the output so far, last byte first.
    Bytes outside the alphabet are skipped; a pad that completes a group
    ends the decoding; an unfinished group at the end is an error. *)
Fixpoint a2b_loop (data : bytes) (quad_pos leftchar pads : N) (out : bytes)
  : result bytes :=
  match data with
  | [] => if (quad_pos =? 0)%N then Ok (rev out) else Raise BinasciiError
  | b :: rest =>
      let this_ch := Byte.to_N b in
      if (this_ch =? BASE64_PAD)%N then
        if (2 <=? quad_pos)%N then
          if (4 <=? quad_pos + (pads + 1))%N then Ok (rev out)
          else a2b_loop rest quad_pos leftchar (pads + 1)%N out
        else a2b_loop rest quad_pos leftchar pads out
      else
        let v := table_a2b_base64 this_ch in
        if (64 <=? v)%N then a2b_loop rest quad_pos leftchar pads out
        else
          match quad_pos with
          | 0%N => a2b_loop rest 1%N v 0%N out
          | 1%N =>
              a2b_loop rest 2%N (N.land v 15) 0%N
                (byte_of_N (N.lor (N.shiftl leftchar 2) (N.shiftr v 4)) :: out)
          | 2%N =>
              a2b_loop rest 3%N (N.land v 3) 0%N
                (byte_of_N (N.lor (N.shiftl leftchar 4) (N.shiftr v 2)) :: out)
          | _ =>
              a2b_loop rest 0%N 0%N 0%N
                (byte_of_N (N.lor (N.shiftl leftchar 6) v) :: out)
          end
  end.

Definition a2b_base64 (data : bytes) : result bytes :=
  a2b_loop data 0%N 0%N 0%N [].

(** [base64.b64decode(s)] for a [bytes] argument and for a [str] argument. *)
Definition b64decode (s : bytes) : result bytes := a2b_base64 s.

Definition b64decode_str (s : string) : result bytes :=
  b ← encode_ascii s; a2b_base64 b.

(** The encoder is not part of the script; it is the standard base64
    encoding (RFC 4648, [base64.b64encode]) and serves to state what the
    decoder is given. *)
Definition table_b2a_base64 (v : N) : N :=
  (if v <? 26 then v + 65
   else if v <? 52 then v + 71
   else if v <? 62 then v - 4
   else if v =? 62 then 43
   else 47)%N.

Definition enc_char (v : N) : Byte.byte := byte_of_N (table_b2a_base64 v).

Definition pad_char : Byte.byte := byte_of_N BASE64_PAD.

Definition sextet1 (a : N) : N := N.shiftr a 2.
Definition sextet2 (a b : N) : N :=
  N.lor (N.shiftl (N.land a 3) 4) (N.shiftr b 4).
Definition sextet3 (b c : N) : N :=
  N.lor (N.shiftl (N.land b 15) 2) (N.shiftr c 6).
Definition sextet4 (c : N) : N := N.land c 63.

Fixpoint b64encode (data : bytes) : bytes :=
  match data with
  | [] => []
  | [a] =>
      let a := Byte.to_N a in
      [enc_char (sextet1 a); enc_char (sextet2 a 0); pad_char; pad_char]
  | [a; b] =>
      let a := Byte.to_N a in
      let b := Byte.to_N b in
      [enc_char (sextet1 a); enc_char (sextet2 a b); enc_char (sextet3 b 0);
       pad_char]
  | a :: b :: c :: rest =>
      let a := Byte.to_N a in
      let b := Byte.to_N b in
      let c := Byte.to_N c in
      enc_char (sextet1 a) :: enc_char (sextet2 a b)
        :: enc_char (sextet3 b c) :: enc_char (sextet4 c) :: b64encode rest
  end.

(** [base64.b64encode(data).decode("ascii")] *)
Definition b64encode_str (data : bytes) : string :=
  String.string_of_list_byte (b64encode data).

End Base64.

(* ===================================================================== *)
(** ** Text decoding, as [json.loads] does it for [bytes] *)
(* ===================================================================== *)

(** A decoded text: its code points. *)
Abbreviation text := (list N).

Module Codec.

Inductive encoding : Type :=
| UTF8 | UTF8_SIG | UTF16 | UTF16_LE | UTF16_BE | UTF32 | UTF32_LE | UTF32_BE.

Fixpoint starts (prefix data : list N) : bool :=
  match prefix, data with
  | [], _ => true
  | p :: prefix', d :: data' => (p =? d)%N && starts prefix' data'
  | _ :: _, [] => false
  end.

(** [json.detect_encoding] *)
Definition detect_encoding (b : bytes) : encoding :=
  let n := map Byte.to_N b in
  if starts [0; 0; 254; 255]%N n || starts [255; 254; 0; 0]%N n then UTF32
  else if starts [254; 255]%N n || starts [255; 254]%N n then UTF16
  else if starts [239; 187; 191]%N n then UTF8_SIG
  else
    match n with
    | b0 :: b1 :: b2 :: b3 :: _ =>
        if (b0 =? 0)%N then (if (b1 =? 0)%N then UTF32_BE else UTF16_BE)
        else if (b1 =? 0)%N then
          (if negb (b2 =? 0)%N || negb (b3 =? 0)%N then UTF16_LE else UTF32_LE)
        else UTF8
    | [b0; b1] =>
        if (b0 =? 0)%N then UTF16_BE
        else if (b1 =? 0)%N then UTF16_LE
        else UTF8
    | _ => UTF8
    end.

Definition is_cont (n : N) : bool := ((128 <=? n) && (n <=? 191))%N.

Definition low6 (n : N) : N := N.land n 63.

(** UTF-8 with the [surrogatepass] handler: shortest forms only, nothing
    above U+10FFFF, encoded surrogates let through. *)
Fixpoint utf8_decode (l : list N) : option text :=
  match l with
  | [] => Some []
  | b0 :: r0 =>
      if (b0 <? 128)%N then cons b0 <$> utf8_decode r0
      else if ((194 <=? b0) && (b0 <=? 223))%N then
        match r0 with
        | b1 :: r1 =>
            if is_cont b1
            then cons (N.shiftl (N.land b0 31) 6 + low6 b1)%N <$> utf8_decode r1
            else None
        | _ => None
        end
      else if ((224 <=? b0) && (b0 <=? 239))%N then
        match r0 with
        | b1 :: b2 :: r2 =>
            if ((if b0 =? 224 then 160 else 128) <=? b1)%N && (b1 <=? 191)%N
               && is_cont b2
            then cons (N.shiftl (N.land b0 15) 12 + N.shiftl (low6 b1) 6
                       + low6 b2)%N <$> utf8_decode r2
            else None
        | _ => None
        end
      else if ((240 <=? b0) && (b0 <=? 244))%N then
        match r0 with
        | b1 :: b2 :: b3 :: r3 =>
            if ((if b0 =? 240 then 144 else 128) <=? b1)%N
               && (b1 <=? (if b0 =? 244 then 143 else 191))%N
               && is_cont b2 && is_cont b3
            then cons (N.shiftl (N.land b0 7) 18 + N.shiftl (low6 b1) 12
                       + N.shiftl (low6 b2) 6 + low6 b3)%N <$> utf8_decode r3
            else None
        | _ => None
        end
      else None
  end.

End Codec.

(* ===================================================================== *)
(** ** Generators *)
(* ===================================================================== *)

(** What iterating a generator gives: items, then the end or an exception. *)
Inductive gen (A : Type) : Type :=
| GDone
| GYield (a : A) (g : gen A)
| GRaise (e : exn).
Arguments GDone {A}.
Arguments GYield {A} a g.
Arguments GRaise {A} e.

(** [list(g)], [sorted(g)] and the like consume the generator to its end; an
    exception on the way leaves no list. *)
Fixpoint gen_to_list {A} (g : gen A) : result (list A) :=
  match g with
  | GDone => Ok []
  | GYield a g' => l ← gen_to_list g'; Ok (a :: l)
  | GRaise e => Raise e
  end.

Fixpoint gen_of_list {A} (l : list A) : gen A :=
  match l with
  | [] => GDone
  | a :: l' => GYield a (gen_of_list l')
  end.

(** The items yielded before the end or the exception. *)
Fixpoint gen_items {A} (g : gen A) : list A :=
  match g with
  | GYield a g' => a :: gen_items g'
  | _ => []
  end.

Fixpoint gen_raises {A} (g : gen A) : option exn :=
  match g with
  | GDone => None
  | GYield _ g' => gen_raises g'
  | GRaise e => Some e
  end.

(* ===================================================================== *)
(** ** The libraries behind an interface *)
(* ===================================================================== *)

(** A resource identity: [(apiVersion, kind, namespace, name)]. *)
Definition identity : Type := pyval * pyval * pyval * pyval.

Class Runtime : Type := {
  (** [gzip.decompress] *)
  gzip_decompress : bytes -> result bytes;
  (** [bytes.decode(enc, "surrogatepass")] for UTF-16 and UTF-32 *)
  decode_wide : Codec.encoding -> bytes -> result text;
  (** [json.JSONDecoder().decode] on the decoded text *)
  json_decode : text -> result pyval;
  (** [yaml.safe_load_all] on a [str] *)
  yaml_safe_load_all : string -> gen pyval;
  (** [sorted] on tuples that are not all made of [str] *)
  sorted_mixed : list identity -> result (list identity)
}.

Section Decoder.
Context {RT : Runtime}.

(** [s.decode(detect_encoding(s), "surrogatepass")] *)
Definition bytes_decode (s : bytes) : result text :=
  let n := map Byte.to_N s in
  match Codec.detect_encoding s with
  | Codec.UTF8 =>
      match Codec.utf8_decode n with
      | Some t => Ok t
      | None => Raise UnicodeDecodeError
      end
  | Codec.UTF8_SIG =>
      match Codec.utf8_decode (List.skipn 3 n) with
      | Some t => Ok t
      | None => Raise UnicodeDecodeError
      end
  | enc => decode_wide enc s
  end.

(** [json.loads(s)] for [bytes] *)
Definition json_loads (s : bytes) : result pyval :=
  t ← bytes_decode s; json_decode t.

Definition GZIP_MAGIC : bytes := [Byte.x1f; Byte.x8b].

Definition _try_decompress (data : bytes) : result bytes :=
  if startswith GZIP_MAGIC data then
    try_except (gzip_decompress data) is_gzip_failure (fun _ => Ok data)
  else Ok data.

Definition unsupported_format : exn :=
  RuntimeError "Unable to decode Helm release payload (unsupported format)".

(** Decode [Secret.data['release']]. *)
Definition decode_release_payload (encoded : string) : result pyval :=
  raw ← (b ← Base64.b64decode_str encoded; _try_decompress b);
  try_except (json_loads raw) is_JSONDecodeError
    (fun _ =>
       try_except
         (raw2 ← (b2 ← Base64.b64decode raw; _try_decompress b2);
          json_loads raw2)
         is_Exception
         (fun _ => Raise unsupported_format)).

(** [z] carries [x]: as it is, or gzip-compressed. *)
Inductive gz_layer (x : bytes) : bytes -> Prop :=
| layer_plain : gz_layer x x
| layer_gzip (z : bytes) :
    startswith GZIP_MAGIC z = true ->
    gzip_decompress z = Ok x ->
    gz_layer x z.

End Decoder.

(* ===================================================================== *)
(** ** Manifest extractor *)
(* ===================================================================== *)

(** The body of the loop of [manifest_objects] for one document: the
    identity it yields, [None] when the document is skipped. *)
Definition document_identity (doc : pyval) (default_ns : string)
  : result (option identity) :=
  match doc with
  | VDict d =>
      let api_ver := default VNone (dict_lookup d "apiVersion") in
      let kind := default VNone (dict_lookup d "kind") in
      let meta := default (VDict []) (dict_lookup d "metadata") in
      name ← py_get meta "name" VNone;
      ns0 ← py_get meta "namespace" VNone;
      let ns := py_or ns0 (VStr default_ns) in
      if truthy api_ver && truthy kind && truthy name
      then Ok (Some (api_ver, kind, ns, name))
      else Ok None
  | _ => Ok None
  end.

(** The loop of [manifest_objects] over the documents the loader yields. *)
Fixpoint manifest_loop (docs : gen pyval) (default_ns : string)
  : gen identity :=
  match docs with
  | GDone => GDone
  | GRaise e => GRaise e
  | GYield doc rest =>
      match document_identity doc default_ns with
      | Raise e => GRaise e
      | Ok None => manifest_loop rest default_ns
      | Ok (Some id) => GYield id (manifest_loop rest default_ns)
      end
  end.

(** What a document declares: a mapping whose [apiVersion], [kind] and
    [metadata.name] are there with a true value (not null, empty, zero or
    false) declares the identity (apiVersion, kind, namespace, name), the
    namespace being the default one when [metadata.namespace] is absent or
    has no true value; any other document declares nothing. *)
Definition declared_identity (default_ns : string) (doc : pyval)
  : option identity :=
  match doc with
  | VDict d =>
      match dict_lookup d "apiVersion", dict_lookup d "kind",
            dict_lookup d "metadata" with
      | Some api_ver, Some kind, Some (VDict meta) =>
          match dict_lookup meta "name" with
          | Some name =>
              if truthy api_ver && truthy kind && truthy name
              then Some (api_ver, kind,
                         match dict_lookup meta "namespace" with
                         | Some ns => if truthy ns then ns else VStr default_ns
                         | None => VStr default_ns
                         end,
                         name)
              else None
          | None => None
          end
      | _, _, _ => None
      end
  | _ => None
  end.

(** What the specification says of one document, in its words: a mapping
    containing [apiVersion], [kind] and [metadata.name] yields one
    identity, with the default namespace when [metadata.namespace] is
    absent or empty.  It asks nothing of the values. *)
Definition spec_identity (default_ns : string) (doc : pyval)
  : option identity :=
  match doc with
  | VDict d =>
      match dict_lookup d "apiVersion", dict_lookup d "kind",
            dict_lookup d "metadata" with
      | Some api_ver, Some kind, Some (VDict meta) =>
          match dict_lookup meta "name" with
          | Some name =>
              Some (api_ver, kind,
                    match dict_lookup meta "namespace" with
                    | None | Some (VStr "") => VStr default_ns
                    | Some ns => ns
                    end,
                    name)
          | None => None
          end
      | _, _, _ => None
      end
  | _ => None
  end.

(** The [metadata] of a document is a mapping when it is there at all. *)
Definition metadata_ok (doc : pyval) : bool :=
  match doc with
  | VDict d =>
      match dict_lookup d "metadata" with
      | Some (VDict _) | None => true
      | Some _ => false
      end
  | _ => true
  end.

Section Extractor.
Context {RT : Runtime}.

(** Yield tuples (apiVersion, kind, namespace, name). *)
Definition manifest_objects (manifest_yaml : string) (default_ns : string)
  : gen identity :=
  manifest_loop (yaml_safe_load_all manifest_yaml) default_ns.

End Extractor.

(* ===================================================================== *)
(** ** Orchestration *)
(* ===================================================================== *)

(** Return True if the object currently exists in the cluster. *)
Definition object_exists (dyn_client : K8s.DynamicClient)
    (api_version kind namespace name : pyval) : result bool :=
  match K8s.resources_get dyn_client api_version kind with
  | Raise e => if is_DynamicApiError e then Ok false else Raise e
  | Ok res =>
      try_except
        (_ ← (if K8s.namespaced res
              then K8s.get res name (Some namespace)
              else K8s.get res name None);
         Ok true)
        is_NotFoundError
        (fun _ => Ok false)
  end.

(** Tuples of four [str] compare item by item, a [str] by code points. *)
Definition identity_all_str (id : identity) : bool :=
  match id with
  | (VStr _, VStr _, VStr _, VStr _) => true
  | _ => false
  end.

Definition lex (c1 c2 : comparison) : comparison :=
  match c1 with Eq => c2 | _ => c1 end.

Definition pyval_str_compare (a b : pyval) : comparison :=
  match a, b with
  | VStr x, VStr y => String.compare x y
  | _, _ => Eq
  end.

Definition identity_compare (a b : identity) : comparison :=
  let '(a1, a2, a3, a4) := a in
  let '(b1, b2, b3, b4) := b in
  lex (pyval_str_compare a1 b1)
    (lex (pyval_str_compare a2 b2)
       (lex (pyval_str_compare a3 b3) (pyval_str_compare a4 b4))).

Definition identity_ltb (a b : identity) : bool :=
  match identity_compare a b with Lt => true | _ => false end.

(** [list.sort] is a stable comparison sort that only asks [<]; so is
    insertion from the right, which gives the same list. *)
Fixpoint sorted_insert (x : identity) (l : list identity) : list identity :=
  match l with
  | [] => [x]
  | y :: l' => if identity_ltb y x then y :: sorted_insert x l' else x :: y :: l'
  end.

Fixpoint insertion_sort (l : list identity) : list identity :=
  match l with
  | [] => []
  | x :: l' => sorted_insert x (insertion_sort l')
  end.

(** What the script prints, line by line. *)
Inductive event : Type :=
| PrintHeader (name : string) (revision : pyval) (namespace : string)
| PrintRule
| PrintLine (kind name : pyval) (live : bool)
| PrintWarning.

(** A run of the script: the lines printed, then a value or an exception. *)
Definition io (A : Type) : Type := list event * result A.

Definition io_ret {A} (a : A) : io A := ([], Ok a).

Definition io_bind {A B} (m : io A) (k : A -> io B) : io B :=
  match m with
  | (out, Ok a) => let '(out', r) := k a in (out ++ out', r)
  | (out, Raise e) => (out, Raise e)
  end.

Definition print (e : event) : io unit := ([e], Ok tt).
Definition lift {A} (r : result A) : io A := ([], r).
Definition sys_exit {A} (msg : string) : io A := ([], Raise (SystemExit msg)).

(** [format(v, "<25")]: only [str], numbers and dates take the format. *)
Definition format_left (v : pyval) : result unit :=
  match v with
  | VStr _ | VInt _ | VBool _ | VFloat _ | VDate _ => Ok tt
  | _ => Raise TypeError
  end.

Record Args : Type := {
  arg_name : string;
  arg_namespace : string;
  arg_revision : option Z
}.

Definition not_found_message (args : Args) : string :=
  let rev_msg :=
    match arg_revision args with
    | Some r => " revision=" +:+ pretty r
    | None => " (latest)"
    end in
  "Helm Secret for release '" +:+ arg_name args +:+ "'" +:+ rev_msg
    +:+ " not found in namespace '" +:+ arg_namespace args +:+ "'.".

(** [object_exists] on the items of an identity. *)
Definition identity_exists (dyn : K8s.DynamicClient) (id : identity)
  : result bool :=
  let '(api_ver, kind, ns, name) := id in
  object_exists dyn api_ver kind ns name.

(** The line of the report for an identity that is live or not. *)
Definition report_line (live : identity -> bool) (id : identity) : event :=
  let '(_, kind, _, name) := id in PrintLine kind name (live id).

Section Main.
Context {RT : Runtime}.

(** [sorted(ids)] *)
Definition py_sorted (ids : list identity) : result (list identity) :=
  match ids with
  | [] | [_] => Ok ids
  | _ =>
      if forallb identity_all_str ids then Ok (insertion_sort ids)
      else sorted_mixed ids
  end.

(** The [for] loop of [main] over the sorted identities; the result is
    [exists_any] after the loop. *)
Fixpoint report_loop (dyn : K8s.DynamicClient) (ids : list identity)
    (exists_any : bool) : io bool :=
  match ids with
  | [] => io_ret exists_any
  | (api_ver, kind, ns, name) :: rest =>
      io_bind (lift (object_exists dyn api_ver kind ns name)) (fun live =>
      io_bind (lift (format_left kind)) (fun _ =>
      io_bind (print (PrintLine kind name live)) (fun _ =>
      report_loop dyn rest (exists_any || live))))
  end.

(** [manifest_objects(manifest, ns)] when [manifest] is the value found in
    the payload: the YAML loader reads a [str]; any other object has no
    [read] method. *)
Definition manifest_objects_of (manifest : pyval) (default_ns : string)
  : gen identity :=
  match manifest with
  | VStr m => manifest_objects m default_ns
  | _ => GRaise AttributeError
  end.

Definition main (dyn : K8s.DynamicClient) (args : Args) : io unit :=
  io_bind (lift (find_release_secret dyn (arg_name args) (arg_namespace args)
                   (arg_revision args))) (fun secret =>
  match secret with
  | None => sys_exit (not_found_message args)
  | Some secret =>
      io_bind (lift (match K8s.data secret !! "release" with
                     | Some encoded => decode_release_payload encoded
                     | None => Raise TypeError
                     end)) (fun release =>
      io_bind (lift (py_get release "version" (VStr "?"))) (fun revision =>
      io_bind (lift (py_get release "manifest" VNone)) (fun manifest =>
      match manifest with
      | VNone => sys_exit "[ERROR] Release payload missing 'manifest' field."
      | _ =>
          io_bind (print (PrintHeader (arg_name args) revision
                            (arg_namespace args))) (fun _ =>
          io_bind (print PrintRule) (fun _ =>
          io_bind (lift (ids ← gen_to_list
                                 (manifest_objects_of manifest
                                    (arg_namespace args));
                         py_sorted ids)) (fun ids =>
          io_bind (report_loop dyn ids false) (fun exists_any =>
          if negb exists_any then print PrintWarning else io_ret tt))))
      end)))
  end).

End Main.

(* ===================================================================== *)
(** ** A small cluster and test doubles for the libraries *)
(* ===================================================================== *)

(** The test doubles answer as the libraries do on the inputs listed here
    (the values were taken from CPython 3.11 and PyYAML); they serve to run
    the embedding on concrete inputs. *)
Module Fixture.

Definition newline : string := String (ascii_of_N 10) EmptyString.

(** The lines of a text, each ended by a newline. *)
Fixpoint unlines (ls : list string) : string :=
  match ls with
  | [] => EmptyString
  | l :: ls' => l +:+ newline +:+ unlines ls'
  end.

Fixpoint codes_eqb (a b : list N) : bool :=
  match a, b with
  | [], [] => true
  | x :: a', y :: b' => (x =? y)%N && codes_eqb a' b'
  | _, _ => false
  end.

Definition bytes_eqb (a b : bytes) : bool :=
  codes_eqb (map Byte.to_N a) (map Byte.to_N b).

(** A manifest of three documents. *)
Definition manifest : string :=
  unlines
    ["apiVersion: v1";
     "kind: ConfigMap";
     "metadata:";
     "  name: cm1";
     "---";
     "apiVersion: v1";
     "kind: Service";
     "metadata:";
     "  name: svc1";
     "  namespace: edge";
     "---";
     "apiVersion: apps/v1";
     "kind: Deployment";
     "metadata:";
     "  name: web"].

Definition doc (api_version kind : string) (meta : list (pyval * pyval))
  : pyval :=
  VDict [(VStr "apiVersion", VStr api_version); (VStr "kind", VStr kind);
         (VStr "metadata", VDict meta)].

Definition doc_cm1 : pyval := doc "v1" "ConfigMap" [(VStr "name", VStr "cm1")].
Definition doc_svc1 : pyval :=
  doc "v1" "Service" [(VStr "name", VStr "svc1"); (VStr "namespace", VStr "edge")].
Definition doc_web : pyval :=
  doc "apps/v1" "Deployment" [(VStr "name", VStr "web")].

(** A document with no [kind], a document that is a plain scalar, and a
    document whose [metadata] has no value. *)
Definition doc_no_kind : pyval :=
  VDict [(VStr "apiVersion", VStr "v1");
         (VStr "metadata", VDict [(VStr "name", VStr "cm2")])].
Definition doc_scalar : pyval := VStr "just some text".
Definition doc_null_metadata : pyval :=
  VDict [(VStr "apiVersion", VStr "v1"); (VStr "kind", VStr "ConfigMap");
         (VStr "metadata", VNone)].

(** A ConfigMap whose name was rendered as the empty string. *)
Definition doc_empty_name : pyval :=
  doc "v1" "ConfigMap" [(VStr "name", VStr EmptyString)].

Definition manifest_one : string :=
  unlines ["apiVersion: v1"; "kind: ConfigMap"; "metadata:"; "  name: cm1"].
Definition manifest_no_kind : string :=
  unlines ["apiVersion: v1"; "metadata:"; "  name: cm2"].
Definition manifest_mixed : string :=
  unlines ["apiVersion: v1"; "kind: ConfigMap"; "metadata:"; "  name: cm1";
           "---"; "just some text";
           "---"; "apiVersion: apps/v1"; "kind: Deployment"; "metadata:";
           "  name: web"].
Definition manifest_null_metadata : string :=
  unlines ["apiVersion: v1"; "kind: ConfigMap"; "metadata:"; "  name: cm1";
           "---"; "apiVersion: v1"; "kind: ConfigMap"; "metadata:"].
Definition manifest_syntax_error : string :=
  unlines ["apiVersion: v1"; "kind: ConfigMap"; "metadata:"; "  name: cm1";
           "---"; "kind: ["].
Definition manifest_empty_name : string :=
  unlines ["apiVersion: v1"; "kind: ConfigMap"; "metadata:"; "  name: ''"].
Definition manifest_comment_only : string :=
  unlines ["---"; "# nothing is deployed by this release"].

(** [yaml.safe_load_all] on the manifests above. *)
Definition yaml_table : list (string * gen pyval) :=
  [(manifest, gen_of_list [doc_cm1; doc_svc1; doc_web]);
   (manifest_one, gen_of_list [doc_cm1]);
   (manifest_no_kind, gen_of_list [doc_no_kind]);
   (manifest_mixed, gen_of_list [doc_cm1; doc_scalar; doc_web]);
   (manifest_null_metadata, gen_of_list [doc_cm1; doc_null_metadata]);
   (manifest_syntax_error, GYield doc_cm1 (GRaise YAMLError));
   (manifest_comment_only, gen_of_list [VNone]);
   (manifest_empty_name, gen_of_list [doc_empty_name]);
   (EmptyString, GDone)].

Fixpoint yaml_lookup (table : list (string * gen pyval)) (s : string)
  : gen pyval :=
  match table with
  | [] => GRaise YAMLError
  | (k, g) :: table' => if String.eqb k s then g else yaml_lookup table' s
  end.

(** The release record of revision 3 as [json.dumps] writes it:
    a JSON object with the keys name, version and manifest. *)
Definition release_json : bytes :=
  bytes_of_codes
   [123; 34; 110; 97; 109; 101; 34; 58; 32; 34; 109; 121; 114; 101; 108;
    34; 44; 32; 34; 118; 101; 114; 115; 105; 111; 110; 34; 58; 32; 51; 44;
    32; 34; 109; 97; 110; 105; 102; 101; 115; 116; 34; 58; 32; 34; 97; 112;
    105; 86; 101; 114; 115; 105; 111; 110; 58; 32; 118; 49; 92; 110; 107;
    105; 110; 100; 58; 32; 67; 111; 110; 102; 105; 103; 77; 97; 112; 92;
    110; 109; 101; 116; 97; 100; 97; 116; 97; 58; 92; 110; 32; 32; 110; 97;
    109; 101; 58; 32; 99; 109; 49; 92; 110; 45; 45; 45; 92; 110; 97; 112;
    105; 86; 101; 114; 115; 105; 111; 110; 58; 32; 118; 49; 92; 110; 107;
    105; 110; 100; 58; 32; 83; 101; 114; 118; 105; 99; 101; 92; 110; 109;
    101; 116; 97; 100; 97; 116; 97; 58; 92; 110; 32; 32; 110; 97; 109; 101;
    58; 32; 115; 118; 99; 49; 92; 110; 32; 32; 110; 97; 109; 101; 115; 112;
    97; 99; 101; 58; 32; 101; 100; 103; 101; 92; 110; 45; 45; 45; 92; 110;
    97; 112; 105; 86; 101; 114; 115; 105; 111; 110; 58; 32; 97; 112; 112;
    115; 47; 118; 49; 92; 110; 107; 105; 110; 100; 58; 32; 68; 101; 112;
    108; 111; 121; 109; 101; 110; 116; 92; 110; 109; 101; 116; 97; 100; 97;
    116; 97; 58; 92; 110; 32; 32; 110; 97; 109; 101; 58; 32; 119; 101; 98;
    92; 110; 34; 125]%N.

Definition release : pyval :=
  VDict [(VStr "name", VStr "myrel"); (VStr "version", VInt 3);
         (VStr "manifest", VStr manifest)].

(** The same record with no deployable resource, and with no manifest. *)
Definition release_empty_json : bytes :=
  bytes_of_codes
   [123; 34; 110; 97; 109; 101; 34; 58; 32; 34; 109; 121; 114; 101; 108;
    34; 44; 32; 34; 118; 101; 114; 115; 105; 111; 110; 34; 58; 32; 49; 44;
    32; 34; 109; 97; 110; 105; 102; 101; 115; 116; 34; 58; 32; 34; 45; 45;
    45; 92; 110; 35; 32; 110; 111; 116; 104; 105; 110; 103; 32; 105; 115;
    32; 100; 101; 112; 108; 111; 121; 101; 100; 32; 98; 121; 32; 116; 104;
    105; 115; 32; 114; 101; 108; 101; 97; 115; 101; 92; 110; 34; 125]%N.

Definition release_empty : pyval :=
  VDict [(VStr "name", VStr "myrel"); (VStr "version", VInt 1);
         (VStr "manifest", VStr manifest_comment_only)].

(** A record with no manifest at all. *)
Definition release_incomplete_json : bytes :=
  bytes_of_codes
   [123; 34; 110; 97; 109; 101; 34; 58; 32; 34; 109; 121; 114; 101; 108;
    34; 44; 32; 34; 118; 101; 114; 115; 105; 111; 110; 34; 58; 32; 50; 125]%N.

Definition release_incomplete : pyval :=
  VDict [(VStr "name", VStr "myrel"); (VStr "version", VInt 2)].

(** [gzip.compress(release_json, mtime=0)] *)
Definition release_gzip : bytes :=
  bytes_of_codes
   [31; 139; 8; 0; 0; 0; 0; 0; 2; 3; 109; 140; 177; 10; 2; 49; 16; 68; 127;
    101; 73; 109; 144; 195; 46; 173; 182; 86; 130; 85; 154; 53; 217; 59;
    130; 151; 205; 114; 9; 57; 14; 241; 223; 205; 33; 98; 147; 114; 102;
    222; 188; 151; 98; 140; 164; 12; 168; 184; 45; 52; 171; 3; 168; 74; 75;
    14; 137; 91; 119; 106; 41; 34; 135; 145; 114; 217; 17; 148; 112; 255;
    142; 6; 234; 96; 249; 25; 216; 27; 56; 39; 30; 195; 116; 69; 177; 28;
    169; 160; 199; 130; 198; 50; 192; 46; 54; 224; 98; 3; 181; 214; 150;
    251; 239; 27; 45; 53; 56; 234; 126; 115; 117; 195; 47; 101; 65; 215;
    42; 242; 19; 117; 124; 40; 146; 143; 127; 233; 133; 100; 78; 91; 36;
    46; 93; 239; 74; 15; 203; 234; 253; 1; 88; 7; 22; 48; 252; 0; 0; 0]%N.

(** A gzip header cut short after the magic. *)
Definition truncated_gzip : bytes := [Byte.x1f; Byte.x8b].

Definition fixture_gzip_decompress (data : bytes) : result bytes :=
  if bytes_eqb data release_gzip then Ok release_json
  else if bytes_eqb data truncated_gzip then Raise EOFError
  else Raise BadGzipFile.

Definition fixture_json_decode (t : text) : result pyval :=
  if codes_eqb t (map Byte.to_N release_json) then Ok release
  else if codes_eqb t (map Byte.to_N release_empty_json) then Ok release_empty
  else if codes_eqb t (map Byte.to_N release_incomplete_json)
  then Ok release_incomplete
  else Raise JSONDecodeError.

Global Instance runtime : Runtime :=
  {| gzip_decompress := fixture_gzip_decompress;
     decode_wide := fun _ _ => Raise UnicodeDecodeError;
     json_decode := fixture_json_decode;
     yaml_safe_load_all := yaml_lookup yaml_table;
     sorted_mixed := fun _ => Raise TypeError |}.

Definition secret (name : string) (labels : list (string * string))
    (release : string) : K8s.Secret :=
  {| K8s.metadata := {| K8s.name := name; K8s.labels := list_to_map labels |};
     K8s.data := {[ "release" := release ]} |}.

Definition helm_labels (version : string) : list (string * string) :=
  [("owner", "helm"); ("name", "myrel"); ("version", version)].

(** Payloads: one level of base64, with and without gzip, and the double
    wrapping of a record Helm stores in a Secret. *)
Definition payload_plain : string := Base64.b64encode_str release_json.
Definition payload_gzip : string := Base64.b64encode_str release_gzip.
Definition payload_double : string :=
  Base64.b64encode_str (Base64.b64encode release_gzip).
Definition payload_triple : string :=
  Base64.b64encode_str (Base64.b64encode (Base64.b64encode release_gzip)).
Definition payload_empty : string := Base64.b64encode_str release_empty_json.

(** A record named the legacy way, with no [version] label. *)
Definition legacy_v7 : K8s.Secret :=
  secret "sh.helm.release.v1.myrel.v7" [("owner", "helm"); ("name", "myrel")]
    payload_plain.

Definition rev1 : K8s.Secret :=
  secret "sh.helm.release.v1.myrel.v1" (helm_labels "1") payload_empty.
Definition rev2 : K8s.Secret :=
  secret "sh.helm.release.v1.myrel.v2" (helm_labels "2") payload_gzip.
Definition rev3 : K8s.Secret :=
  secret "sh.helm.release.v1.myrel.v3" (helm_labels "3") payload_double.

Definition candidates : list K8s.Secret := [rev2; rev3; rev1].

(** The record store: the release "myrel" in the namespace "default". *)
Definition secrets : K8s.Resource :=
  {| K8s.namespaced := true;
     K8s.get := fun _ _ => Raise NotFoundError;
     K8s.list_items := fun ns sel =>
       if String.eqb ns "default" && String.eqb sel "owner=helm,name=myrel"
       then Ok candidates else Ok [] |}.

(** The live objects of the cluster: only the ConfigMap "cm1" exists. *)
Definition live (id : identity) : bool :=
  match id with
  | (VStr "v1", VStr "ConfigMap", VStr "default", VStr "cm1") => true
  | _ => false
  end.

Definition kind_resource (api_version kind : pyval) : K8s.Resource :=
  {| K8s.namespaced := true;
     K8s.get := fun name namespace =>
       match namespace with
       | Some ns => if live (api_version, kind, ns, name) then Ok tt
                    else Raise NotFoundError
       | None => Raise NotFoundError
       end;
     K8s.list_items := fun _ _ => Ok [] |}.

Definition dyn : K8s.DynamicClient :=
  {| K8s.resources_get := fun api_version kind =>
       match api_version, kind with
       | VStr "v1", VStr "Secret" => Ok secrets
       | VStr "v1", VStr "ConfigMap" | VStr "v1", VStr "Service"
       | VStr "apps/v1", VStr "Deployment" => Ok (kind_resource api_version kind)
       | _, _ => Raise (Other "ResourceNotFoundError")
       end |}.

(** The same cluster after the release was purged: nothing is live. *)
Definition purged_resource : K8s.Resource :=
  {| K8s.namespaced := true;
     K8s.get := fun _ _ => Raise NotFoundError;
     K8s.list_items := fun _ _ => Ok [] |}.

Definition dyn_purged : K8s.DynamicClient :=
  {| K8s.resources_get := fun api_version kind =>
       match api_version, kind with
       | VStr "v1", VStr "Secret" => Ok secrets
       | _, _ => Ok purged_resource
       end |}.

(** A store whose only record has no manifest. *)
Definition incomplete : K8s.Secret :=
  secret "sh.helm.release.v1.myrel.v2" (helm_labels "2")
    (Base64.b64encode_str release_incomplete_json).

Definition dyn_incomplete : K8s.DynamicClient :=
  {| K8s.resources_get := fun _ _ =>
       Ok {| K8s.namespaced := true;
             K8s.get := fun _ _ => Raise NotFoundError;
             K8s.list_items := fun _ _ => Ok [incomplete] |} |}.

Definition args_latest : Args :=
  {| arg_name := "myrel"; arg_namespace := "default"; arg_revision := None |}.

Definition args_rev (r : Z) : Args :=
  {| arg_name := "myrel"; arg_namespace := "default"; arg_revision := Some r |}.

End Fixture.

(** A line of the report, and whether it marks its resource as live. *)
Definition is_report_line (e : event) : bool :=
  match e with PrintLine _ _ _ => true | _ => false end.

Definition line_is_live (e : event) : bool :=
  match e with PrintLine _ _ live => live | _ => false end.

(** [a] may stand before [b] in a sorted list: [b < a] does not hold. *)
Definition identity_le (a b : identity) : Prop := identity_ltb b a = false.

(** Further clusters, for the properties that need a failing store, a
    malformed label or a different listing order. *)
Module Scenario.

(** A [version] label holding the superscript two (U+00B2), which
    [str.isdigit] accepts and [int] rejects. *)
Definition superscript_label : string := String (ascii_of_N 178) EmptyString.

Definition bad_label : K8s.Secret :=
  Fixture.secret "sh.helm.release.v1.myrel.v9"
    (Fixture.helm_labels superscript_label) Fixture.payload_plain.

Definition store (items : result (list K8s.Secret)) : K8s.Resource :=
  {| K8s.namespaced := true;
     K8s.get := fun _ _ => Raise NotFoundError;
     K8s.list_items := fun _ _ => items |}.

(** The release "myrel" as an older Helm stored it: the revision is in the
    name alone, the records carry no [version] label. *)
Definition legacy_v1 : K8s.Secret :=
  Fixture.secret "sh.helm.release.v1.myrel.v1"
    [("owner", "helm"); ("name", "myrel")] Fixture.payload_plain.

Definition legacy_listing : list K8s.Secret := [legacy_v1; Fixture.legacy_v7].

(** A client whose record store answers every listing with [items]. *)
Definition dyn_listing (items : result (list K8s.Secret))
  : K8s.DynamicClient :=
  {| K8s.resources_get := fun _ _ => Ok (store items) |}.

(** The cluster that holds the legacy records. *)
Definition dyn_legacy : K8s.DynamicClient := dyn_listing (Ok legacy_listing).

(** A client that cannot reach the API server at all. *)
Definition dyn_unreachable : K8s.DynamicClient :=
  {| K8s.resources_get := fun _ _ => Raise (Other "MaxRetryError") |}.

(** A runtime whose JSON parser returns [v] for every text; the YAML
    loader is the one of [Fixture]. *)
Definition runtime_json (v : pyval) : Runtime :=
  {| gzip_decompress := fun _ => Raise BadGzipFile;
     decode_wide := fun _ _ => Raise UnicodeDecodeError;
     json_decode := fun _ => Ok v;
     yaml_safe_load_all := Fixture.yaml_lookup Fixture.yaml_table;
     sorted_mixed := fun _ => Raise TypeError |}.

(** A record whose payload is the gzip magic and nothing else. *)
Definition corrupt : K8s.Secret :=
  Fixture.secret "sh.helm.release.v1.myrel.v4" (Fixture.helm_labels "4") "H4s=".

(** A cluster that serves Deployments (none is live) and knows no other
    kind: resolving one raises an error that is no [DynamicApiError]. *)
Definition dyn_partial : K8s.DynamicClient :=
  {| K8s.resources_get := fun api_version kind =>
       match api_version, kind with
       | VStr "v1", VStr "Secret" => Ok Fixture.secrets
       | VStr "apps/v1", VStr "Deployment" => Ok Fixture.purged_resource
       | _, _ => Raise (Other "ResourceNotFoundError")
       end |}.

End Scenario.
(* ===================================================================== *)
(** ** Facts about the string functions *)
(* ===================================================================== *)

Module StrFacts.
Import Str.

Lemma append_cons (c : ascii) (s t : string) :
  String.append (String c s) t = String c (String.append s t).
Proof. reflexivity. Qed.

Lemma rev_acc_append (s acc : string) :
  rev_acc s acc = String.append (rev s) acc.
Proof.
  unfold rev. revert acc.
  assert (G : forall s a b, rev_acc s (String.append a b)
                            = String.append (rev_acc s a) b).
  { clear s. induction s as [|c s IH]; intros a b; simpl; [reflexivity|].
    apply (IH (String c a) b). }
  intros acc. apply (G s EmptyString acc).
Qed.

Lemma rev_acc_twice (s a b : string) :
  rev_acc (rev_acc s a) b = rev_acc a (String.append s b).
Proof.
  revert a b. induction s as [|c s IH]; intros a b; simpl; [reflexivity|].
  rewrite IH, append_cons. reflexivity.
Qed.

Lemma append_empty_r (s : string) : String.append s EmptyString = s.
Proof.
  induction s as [|c s IH]; [reflexivity|]. now rewrite append_cons, IH.
Qed.

Lemma rev_involutive (s : string) : rev (rev s) = s.
Proof. unfold rev. rewrite rev_acc_twice. simpl. apply append_empty_r. Qed.

Lemma rev_acc_of_append (x y acc : string) :
  rev_acc (String.append x y) acc = rev_acc y (rev_acc x acc).
Proof.
  revert acc. induction x as [|c x IH]; intros acc; [reflexivity|].
  rewrite append_cons. simpl. apply IH.
Qed.

Lemma all_chars_rev_acc (p : ascii -> bool) (s acc : string) :
  all_chars p (rev_acc s acc) = all_chars p s && all_chars p acc.
Proof.
  revert acc. induction s as [|c s IH]; intros acc; simpl; [reflexivity|].
  rewrite IH. simpl. destruct (p c), (all_chars p s); reflexivity.
Qed.

Lemma all_chars_rev (p : ascii -> bool) (s : string) :
  all_chars p (rev s) = all_chars p s.
Proof.
  unfold rev. rewrite all_chars_rev_acc. simpl. apply andb_true_r.
Qed.

Lemma all_chars_impl (p q : ascii -> bool) (s : string) :
  (forall c, p c = true -> q c = true) ->
  all_chars p s = true -> all_chars q s = true.
Proof.
  intros Hpq. induction s as [|c s IH]; simpl; [reflexivity|].
  intros H. apply andb_true_iff in H as [Hc Hs].
  now rewrite (Hpq c Hc), (IH Hs).
Qed.

Lemma lstrip_space_none (s : string) :
  all_chars (fun c => negb (is_space c)) s = true -> lstrip_space s = s.
Proof.
  destruct s as [|c s]; simpl; [reflexivity|].
  intros H. apply andb_true_iff in H as [Hc _].
  apply negb_true_iff in Hc. now rewrite Hc.
Qed.

Lemma strip_none (s : string) :
  all_chars (fun c => negb (is_space c)) s = true -> strip s = s.
Proof.
  intros H. unfold strip. rewrite (lstrip_space_none s H).
  rewrite lstrip_space_none by now rewrite all_chars_rev.
  apply rev_involutive.
Qed.

Lemma decimal_not_space (c : ascii) :
  is_decimal c = true -> negb (is_space c) = true.
Proof.
  unfold is_decimal, is_space. intros H.
  apply andb_true_iff in H as [H1 H2].
  apply N.leb_le in H1. apply N.leb_le in H2.
  apply negb_true_iff.
  repeat (apply orb_false_iff; split);
    first [ apply andb_false_iff; (left; apply N.leb_gt; lia) || (right; apply N.leb_gt; lia)
          | apply N.eqb_neq; lia ].
Qed.

Lemma decimal_acc_nonneg (s : string) (acc : Z) :
  all_chars is_decimal s = true -> 0 <= acc -> 0 <= decimal_acc s acc.
Proof.
  revert acc. induction s as [|c s IH]; intros acc; simpl; [auto|].
  intros H Hacc. apply andb_true_iff in H as [Hc Hs].
  apply IH; [exact Hs|].
  unfold is_decimal in Hc. apply andb_true_iff in Hc as [H1 H2].
  apply N.leb_le in H1. unfold digit_val. lia.
Qed.

Lemma int_digits_decimal (s : string) (prev : bool) (acc : Z) (n : N) :
  all_chars is_decimal s = true ->
  int_digits s prev acc n =
    match s with
    | EmptyString => if prev then Some (acc, n) else None
    | _ => Some (decimal_acc s acc, (n + N.of_nat (String.length s))%N)
    end.
Proof.
  revert prev acc n. induction s as [|c s IH]; intros prev acc n; simpl.
  - reflexivity.
  - intros H. apply andb_true_iff in H as [Hc Hs]. rewrite Hc.
    rewrite (IH true _ _ Hs). destruct s as [|c' s'].
    + simpl. f_equal. f_equal. lia.
    + f_equal. f_equal. simpl String.length. lia.
Qed.

(** [int] reads a string of ASCII digits as its decimal value. *)
Lemma int_decimal (s : string) :
  s <> EmptyString ->
  all_chars is_decimal s = true ->
  (N.of_nat (String.length s) <= int_max_str_digits)%N ->
  int s = Ok (decimal_value s).
Proof.
  intros Hne Hd Hlen. unfold int.
  rewrite strip_none
    by (eapply all_chars_impl; [apply decimal_not_space | exact Hd]).
  destruct s as [|c s]; [congruence|].
  assert (Hc : is_decimal c = true)
    by (simpl in Hd; now apply andb_true_iff in Hd as [? _]).
  assert (Hsign : (if Ascii.eqb c "-" then true else false) = false
                  /\ (if Ascii.eqb c "+" then true else false) = false).
  { split.
    - destruct (Ascii.eqb_spec c "-"%char) as [->|]; [discriminate Hc|reflexivity].
    - destruct (Ascii.eqb_spec c "+"%char) as [->|]; [discriminate Hc|reflexivity]. }
  assert (Hbody : (let '(neg, body) :=
             match String c s with
             | String "-"%char r => (true, r)
             | String "+"%char r => (false, r)
             | _ => (false, String c s)
             end in (neg, body)) = (false, String c s)).
  { destruct Hsign as [Hm Hp].
    destruct (Ascii.eqb_spec c "-"%char) as [->|Hn1]; [discriminate|].
    destruct (Ascii.eqb_spec c "+"%char) as [->|Hn2]; [discriminate|].
    destruct c as [[] [] [] [] [] [] [] []]; try reflexivity; congruence. }
  destruct (match String c s with
            | String "-"%char r => (true, r)
            | String "+"%char r => (false, r)
            | _ => (false, String c s)
            end) as [neg body] eqn:E.
  injection Hbody as -> ->.
  rewrite (int_digits_decimal _ _ _ _ Hd).
  replace (0 + N.of_nat (String.length (String c s)))%N
    with (N.of_nat (String.length (String c s))) by lia.
  destruct (N.ltb_spec int_max_str_digits (N.of_nat (String.length (String c s))));
    [lia|reflexivity].
Qed.

End StrFacts.

(* ===================================================================== *)
(** ** The revision of a record *)
(* ===================================================================== *)

Module SuffixFacts.
Import Str StrFacts.

Lemma rfind_dot_spec (s : string) (i : nat) (last : option nat) (j : nat) :
  rfind_dot s i last = Some j ->
  last = Some j
  \/ exists r, (i <= j)%nat /\ drop (j - i) s = String "."%char r.
Proof.
  revert i last. induction s as [|c s IH]; intros i last; simpl.
  - intros ->. now left.
  - intros H. apply IH in H as [H | (r & Hle & Hd)].
    + destruct (Ascii.eqb_spec c "."%char) as [->|_].
      * injection H as <-. right. exists s. split; [lia|].
        now rewrite Nat.sub_diag.
      * now left.
    + right. exists r. split; [lia|].
      replace (j - i)%nat with (S (j - S i)) by lia. exact Hd.
Qed.

(** A suffix is empty or begins with the dot. *)
Lemma PurePath_suffix_shape (p : string) :
  PurePath_suffix p = EmptyString
  \/ exists r, PurePath_suffix p = String "."%char r.
Proof.
  unfold PurePath_suffix.
  destruct (rfind_dot (PurePath_name p) 0 None) as [i|] eqn:E; [|now left].
  destruct ((0 <? i)%nat && (i <? String.length (PurePath_name p) - 1)%nat);
    [|now left].
  apply rfind_dot_spec in E as [E | (r & _ & Hd)]; [discriminate|].
  right. exists r. now rewrite Nat.sub_0_r in Hd.
Qed.

Lemma lstrip_space_before_dot (w : string) :
  exists w', lstrip_space (String.append w (String "."%char EmptyString))
             = String.append w' (String "."%char EmptyString).
Proof.
  induction w as [|c w [w' IH]].
  - exists EmptyString. reflexivity.
  - rewrite append_cons. simpl. destruct (is_space c).
    + exists w'. exact IH.
    + exists (String c w). reflexivity.
Qed.

Lemma strip_keeps_dot (r : string) :
  exists r', strip (String "."%char r) = String "."%char r'.
Proof.
  unfold strip.
  change (lstrip_space (String "."%char r)) with (String "."%char r).
  unfold rev at 2. simpl rev_acc. rewrite rev_acc_append.
  destruct (lstrip_space_before_dot (rev r)) as [w' ->].
  exists (rev w'). unfold rev at 1. now rewrite rev_acc_of_append.
Qed.

(** [int] rejects whatever begins with a dot, and the empty string. *)
Lemma int_dot (r : string) : int (String "."%char r) = Raise ValueError.
Proof.
  unfold int. destruct (strip_keeps_dot r) as [r' ->]. reflexivity.
Qed.

(** The fallback of [secret_version] never reads a number: the suffix still
    carries its dot when [int] is applied, since [lstrip("v")] only drops
    leading "v"s. *)
Lemma suffix_fallback_fails (p : string) :
  int (lstrip "v" (PurePath_suffix p)) = Raise ValueError.
Proof.
  destruct (PurePath_suffix_shape p) as [-> | [r ->]].
  - reflexivity.
  - change (lstrip "v" (String "."%char r)) with (String "."%char r).
    apply int_dot.
Qed.

End SuffixFacts.

Lemma version_label_read (sec : K8s.Secret) :
  label sec "get" = None -> version_label sec = Ok (version_text sec).
Proof. unfold version_label, labels_get, version_text. now intros ->. Qed.

Lemma version_label_get (sec : K8s.Secret) (x : string) :
  label sec "get" = Some x -> secret_version sec = Raise TypeError.
Proof.
  unfold secret_version, version_label, labels_get. now intros ->.
Qed.

Lemma secret_version_label (sec : K8s.Secret) :
  label sec "get" = None ->
  Str.isdigit (version_text sec) = true ->
  secret_version sec = Str.int (version_text sec).
Proof.
  intros Hget Hd. unfold secret_version.
  rewrite (version_label_read sec Hget). simpl. now rewrite Hd.
Qed.

Lemma secret_version_no_label (sec : K8s.Secret) :
  label sec "get" = None ->
  Str.isdigit (version_text sec) = false ->
  secret_version sec = Ok 0.
Proof.
  intros Hget Hd. unfold secret_version.
  rewrite (version_label_read sec Hget). simpl. rewrite Hd.
  now rewrite SuffixFacts.suffix_fallback_fails.
Qed.

Lemma ascii_digit_is_decimal (c : ascii) :
  Str.is_digit_char c = true -> (Str.code c <? 128)%N = true ->
  Str.is_decimal c = true.
Proof.
  unfold Str.is_digit_char. intros H Hc. apply N.ltb_lt in Hc.
  repeat (apply orb_true_iff in H as [H|H]); [exact H| | |];
    apply N.eqb_eq in H; lia.
Qed.

Lemma ascii_digits_decimal (s : string) :
  Str.all_chars Str.is_digit_char s = true -> Str.is_ascii s = true ->
  Str.all_chars Str.is_decimal s = true.
Proof.
  unfold Str.is_ascii. induction s as [|c s IH]; simpl; [reflexivity|].
  intros H1 H2. apply andb_true_iff in H1 as [Hc1 Hs1].
  apply andb_true_iff in H2 as [Hc2 Hs2].
  now rewrite (ascii_digit_is_decimal c Hc1 Hc2), (IH Hs1 Hs2).
Qed.

Lemma version_label_ok_inv (sec : K8s.Secret) :
  version_label_ok sec = true ->
  label sec "get" = None
  /\ Str.is_ascii (version_text sec) = true
  /\ (String.length (version_text sec) <= 63)%nat.
Proof.
  unfold version_label_ok. destruct (label sec "get"); [discriminate|].
  intros H. apply andb_true_iff in H as [Hascii Hlen].
  apply Nat.leb_le in Hlen. auto.
Qed.

(** On a record whose labels can be read and hold what the API server
    admits, [secret_version] returns a revision, and it is not negative. *)
Lemma secret_version_total (sec : K8s.Secret) :
  version_label_ok sec = true ->
  exists v, secret_version sec = Ok v /\ 0 <= v.
Proof.
  intros Hok. apply version_label_ok_inv in Hok as (Hget & Hascii & Hlen).
  destruct (Str.isdigit (version_text sec)) eqn:Hd.
  - rewrite (secret_version_label sec Hget Hd).
    assert (Hne : version_text sec <> EmptyString)
      by (intros E; rewrite E in Hd; discriminate).
    assert (Hdec : Str.all_chars Str.is_decimal (version_text sec) = true).
    { apply ascii_digits_decimal; [|exact Hascii].
      destruct (version_text sec); [discriminate|exact Hd]. }
    exists (Str.decimal_value (version_text sec)). split.
    + apply StrFacts.int_decimal; [exact Hne|exact Hdec|].
      unfold Str.int_max_str_digits. lia.
    + now apply StrFacts.decimal_acc_nonneg.
  - exists 0. split; [now apply secret_version_no_label|lia].
Qed.

(* ===================================================================== *)
(** ** Release record resolver *)
(* ===================================================================== *)

(** C1 (the code at the failing input).  A record with no [version] label
    whose name ends in ".v7" resolves to revision 0, not 7: the suffix that
    reaches [int] is ".v7", which [lstrip("v")] leaves as it is. *)
Theorem secret_version_legacy_name_is_zero :
  PurePath_suffix (K8s.name (K8s.metadata Fixture.legacy_v7)) = ".v7"
  /\ secret_version Fixture.legacy_v7 = Ok 0.
Proof. split; reflexivity. Qed.

Section MaxFacts.
Context {A : Type} (key : A -> result Z).

(** [max_from] returns the first of the greatest items.  [pre] and [mid]
    are the items already seen, before and after the best so far. *)
Lemma max_from_first_greatest (l : list A) :
  forall (pre : list A) (best : A) (kbest : Z) (mid : list A),
    key best = Ok kbest ->
    (forall c, c ∈ pre -> exists vc, key c = Ok vc /\ vc < kbest) ->
    (forall c, c ∈ mid -> exists vc, key c = Ok vc /\ vc <= kbest) ->
    Forall (fun c => exists vc, key c = Ok vc) l ->
    exists sec v before after,
      max_from key best kbest l = Ok sec
      /\ pre ++ best :: mid ++ l = before ++ sec :: after
      /\ key sec = Ok v
      /\ (forall c, c ∈ before -> exists vc, key c = Ok vc /\ vc < v)
      /\ (forall c, c ∈ after -> exists vc, key c = Ok vc /\ vc <= v).
Proof.
  induction l as [|x l IH]; intros pre best kbest mid Hbest Hpre Hmid Hl.
  - exists best, kbest, pre, mid. rewrite app_nil_r. simpl. auto.
  - apply Forall_cons in Hl as [[kx Hx] Hl]. simpl. rewrite Hx. simpl.
    destruct (Z.ltb_spec kbest kx) as [Hlt | Hge].
    + destruct (IH (pre ++ best :: mid) x kx [] Hx) as (sec & v & b & a & H);
        [ | | exact Hl | ].
      * intros c Hc. apply elem_of_app in Hc as [Hc | Hc].
        { destruct (Hpre c Hc) as (vc & ? & ?). exists vc. split; [auto|lia]. }
        apply elem_of_cons in Hc as [-> | Hc].
        { exists kbest. split; [auto|lia]. }
        destruct (Hmid c Hc) as (vc & ? & ?). exists vc. split; [auto|lia].
      * intros c Hc. inversion Hc.
      * exists sec, v, b, a. destruct H as (H1 & H2 & H3).
        split; [exact H1|]. split; [|exact H3].
        rewrite <- H2. simpl. now rewrite <- app_assoc.
    + destruct (IH pre best kbest (mid ++ [x]) Hbest Hpre) as (sec & v & b & a & H);
        [ | exact Hl | ].
      * intros c Hc. apply elem_of_app in Hc as [Hc | Hc]; [now apply Hmid|].
        apply list_elem_of_singleton in Hc as ->. exists kx. split; [auto|lia].
      * exists sec, v, b, a. destruct H as (H1 & H2 & H3).
        split; [exact H1|]. split; [|exact H3].
        rewrite <- H2. now rewrite <- app_assoc.
Qed.

Lemma py_max_first_greatest (l : list A) :
  l <> [] ->
  Forall (fun c => exists vc, key c = Ok vc) l ->
  exists sec v before after,
    py_max key l = Ok sec
    /\ l = before ++ sec :: after
    /\ key sec = Ok v
    /\ (forall c, c ∈ before -> exists vc, key c = Ok vc /\ vc < v)
    /\ (forall c, c ∈ after -> exists vc, key c = Ok vc /\ vc <= v).
Proof.
  destruct l as [|x l]; [congruence|]. intros _ Hl.
  apply Forall_cons in Hl as [[kx Hx] Hl]. simpl. rewrite Hx. simpl.
  destruct (max_from_first_greatest l [] x kx [] Hx) as (sec & v & b & a & H);
    [ intros c Hc; inversion Hc | intros c Hc; inversion Hc | exact Hl | ].
  exists sec, v, b, a. exact H.
Qed.

End MaxFacts.

Lemma candidates_versions (candidates : list K8s.Secret) :
  Forall (fun c => version_label_ok c = true) candidates ->
  Forall (fun c => exists vc, secret_version c = Ok vc) candidates.
Proof.
  intros H. eapply Forall_impl; [exact H|]. intros c Hc.
  destruct (secret_version_total c Hc) as (v & Hv & _). now exists v.
Qed.

(** What the store hands to [find_release_secret]. *)
Lemma find_release_secret_candidates (dyn : K8s.DynamicClient)
    (release_name release_ns : string) (res : K8s.Resource)
    (candidates : list K8s.Secret) (revision : option Z) :
  K8s.resources_get dyn (VStr "v1") (VStr "Secret") = Ok res ->
  K8s.list_items res release_ns (OWNER_LABEL +:+ ",name=" +:+ release_name)
    = Ok candidates ->
  find_release_secret dyn release_name release_ns revision
  = select_release_secret candidates revision.
Proof.
  intros Hres Hlist. unfold find_release_secret. rewrite Hres. simpl.
  now rewrite Hlist.
Qed.

(** On a record as Helm 3 stores it, the code resolves the revision the
    specification names. *)
Lemma secret_version_numeric (sec : K8s.Secret) :
  numeric_label sec = true -> secret_version sec = Ok (spec_revision sec).
Proof.
  unfold numeric_label, spec_revision.
  destruct (label sec "get") eqn:Hget; [discriminate|].
  destruct (label sec "version") as [lbl|] eqn:Hlbl; [|discriminate].
  intros H. apply andb_true_iff in H as [Hdig Hlen]. rewrite Hdig.
  apply Nat.leb_le in Hlen. unfold all_digits in Hdig.
  apply andb_true_iff in Hdig as [Hne Hdec].
  assert (Htext : version_text sec = lbl)
    by (unfold version_text; now rewrite Hlbl).
  assert (Hne' : lbl <> EmptyString)
    by (intros ->; discriminate Hne).
  rewrite (secret_version_label sec Hget); rewrite Htext.
  - apply StrFacts.int_decimal; [exact Hne'|exact Hdec|].
    unfold Str.int_max_str_digits. lia.
  - destruct lbl as [|ch lbl]; [congruence|].
    unfold Str.isdigit. simpl in Hdec. simpl.
    apply andb_true_iff in Hdec as [Hc Hs].
    unfold Str.is_digit_char at 1. rewrite Hc. simpl.
    apply (StrFacts.all_chars_impl Str.is_decimal Str.is_digit_char);
      [|exact Hs].
    intros x Hx. unfold Str.is_digit_char. now rewrite Hx.
Qed.

Lemma numeric_candidates_versions (candidates : list K8s.Secret) :
  Forall (fun c => numeric_label c = true) candidates ->
  Forall (fun c => exists vc, secret_version c = Ok vc) candidates.
Proof.
  intros H. eapply Forall_impl; [exact H|]. intros c Hc.
  exists (spec_revision c). now apply secret_version_numeric.
Qed.

(** C6 (the code at the failing input).  Two records of the release
    "myrel" are stored under legacy names, revisions 1 and 7, with no
    [version] label.  Asked for the latest, the resolver returns the
    record of revision 1: the code resolves both to 0, and [max] keeps
    the first. *)
Theorem find_release_secret_latest_legacy_names :
  find_release_secret Scenario.dyn_legacy "myrel" "default" None
  = Ok (Some Scenario.legacy_v1)
  /\ Fixture.legacy_v7 ∈ Scenario.legacy_listing
  /\ spec_revision Scenario.legacy_v1 = 1
  /\ spec_revision Fixture.legacy_v7 = 7.
Proof.
  repeat split; try reflexivity.
  apply list_elem_of_further, list_elem_of_here.
Qed.

(** X28.  When every candidate is a record as Helm 3 stores it (a
    [version] label of decimal digits, no label named "get"), asking for
    the latest returns a record, and it is the first of those whose
    revision, in the specification's sense, is the greatest: every
    candidate before it has a smaller revision, every candidate after it
    has a revision that is not greater. *)
Theorem find_release_secret_latest (dyn : K8s.DynamicClient)
    (release_name release_ns : string) (res : K8s.Resource)
    (candidates : list K8s.Secret) :
  K8s.resources_get dyn (VStr "v1") (VStr "Secret") = Ok res ->
  K8s.list_items res release_ns (OWNER_LABEL +:+ ",name=" +:+ release_name)
    = Ok candidates ->
  candidates <> [] ->
  Forall (fun c => numeric_label c = true) candidates ->
  exists sec before after,
    find_release_secret dyn release_name release_ns None = Ok (Some sec)
    /\ candidates = before ++ sec :: after
    /\ (forall c, c ∈ before -> spec_revision c < spec_revision sec)
    /\ (forall c, c ∈ after -> spec_revision c <= spec_revision sec).
Proof.
  intros Hres Hlist Hne Hok.
  rewrite (find_release_secret_candidates _ _ _ _ _ _ Hres Hlist).
  destruct (py_max_first_greatest secret_version candidates Hne
              (numeric_candidates_versions _ Hok))
    as (sec & v & b & a & Hmax & Hsplit & Hv & Hb & Ha).
  assert (Hnum : forall c, c ∈ candidates -> numeric_label c = true)
    by (intros c Hc; now apply (proj1 (Forall_forall _ _) Hok)).
  assert (Hsec : v = spec_revision sec).
  { rewrite (secret_version_numeric sec) in Hv; [congruence|].
    apply Hnum. rewrite Hsplit. apply elem_of_app. right.
    apply list_elem_of_here. }
  exists sec, b, a. repeat split.
  - unfold select_release_secret. destruct candidates; [congruence|].
    now rewrite Hmax.
  - exact Hsplit.
  - intros c Hc. destruct (Hb c Hc) as (vc & Hvc & Hlt).
    rewrite (secret_version_numeric c) in Hvc; [injection Hvc as <-; lia|].
    apply Hnum. rewrite Hsplit. apply elem_of_app. now left.
  - intros c Hc. destruct (Ha c Hc) as (vc & Hvc & Hle).
    rewrite (secret_version_numeric c) in Hvc; [injection Hvc as <-; lia|].
    apply Hnum. rewrite Hsplit. apply elem_of_app. right.
    now apply list_elem_of_further.
Qed.

Lemma find_release_secret_latest_witness :
  exists sec before after,
    find_release_secret Fixture.dyn "myrel" "default" None = Ok (Some sec)
    /\ Fixture.candidates = before ++ sec :: after
    /\ (forall c, c ∈ before -> spec_revision c < spec_revision sec)
    /\ (forall c, c ∈ after -> spec_revision c <= spec_revision sec).
Proof.
  apply (find_release_secret_latest Fixture.dyn "myrel" "default"
           Fixture.secrets Fixture.candidates);
    [ reflexivity | reflexivity | discriminate | repeat constructor ].
Defined.

Lemma first_with_revision_exact (revision : Z) (candidates : list K8s.Secret) :
  Forall (fun c => exists vc, secret_version c = Ok vc) candidates ->
  match first_with_revision revision candidates with
  | Ok (Some sec) => sec ∈ candidates /\ secret_version sec = Ok revision
  | Ok None => forall c, c ∈ candidates -> secret_version c <> Ok revision
  | Raise _ => False
  end.
Proof.
  induction candidates as [|x l IH]; intros Hl; simpl.
  - intros c Hc. inversion Hc.
  - apply Forall_cons in Hl as [[kx Hx] Hl]. rewrite Hx. simpl.
    destruct (Z.eqb_spec kx revision) as [-> | Hne].
    + split; [apply list_elem_of_here|exact Hx].
    + specialize (IH Hl).
      destruct (first_with_revision revision l) as [[sec|]|e]; [| |exact IH].
      * destruct IH as [Hin Hv]. split; [now apply list_elem_of_further|exact Hv].
      * intros c Hc. apply elem_of_cons in Hc as [-> | Hc]; [|now apply IH].
        rewrite Hx. congruence.
Qed.

(** C7 (the code at the failing input).  On the same two legacy records,
    revision 7 is not found although the record of revision 7 is listed,
    and revision 0 finds the record of revision 1: the code resolves every
    legacy name to 0. *)
Theorem find_release_secret_pinned_legacy_names :
  find_release_secret Scenario.dyn_legacy "myrel" "default" (Some 7) = Ok None
  /\ Fixture.legacy_v7 ∈ Scenario.legacy_listing
  /\ spec_revision Fixture.legacy_v7 = 7
  /\ find_release_secret Scenario.dyn_legacy "myrel" "default" (Some 0)
     = Ok (Some Scenario.legacy_v1)
  /\ spec_revision Scenario.legacy_v1 = 1.
Proof.
  repeat split; try reflexivity.
  apply list_elem_of_further, list_elem_of_here.
Qed.

(** X29.  When every candidate is a record as Helm 3 stores it, asking
    for revision [R] returns a candidate whose revision, in the
    specification's sense, is exactly [R], or the not-found result when no
    candidate has that revision; it returns no other record and raises
    nothing. *)
Theorem find_release_secret_pinned (dyn : K8s.DynamicClient)
    (release_name release_ns : string) (res : K8s.Resource)
    (candidates : list K8s.Secret) (R : Z) :
  K8s.resources_get dyn (VStr "v1") (VStr "Secret") = Ok res ->
  K8s.list_items res release_ns (OWNER_LABEL +:+ ",name=" +:+ release_name)
    = Ok candidates ->
  Forall (fun c => numeric_label c = true) candidates ->
  match find_release_secret dyn release_name release_ns (Some R) with
  | Ok (Some sec) => sec ∈ candidates /\ spec_revision sec = R
  | Ok None => forall c, c ∈ candidates -> spec_revision c <> R
  | Raise _ => False
  end.
Proof.
  intros Hres Hlist Hok.
  rewrite (find_release_secret_candidates _ _ _ _ _ _ Hres Hlist).
  assert (Hnum : forall c, c ∈ candidates -> numeric_label c = true)
    by (intros c Hc; now apply (proj1 (Forall_forall _ _) Hok)).
  unfold select_release_secret. destruct candidates as [|x l].
  - intros c Hc. inversion Hc.
  - pose proof (first_with_revision_exact R (x :: l)
                  (numeric_candidates_versions _ Hok)) as H.
    destruct (first_with_revision R (x :: l)) as [[sec|]|e]; [| |exact H].
    + destruct H as [Hin Hv]. split; [exact Hin|].
      rewrite (secret_version_numeric sec (Hnum sec Hin)) in Hv. congruence.
    + intros c Hc Heq. apply (H c Hc).
      rewrite (secret_version_numeric c (Hnum c Hc)). congruence.
Qed.

Lemma find_release_secret_pinned_witness :
  match find_release_secret Fixture.dyn "myrel" "default" (Some 2) with
  | Ok (Some sec) => sec ∈ Fixture.candidates /\ spec_revision sec = 2
  | Ok None => forall c, c ∈ Fixture.candidates -> spec_revision c <> 2
  | Raise _ => False
  end.
Proof.
  apply (find_release_secret_pinned Fixture.dyn "myrel" "default"
           Fixture.secrets Fixture.candidates 2);
    [ reflexivity | reflexivity | repeat constructor ].
Defined.

(* ===================================================================== *)
(** ** base64: decoding inverts encoding *)
(* ===================================================================== *)

Module Base64Facts.
Import Base64.

Lemma byte_of_to_N (b : Byte.byte) : byte_of_N (Byte.to_N b) = b.
Proof. destruct b; reflexivity. Qed.

Lemma code_of_byte (b : Byte.byte) :
  Str.code (ascii_of_byte b) = Byte.to_N b.
Proof. destruct b; reflexivity. Qed.

Lemma to_N_lt_256 (b : Byte.byte) : (Byte.to_N b < 256)%N.
Proof. pose proof (Byte.to_N_bounded b). lia. Qed.

(** A property of the numbers below [k], checked by running through them. *)
Lemma below_forallb (k : nat) (p : N -> bool) :
  forallb p (map N.of_nat (seq 0 k)) = true ->
  forall n, (n < N.of_nat k)%N -> p n = true.
Proof.
  intros H n Hn. rewrite forallb_forall in H. apply H.
  rewrite <- (N2Nat.id n). apply in_map. apply in_seq. lia.
Qed.

Lemma below_forallb2 (k : nat) (p : N -> N -> bool) :
  forallb (fun a => forallb (p a) (map N.of_nat (seq 0 k)))
    (map N.of_nat (seq 0 k)) = true ->
  forall a b, (a < N.of_nat k)%N -> (b < N.of_nat k)%N -> p a b = true.
Proof.
  intros H a b Ha Hb.
  apply (below_forallb k (p a)); [|exact Hb].
  apply (below_forallb k (fun a => forallb (p a) (map N.of_nat (seq 0 k))) H a Ha).
Qed.

(** The decoding table inverts the encoding table, and no character of
    the alphabet is the pad. *)
Lemma alphabet_char (v : N) :
  (v < 64)%N ->
  Byte.to_N (enc_char v) <> BASE64_PAD
  /\ table_a2b_base64 (Byte.to_N (enc_char v)) = v
  /\ (43 <= Byte.to_N (enc_char v) < 128)%N.
Proof.
  intros Hv.
  pose proof (below_forallb 64
    (fun v => negb (Byte.to_N (enc_char v) =? BASE64_PAD)%N
              && (table_a2b_base64 (Byte.to_N (enc_char v)) =? v)%N
              && (43 <=? Byte.to_N (enc_char v))%N
              && (Byte.to_N (enc_char v) <? 128)%N)
    ltac:(vm_compute; reflexivity) v Hv) as H.
  cbv beta in H.
  apply andb_true_iff in H as [H H4]. apply andb_true_iff in H as [H H3].
  apply andb_true_iff in H as [H1 H2].
  apply negb_true_iff, N.eqb_neq in H1. apply N.eqb_eq in H2.
  apply N.leb_le in H3. apply N.ltb_lt in H4. auto.
Qed.

(** The four sextets of three bytes, and how they give the bytes back. *)
Lemma sextets_12 (a b : N) :
  (a < 256)%N -> (b < 256)%N ->
  (sextet1 a < 64)%N /\ (sextet2 a b < 64)%N
  /\ N.lor (N.shiftl (sextet1 a) 2) (N.shiftr (sextet2 a b) 4) = a
  /\ N.land (sextet2 a b) 15 = N.shiftr b 4.
Proof.
  intros Ha Hb.
  pose proof (below_forallb2 256
    (fun a b => (sextet1 a <? 64)%N && (sextet2 a b <? 64)%N
       && (N.lor (N.shiftl (sextet1 a) 2) (N.shiftr (sextet2 a b) 4) =? a)%N
       && (N.land (sextet2 a b) 15 =? N.shiftr b 4)%N)
    ltac:(vm_compute; reflexivity) a b Ha Hb) as H.
  cbv beta in H.
  apply andb_true_iff in H as [H H4]. apply andb_true_iff in H as [H H3].
  apply andb_true_iff in H as [H1 H2].
  apply N.ltb_lt in H1. apply N.ltb_lt in H2.
  apply N.eqb_eq in H3. apply N.eqb_eq in H4. auto.
Qed.

Lemma sextets_34 (b c : N) :
  (b < 256)%N -> (c < 256)%N ->
  (sextet3 b c < 64)%N /\ (sextet4 c < 64)%N
  /\ N.lor (N.shiftl (N.shiftr b 4) 4) (N.shiftr (sextet3 b c) 2) = b
  /\ N.lor (N.shiftl (N.land (sextet3 b c) 3) 6) (sextet4 c) = c.
Proof.
  intros Hb Hc.
  pose proof (below_forallb2 256
    (fun b c => (sextet3 b c <? 64)%N && (sextet4 c <? 64)%N
       && (N.lor (N.shiftl (N.shiftr b 4) 4) (N.shiftr (sextet3 b c) 2) =? b)%N
       && (N.lor (N.shiftl (N.land (sextet3 b c) 3) 6) (sextet4 c) =? c)%N)
    ltac:(vm_compute; reflexivity) b c Hb Hc) as H.
  cbv beta in H.
  apply andb_true_iff in H as [H H4]. apply andb_true_iff in H as [H H3].
  apply andb_true_iff in H as [H1 H2].
  apply N.ltb_lt in H1. apply N.ltb_lt in H2.
  apply N.eqb_eq in H3. apply N.eqb_eq in H4. auto.
Qed.

(** One step of the decoder on a character of the alphabet. *)
Lemma a2b_loop_alphabet (v : N) (rest : bytes) (quad_pos leftchar pads : N)
    (out : bytes) :
  (v < 64)%N ->
  a2b_loop (enc_char v :: rest) quad_pos leftchar pads out =
    match quad_pos with
    | 0%N => a2b_loop rest 1%N v 0%N out
    | 1%N =>
        a2b_loop rest 2%N (N.land v 15) 0%N
          (byte_of_N (N.lor (N.shiftl leftchar 2) (N.shiftr v 4)) :: out)
    | 2%N =>
        a2b_loop rest 3%N (N.land v 3) 0%N
          (byte_of_N (N.lor (N.shiftl leftchar 4) (N.shiftr v 2)) :: out)
    | _ =>
        a2b_loop rest 0%N 0%N 0%N
          (byte_of_N (N.lor (N.shiftl leftchar 6) v) :: out)
    end.
Proof.
  intros Hv. destruct (alphabet_char v Hv) as (Hpad & Htab & _).
  cbn [a2b_loop]. cbv zeta.
  destruct (N.eqb_spec (Byte.to_N (enc_char v)) BASE64_PAD) as [E|_];
    [contradiction|].
  rewrite Htab.
  destruct (N.leb_spec 64 v) as [Hge|_]; [lia|]. reflexivity.
Qed.

(** The decoder on the pad character. *)
Lemma a2b_loop_pad (rest : bytes) (quad_pos leftchar pads : N) (out : bytes) :
  a2b_loop (pad_char :: rest) quad_pos leftchar pads out =
    if (2 <=? quad_pos)%N then
      if (4 <=? quad_pos + (pads + 1))%N then Ok (rev out)
      else a2b_loop rest quad_pos leftchar (pads + 1)%N out
    else a2b_loop rest quad_pos leftchar pads out.
Proof. reflexivity. Qed.

Lemma list_ind3 {A} (P : list A -> Prop) :
  P [] -> (forall a, P [a]) -> (forall a b, P [a; b]) ->
  (forall a b c l, P l -> P (a :: b :: c :: l)) ->
  forall l, P l.
Proof.
  intros H0 H1 H2 H3.
  assert (G : forall n l, (length l <= n)%nat -> P l).
  { induction n as [|n IH]; intros l Hl.
    - destruct l; [exact H0|simpl in Hl; lia].
    - destruct l as [|a [|b [|c l]]]; auto.
      apply H3, IH. simpl in Hl. lia. }
  intros l. apply (G (length l)). lia.
Qed.

(** The decoder, started between two groups, gives back what was encoded. *)
Lemma a2b_loop_b64encode (data : bytes) :
  forall leftchar pads out,
    a2b_loop (b64encode data) 0%N leftchar pads out = Ok (rev out ++ data).
Proof.
  induction data as [|a|a b|a b c data IH] using list_ind3;
    intros leftchar pads out.
  - simpl. now rewrite app_nil_r.
  - pose proof (to_N_lt_256 a) as Ha.
    destruct (sextets_12 (Byte.to_N a) 0 Ha ltac:(lia)) as (S1 & S2 & R1 & _).
    cbn [b64encode]. cbv zeta.
    rewrite (a2b_loop_alphabet _ _ _ _ _ _ S1).
    rewrite (a2b_loop_alphabet _ _ _ _ _ _ S2).
    rewrite R1, byte_of_to_N.
    rewrite a2b_loop_pad. cbn [N.leb N.compare Pos.compare Pos.compare_cont].
    change (4 <=? 2 + (0 + 1))%N with false. cbv iota.
    rewrite a2b_loop_pad. reflexivity.
  - pose proof (to_N_lt_256 a) as Ha. pose proof (to_N_lt_256 b) as Hb.
    destruct (sextets_12 _ _ Ha Hb) as (S1 & S2 & R1 & R2).
    destruct (sextets_34 (Byte.to_N b) 0 Hb ltac:(lia)) as (S3 & _ & R3 & _).
    cbn [b64encode]. cbv zeta.
    rewrite (a2b_loop_alphabet _ _ _ _ _ _ S1).
    rewrite (a2b_loop_alphabet _ _ _ _ _ _ S2).
    rewrite (a2b_loop_alphabet _ _ _ _ _ _ S3).
    rewrite R1, R2, R3, !byte_of_to_N.
    rewrite a2b_loop_pad. simpl rev. now rewrite <- app_assoc.
  - pose proof (to_N_lt_256 a) as Ha. pose proof (to_N_lt_256 b) as Hb.
    pose proof (to_N_lt_256 c) as Hc.
    destruct (sextets_12 _ _ Ha Hb) as (S1 & S2 & R1 & R2).
    destruct (sextets_34 _ _ Hb Hc) as (S3 & S4 & R3 & R4).
    cbn [b64encode]. cbv zeta.
    rewrite (a2b_loop_alphabet _ _ _ _ _ _ S1).
    rewrite (a2b_loop_alphabet _ _ _ _ _ _ S2).
    rewrite (a2b_loop_alphabet _ _ _ _ _ _ S3).
    rewrite (a2b_loop_alphabet _ _ _ _ _ _ S4).
    rewrite R1, R2, R3, R4, !byte_of_to_N.
    rewrite IH. simpl rev. now rewrite <- !app_assoc.
Qed.

(** [base64.b64decode(base64.b64encode(data)) == data] *)
Lemma b64decode_b64encode (data : bytes) :
  b64decode (b64encode data) = Ok data.
Proof. unfold b64decode, a2b_base64. now rewrite a2b_loop_b64encode. Qed.

(** Every byte of an encoding is an ASCII character from "+" upwards. *)
Lemma b64encode_bytes (data : bytes) :
  Forall (fun b => (43 <= Byte.to_N b < 128)%N) (b64encode data).
Proof.
  induction data as [|a|a b|a b c data IH] using list_ind3.
  - constructor.
  - pose proof (to_N_lt_256 a) as Ha.
    destruct (sextets_12 (Byte.to_N a) 0 Ha ltac:(lia)) as (S1 & S2 & _).
    cbn [b64encode]. cbv zeta.
    repeat constructor; try apply (alphabet_char _ S1);
      try apply (alphabet_char _ S2); vm_compute; congruence.
  - pose proof (to_N_lt_256 a) as Ha. pose proof (to_N_lt_256 b) as Hb.
    destruct (sextets_12 _ _ Ha Hb) as (S1 & S2 & _).
    destruct (sextets_34 (Byte.to_N b) 0 Hb ltac:(lia)) as (S3 & _).
    cbn [b64encode]. cbv zeta.
    repeat constructor; try apply (alphabet_char _ S1);
      try apply (alphabet_char _ S2); try apply (alphabet_char _ S3);
      vm_compute; congruence.
  - pose proof (to_N_lt_256 a) as Ha. pose proof (to_N_lt_256 b) as Hb.
    pose proof (to_N_lt_256 c) as Hc.
    destruct (sextets_12 _ _ Ha Hb) as (S1 & S2 & _).
    destruct (sextets_34 _ _ Hb Hc) as (S3 & S4 & _).
    cbn [b64encode]. cbv zeta.
    repeat (constructor; [first [ apply (alphabet_char _ S1)
                               | apply (alphabet_char _ S2)
                               | apply (alphabet_char _ S3)
                               | apply (alphabet_char _ S4) ]|]).
    exact IH.
Qed.

Lemma is_ascii_of_bytes (l : bytes) :
  Forall (fun b => (43 <= Byte.to_N b < 128)%N) l ->
  Str.is_ascii (String.string_of_list_byte l) = true.
Proof.
  unfold Str.is_ascii, String.string_of_list_byte.
  induction 1 as [|b l Hb _ IH]; [reflexivity|].
  simpl. rewrite code_of_byte, IH.
  destruct (N.ltb_spec (Byte.to_N b) 128); [reflexivity|lia].
Qed.

(** The same for the [str] the script is given. *)
Lemma b64decode_str_b64encode (data : bytes) :
  b64decode_str (b64encode_str data) = Ok data.
Proof.
  unfold b64decode_str, b64encode_str, encode_ascii.
  rewrite (is_ascii_of_bytes _ (b64encode_bytes data)).
  rewrite String.list_byte_of_string_of_list_byte. simpl.
  apply b64decode_b64encode.
Qed.

(** An encoding never begins with the gzip magic. *)
Lemma b64encode_no_magic (data : bytes) :
  startswith [Byte.x1f; Byte.x8b] (b64encode data) = false.
Proof.
  pose proof (b64encode_bytes data) as H.
  destruct (b64encode data) as [|b l]; [reflexivity|].
  apply Forall_cons in H as [Hb _]. simpl.
  destruct (Byte.eqb Byte.x1f b) eqn:E; [|reflexivity].
  apply Byte.byte_dec_bl in E. subst b. vm_compute in Hb.
  destruct Hb as [Hb _]. now contradiction Hb.
Qed.

End Base64Facts.

(* ===================================================================== *)
(** ** Payload decoder *)
(* ===================================================================== *)

Section DecoderFacts.
Context {RT : Runtime}.

Lemma magic_shape (data : bytes) :
  startswith GZIP_MAGIC data = true ->
  exists rest, data = Byte.x1f :: Byte.x8b :: rest.
Proof.
  destruct data as [|b0 [|b1 rest]]; simpl; try discriminate.
  - now rewrite andb_false_r.
  - intros H. apply andb_true_iff in H as [H0 H].
    apply andb_true_iff in H as [H1 _].
    apply Byte.byte_dec_bl in H0, H1. subst. now exists rest.
Qed.

(** Bytes that begin with the gzip magic are no text in any encoding
    [json.loads] would try: the second byte, 0x8b, cannot start a UTF-8
    sequence. *)
Lemma magic_is_not_text (data : bytes) :
  startswith GZIP_MAGIC data = true ->
  bytes_decode data = Raise UnicodeDecodeError.
Proof.
  intros H. destruct (magic_shape data H) as [rest ->].
  unfold bytes_decode.
  destruct rest as [|r1 [|r2 rest]]; reflexivity.
Qed.

Lemma json_loads_magic (data : bytes) :
  startswith GZIP_MAGIC data = true ->
  json_loads data = Raise UnicodeDecodeError.
Proof. intros H. unfold json_loads. now rewrite (magic_is_not_text data H). Qed.

Lemma json_loads_ok_no_magic (data : bytes) (v : pyval) :
  json_loads data = Ok v -> startswith GZIP_MAGIC data = false.
Proof.
  intros H. destruct (startswith GZIP_MAGIC data) eqn:E; [|reflexivity].
  rewrite (json_loads_magic data E) in H. discriminate.
Qed.

Lemma try_decompress_plain (data : bytes) :
  startswith GZIP_MAGIC data = false -> _try_decompress data = Ok data.
Proof. unfold _try_decompress. now intros ->. Qed.

Lemma try_decompress_layer (x z : bytes) :
  gz_layer x z ->
  startswith GZIP_MAGIC x = false ->
  _try_decompress z = Ok x.
Proof.
  intros Hlayer Hx. destruct Hlayer as [|z Hmagic Hgz].
  - now apply try_decompress_plain.
  - unfold _try_decompress. now rewrite Hmagic, Hgz.
Qed.

(** A failed decompression: the three classes the script names are
    swallowed and the bytes go on as they are; any other error propagates. *)
Lemma try_decompress_failure (data : bytes) (e : exn) :
  startswith GZIP_MAGIC data = true ->
  gzip_decompress data = Raise e ->
  _try_decompress data = if is_gzip_failure e then Ok data else Raise e.
Proof.
  intros Hmagic Hgz. unfold _try_decompress. rewrite Hmagic, Hgz. simpl.
  destruct (is_gzip_failure e); reflexivity.
Qed.

(** One level: base64 over a layer over JSON. *)
Lemma decode_one_level (x z : bytes) (release : pyval) :
  json_loads x = Ok release ->
  gz_layer x z ->
  decode_release_payload (Base64.b64encode_str z) = Ok release.
Proof.
  intros Hjson Hlayer. unfold decode_release_payload.
  rewrite Base64Facts.b64decode_str_b64encode. simpl.
  rewrite (try_decompress_layer x z Hlayer (json_loads_ok_no_magic _ _ Hjson)).
  simpl. now rewrite Hjson.
Qed.

(** The second round of [decode_release_payload], entered when the first
    parse raised [JSONDecodeError]. *)
Lemma decode_second_round (z1 z2 : bytes) :
  gz_layer (Base64.b64encode z1) z2 ->
  json_loads (Base64.b64encode z1) = Raise JSONDecodeError ->
  decode_release_payload (Base64.b64encode_str z2) =
    try_except (raw2 ← _try_decompress z1; json_loads raw2)
      is_Exception (fun _ => Raise unsupported_format).
Proof.
  intros Hlayer Hjson. unfold decode_release_payload.
  rewrite Base64Facts.b64decode_str_b64encode. simpl.
  rewrite (try_decompress_layer _ z2 Hlayer (Base64Facts.b64encode_no_magic z1)).
  simpl. rewrite Hjson. simpl.
  now rewrite Base64Facts.b64decode_b64encode.
Qed.

(** C5.  A record that the JSON parser reads back from [ser] as a mapping
    with version [N] and manifest [M], encoded through one level of base64,
    gzip-compressed before that or not, decodes to a release with version
    [N] and manifest [M]. *)
Theorem decode_release_payload_roundtrip (N : Z) (M : string)
    (ser z : bytes) (release : pyval) :
  json_loads ser = Ok release ->
  py_get release "version" (VStr "?") = Ok (VInt N) ->
  py_get release "manifest" VNone = Ok (VStr M) ->
  gz_layer ser z ->
  exists r,
    decode_release_payload (Base64.b64encode_str z) = Ok r
    /\ py_get r "version" (VStr "?") = Ok (VInt N)
    /\ py_get r "manifest" VNone = Ok (VStr M).
Proof.
  intros Hjson Hv Hm Hlayer. exists release.
  split; [exact (decode_one_level ser z release Hjson Hlayer)|]. now split.
Qed.

(** C4.  Two levels of wrapping decode; three do not.  [z1] carries the
    JSON text [x], [z2] carries the base64 of [z1] and [z3] the base64 of
    [z2], each as it is or gzip-compressed; base64 text is no JSON, which
    is what makes a further round necessary. *)
Theorem decode_release_payload_two_levels (x z1 z2 z3 : bytes)
    (release : pyval) (e : exn) :
  (json_loads x = Ok release ->
   gz_layer x z1 ->
   gz_layer (Base64.b64encode z1) z2 ->
   json_loads (Base64.b64encode z1) = Raise JSONDecodeError ->
   decode_release_payload (Base64.b64encode_str z2) = Ok release)
  /\
  (gz_layer (Base64.b64encode z1) z2 ->
   gz_layer (Base64.b64encode z2) z3 ->
   json_loads (Base64.b64encode z2) = Raise JSONDecodeError ->
   json_loads (Base64.b64encode z1) = Raise e ->
   is_Exception e = true ->
   decode_release_payload (Base64.b64encode_str z3)
   = Raise unsupported_format).
Proof.
  split.
  - intros Hjson H1 H2 Hb64.
    rewrite (decode_second_round z1 z2 H2 Hb64).
    rewrite (try_decompress_layer x z1 H1 (json_loads_ok_no_magic _ _ Hjson)).
    simpl. now rewrite Hjson.
  - intros H2 H3 Hb64 Hinner He.
    rewrite (decode_second_round z2 z3 H3 Hb64).
    rewrite (try_decompress_layer _ z2 H2 (Base64Facts.b64encode_no_magic z1)).
    simpl. rewrite Hinner. simpl. now rewrite He.
Qed.

(** C2, as amended.  When the decoded bytes begin with the gzip magic and
    decompression fails, no release is returned, but not through the
    decoder's own error: a failure of class OSError, EOFError or
    BadGzipFile is swallowed, the bytes reach the JSON parser unchanged and
    its [UnicodeDecodeError] propagates; any other failure propagates
    itself. *)
Theorem decode_release_payload_corrupt_gzip (encoded : string)
    (data : bytes) (e : exn) :
  Base64.b64decode_str encoded = Ok data ->
  startswith GZIP_MAGIC data = true ->
  gzip_decompress data = Raise e ->
  if is_gzip_failure e
  then _try_decompress data = Ok data
       /\ decode_release_payload encoded = Raise UnicodeDecodeError
  else _try_decompress data = Raise e
       /\ decode_release_payload encoded = Raise e.
Proof.
  intros Hb64 Hmagic Hgz.
  pose proof (try_decompress_failure data e Hmagic Hgz) as Htry.
  unfold decode_release_payload. rewrite Hb64. simpl.
  destruct (is_gzip_failure e).
  - split; [exact Htry|]. rewrite Htry. simpl.
    now rewrite (json_loads_magic data Hmagic).
  - split; [exact Htry|]. now rewrite Htry.
Qed.

End DecoderFacts.

Lemma decode_release_payload_roundtrip_witness :
  (exists r,
     decode_release_payload Fixture.payload_gzip = Ok r
     /\ py_get r "version" (VStr "?") = Ok (VInt 3)
     /\ py_get r "manifest" VNone = Ok (VStr Fixture.manifest))
  /\
  (exists r,
     decode_release_payload Fixture.payload_plain = Ok r
     /\ py_get r "version" (VStr "?") = Ok (VInt 3)
     /\ py_get r "manifest" VNone = Ok (VStr Fixture.manifest)).
Proof.
  split.
  - apply (decode_release_payload_roundtrip 3 Fixture.manifest
             Fixture.release_json Fixture.release_gzip Fixture.release);
      [ vm_compute; reflexivity | reflexivity | reflexivity
      | apply layer_gzip; vm_compute; reflexivity ].
  - apply (decode_release_payload_roundtrip 3 Fixture.manifest
             Fixture.release_json Fixture.release_json Fixture.release);
      [ vm_compute; reflexivity | reflexivity | reflexivity
      | apply layer_plain ].
Defined.

Lemma decode_release_payload_two_levels_witness :
  decode_release_payload Fixture.payload_double = Ok Fixture.release
  /\ decode_release_payload Fixture.payload_triple = Raise unsupported_format.
Proof.
  destruct (decode_release_payload_two_levels
              Fixture.release_json Fixture.release_gzip
              (Base64.b64encode Fixture.release_gzip)
              (Base64.b64encode (Base64.b64encode Fixture.release_gzip))
              Fixture.release JSONDecodeError) as [Hdouble Htriple].
  split.
  - apply Hdouble;
      [ vm_compute; reflexivity | apply layer_gzip; vm_compute; reflexivity
      | apply layer_plain | vm_compute; reflexivity ].
  - apply Htriple;
      [ apply layer_plain | apply layer_plain | vm_compute; reflexivity
      | vm_compute; reflexivity | reflexivity ].
Defined.

Lemma decode_release_payload_corrupt_gzip_witness :
  _try_decompress Fixture.truncated_gzip = Ok Fixture.truncated_gzip
  /\ decode_release_payload "H4s=" = Raise UnicodeDecodeError.
Proof.
  apply (decode_release_payload_corrupt_gzip "H4s=" Fixture.truncated_gzip
           EOFError); [ reflexivity | reflexivity | reflexivity ].
Defined.

(** C2, the counterexample.  "H4s=" is the base64 of the two magic bytes
    alone; [gzip.decompress] fails on them with [EOFError].  The bytes are
    handed on as if they were not compressed, and what ends the decoding is
    the parser's [UnicodeDecodeError], not the decoder's own error. *)
Lemma corrupt_gzip_is_passed_through :
  Base64.b64decode_str "H4s=" = Ok Fixture.truncated_gzip
  /\ startswith GZIP_MAGIC Fixture.truncated_gzip = true
  /\ gzip_decompress Fixture.truncated_gzip = Raise EOFError
  /\ _try_decompress Fixture.truncated_gzip = Ok Fixture.truncated_gzip
  /\ decode_release_payload "H4s=" = Raise UnicodeDecodeError
  /\ decode_release_payload "H4s=" <> Raise unsupported_format.
Proof. repeat split; try reflexivity. discriminate. Qed.

(* ===================================================================== *)
(** ** Manifest extractor *)
(* ===================================================================== *)

(** On a document whose [metadata] is a mapping or missing, the loop body
    raises nothing and yields what the document declares. *)
Lemma document_identity_declared (doc : pyval) (default_ns : string) :
  metadata_ok doc = true ->
  document_identity doc default_ns = Ok (declared_identity default_ns doc).
Proof.
  destruct doc as [| | | | | |l|d|l|]; try reflexivity.
  unfold metadata_ok, document_identity, declared_identity.
  destruct (dict_lookup d "metadata") as [[| | | | | | |meta| |]|];
    try discriminate; intros _; simpl.
  - destruct (dict_lookup d "apiVersion") as [api_ver|],
             (dict_lookup d "kind") as [kind|],
             (dict_lookup meta "name") as [name|],
             (dict_lookup meta "namespace") as [ns|];
      simpl; unfold py_or; simpl;
      rewrite ?andb_false_r; try reflexivity;
      try (destruct (truthy api_ver); reflexivity);
      try (destruct (truthy api_ver), (truthy kind), (truthy name), (truthy ns);
           reflexivity);
      try (destruct (truthy api_ver), (truthy kind), (truthy name);
           reflexivity).
  - destruct (dict_lookup d "apiVersion") as [api_ver|],
             (dict_lookup d "kind") as [kind|];
      simpl; rewrite ?andb_false_r; reflexivity.
Qed.

(** A [metadata] that is not a mapping has no [get]. *)
Lemma document_identity_bad_metadata (doc : pyval) (default_ns : string) :
  metadata_ok doc = false ->
  document_identity doc default_ns = Raise AttributeError.
Proof.
  destruct doc as [| | | | | |l|d|l|]; try discriminate.
  unfold metadata_ok, document_identity.
  destruct (dict_lookup d "metadata") as [[| | | | | | |meta| |]|];
    try discriminate; reflexivity.
Qed.

(** The loop adds no error of its own on such documents: it ends as the
    loader ends, and yields what the documents declare, in order. *)
Lemma manifest_loop_declared (docs : gen pyval) (default_ns : string) :
  Forall (fun d => metadata_ok d = true) (gen_items docs) ->
  gen_raises (manifest_loop docs default_ns) = gen_raises docs
  /\ gen_items (manifest_loop docs default_ns)
     = omap (declared_identity default_ns) (gen_items docs).
Proof.
  induction docs as [|doc rest IH|e]; simpl; intros Hok.
  - now split.
  - apply Forall_cons in Hok as [Hdoc Hrest].
    rewrite (document_identity_declared doc default_ns Hdoc).
    destruct (IH Hrest) as [IHr IHi].
    destruct (declared_identity default_ns doc) as [id|]; simpl.
    + split; [exact IHr|]. now rewrite IHi.
    + now split.
  - now split.
Qed.

Lemma gen_to_list_items {A} (g : gen A) :
  gen_raises g = None -> gen_to_list g = Ok (gen_items g).
Proof.
  induction g as [|a g IH|e]; simpl; intros H; [reflexivity| |discriminate].
  now rewrite (IH H).
Qed.

Lemma gen_of_list_items {A} (l : list A) :
  gen_raises (gen_of_list l) = None /\ gen_items (gen_of_list l) = l.
Proof.
  induction l as [|a l [IH1 IH2]]; simpl; [now split|].
  split; [exact IH1|]. now rewrite IH2.
Qed.

Section ExtractorFacts.
Context {RT : Runtime}.

(** C3, as amended.  When every mapping document has a [metadata] that is
    a mapping or is missing, the extractor raises nothing of its own: it
    ends as the YAML loader ends (an error of the loader propagates), and
    before that it yields the identities the documents declare, skipping
    the documents that are no mapping or lack apiVersion, kind or name. *)
Theorem manifest_objects_skips_silently (manifest_yaml default_ns : string) :
  Forall (fun d => metadata_ok d = true)
    (gen_items (yaml_safe_load_all manifest_yaml)) ->
  gen_raises (manifest_objects manifest_yaml default_ns)
  = gen_raises (yaml_safe_load_all manifest_yaml)
  /\ gen_items (manifest_objects manifest_yaml default_ns)
     = omap (declared_identity default_ns)
         (gen_items (yaml_safe_load_all manifest_yaml)).
Proof. intros Hok. now apply manifest_loop_declared. Qed.

(** C8, as amended.  When the loader yields the documents [docs] and no
    mapping among them has a [metadata] that is something other than a
    mapping, the extractor yields exactly the identities they declare, in
    order: one for each document that is a mapping whose apiVersion, kind
    and metadata.name are there with a true value, with the default
    namespace where the document gives no namespace or an empty one.  So
    one ConfigMap "cm1" with no namespace gives ("v1", "ConfigMap",
    default namespace, "cm1"); a document with no kind gives nothing; of
    three documents, one of them no mapping, two identities are
    yielded. *)
Theorem manifest_objects_identities (manifest_yaml default_ns : string)
    (docs : list pyval) :
  (yaml_safe_load_all manifest_yaml = gen_of_list docs ->
   Forall (fun d => metadata_ok d = true) docs ->
   gen_to_list (manifest_objects manifest_yaml default_ns)
   = Ok (omap (declared_identity default_ns) docs))
  /\ gen_to_list (manifest_loop (gen_of_list [Fixture.doc_cm1]) default_ns)
     = Ok [(VStr "v1", VStr "ConfigMap", VStr default_ns, VStr "cm1")]
  /\ gen_to_list (manifest_loop (gen_of_list [Fixture.doc_no_kind]) default_ns)
     = Ok []
  /\ gen_to_list
       (manifest_loop
          (gen_of_list [Fixture.doc_cm1; Fixture.doc_scalar; Fixture.doc_web])
          default_ns)
     = Ok [(VStr "v1", VStr "ConfigMap", VStr default_ns, VStr "cm1");
           (VStr "apps/v1", VStr "Deployment", VStr default_ns, VStr "web")].
Proof.
  split; [|repeat split; reflexivity].
  intros Hload Hok. unfold manifest_objects. rewrite Hload.
  destruct (gen_of_list_items docs) as [Hr Hi].
  destruct (manifest_loop_declared (gen_of_list docs) default_ns) as [Hr' Hi'].
  { now rewrite Hi. }
  rewrite gen_to_list_items by now rewrite Hr'.
  now rewrite Hi', Hi.
Qed.

End ExtractorFacts.

Lemma manifest_objects_skips_silently_witness :
  gen_raises (manifest_objects Fixture.manifest_mixed "default")
  = gen_raises (yaml_safe_load_all Fixture.manifest_mixed)
  /\ gen_items (manifest_objects Fixture.manifest_mixed "default")
     = omap (declared_identity "default")
         (gen_items (yaml_safe_load_all Fixture.manifest_mixed)).
Proof.
  apply (manifest_objects_skips_silently Fixture.manifest_mixed "default").
  vm_compute. repeat constructor.
Defined.

Lemma manifest_objects_identities_witness :
  gen_to_list (manifest_objects Fixture.manifest_mixed "default")
  = Ok [(VStr "v1", VStr "ConfigMap", VStr "default", VStr "cm1");
        (VStr "apps/v1", VStr "Deployment", VStr "default", VStr "web")]
  /\ gen_to_list (manifest_objects Fixture.manifest_one "default")
     = Ok [(VStr "v1", VStr "ConfigMap", VStr "default", VStr "cm1")]
  /\ gen_to_list (manifest_objects Fixture.manifest_no_kind "default") = Ok [].
Proof.
  split; [|split].
  - apply (proj1 (manifest_objects_identities Fixture.manifest_mixed "default"
                    [Fixture.doc_cm1; Fixture.doc_scalar; Fixture.doc_web]));
      [ reflexivity | repeat constructor ].
  - apply (proj1 (manifest_objects_identities Fixture.manifest_one "default"
                    [Fixture.doc_cm1])); [ reflexivity | repeat constructor ].
  - apply (proj1 (manifest_objects_identities Fixture.manifest_no_kind
                    "default" [Fixture.doc_no_kind]));
      [ reflexivity | repeat constructor ].
Defined.

(** C3, the counterexamples.  A document whose [metadata] has no value
    makes the extractor raise [AttributeError], and a document the loader
    cannot parse makes it raise the loader's error; in both cases the
    documents around it are lost to the caller. *)
Lemma manifest_objects_raises :
  gen_raises (manifest_objects Fixture.manifest_null_metadata "default")
  = Some AttributeError
  /\ gen_to_list (manifest_objects Fixture.manifest_null_metadata "default")
     = Raise AttributeError
  /\ gen_raises
       (manifest_loop
          (gen_of_list [Fixture.doc_cm1; Fixture.doc_null_metadata;
                        Fixture.doc_web]) "default")
     = Some AttributeError
  /\ gen_to_list (manifest_objects Fixture.manifest_syntax_error "default")
     = Raise YAMLError.
Proof. repeat split; reflexivity. Qed.

(** C8, the counterexamples.  A ConfigMap whose name is the empty string
    is a mapping containing apiVersion, kind and metadata.name, and in the
    specification's words it has an identity; the extractor yields none,
    since it asks for true values.  And of three documents, two valid and
    one whose [metadata] has no value, no two identities come out:
    collecting them raises [AttributeError]. *)
Lemma manifest_objects_not_per_document :
  spec_identity "default" Fixture.doc_empty_name
  = Some (VStr "v1", VStr "ConfigMap", VStr "default", VStr EmptyString)
  /\ gen_to_list (manifest_objects Fixture.manifest_empty_name "default")
     = Ok []
  /\ gen_to_list
       (manifest_loop
          (gen_of_list [Fixture.doc_cm1; Fixture.doc_null_metadata;
                        Fixture.doc_web]) "default")
     = Raise AttributeError.
Proof. repeat split; reflexivity. Qed.

(* ===================================================================== *)
(** ** The report *)
(* ===================================================================== *)

Lemma sorted_insert_perm (x : identity) (l : list identity) :
  Permutation (sorted_insert x l) (x :: l).
Proof.
  induction l as [|y l IH]; simpl; [reflexivity|].
  destruct (identity_ltb y x); [|reflexivity].
  rewrite IH. apply perm_swap.
Qed.

(** Sorting keeps the identities: none is lost, none is added. *)
Lemma insertion_sort_perm (l : list identity) :
  Permutation (insertion_sort l) l.
Proof.
  induction l as [|x l IH]; simpl; [reflexivity|].
  rewrite sorted_insert_perm. now apply perm_skip.
Qed.

Lemma existsb_perm (f : identity -> bool) (l l' : list identity) :
  Permutation l l' -> existsb f l = existsb f l'.
Proof.
  induction 1 as [|x l l' _ IH|x y l|l l' l'' _ IH1 _ IH2]; simpl.
  - reflexivity.
  - now rewrite IH.
  - destruct (f x), (f y); reflexivity.
  - now rewrite IH1.
Qed.

Lemma format_left_str (id : identity) :
  identity_all_str id = true ->
  format_left (let '(_, kind, _, _) := id in kind) = Ok tt.
Proof.
  destruct id as [[[a k] n] nm]. simpl.
  destruct a; try discriminate. destruct k; try discriminate. reflexivity.
Qed.

Section ReportFacts.
Context {RT : Runtime}.

Lemma py_sorted_str (ids : list identity) :
  forallb identity_all_str ids = true ->
  py_sorted ids = Ok (insertion_sort ids).
Proof.
  intros H. unfold py_sorted. destruct ids as [|x [|y l]]; try reflexivity.
  now rewrite H.
Qed.

(** The loop prints one line for each identity, in order, marked with what
    the live check answered, and ends with the disjunction of the answers. *)
Lemma report_loop_lines (dyn : K8s.DynamicClient) (live : identity -> bool)
    (ids : list identity) (exists_any : bool) :
  Forall (fun id => identity_all_str id = true) ids ->
  Forall (fun id => identity_exists dyn id = Ok (live id)) ids ->
  report_loop dyn ids exists_any
  = (map (report_line live) ids, Ok (exists_any || existsb live ids)).
Proof.
  revert exists_any. induction ids as [|id ids IH]; intros exists_any Hs Hl.
  - simpl. now rewrite orb_false_r.
  - apply Forall_cons in Hs as [Hstr Hs]. apply Forall_cons in Hl as [Hid Hl].
    pose proof (format_left_str id Hstr) as Hfmt.
    destruct id as [[[a k] n] nm]. simpl in Hid, Hfmt.
    cbn [report_loop]. rewrite Hid, Hfmt.
    unfold lift, print. cbn [io_bind]. rewrite (IH _ Hs Hl).
    simpl. now rewrite orb_assoc.
Qed.

(** [main] up to the loop, once the record is found and decoded. *)
Lemma main_reaches_report (dyn : K8s.DynamicClient) (args : Args)
    (secret : K8s.Secret) (encoded : string) (release revision : pyval)
    (m : string) (ids : list identity) :
  find_release_secret dyn (arg_name args) (arg_namespace args)
    (arg_revision args) = Ok (Some secret) ->
  K8s.data secret !! "release" = Some encoded ->
  decode_release_payload encoded = Ok release ->
  py_get release "version" (VStr "?") = Ok revision ->
  py_get release "manifest" VNone = Ok (VStr m) ->
  gen_to_list (manifest_objects m (arg_namespace args)) = Ok ids ->
  forallb identity_all_str ids = true ->
  main dyn args
  = io_bind ([PrintHeader (arg_name args) revision (arg_namespace args);
              PrintRule], Ok tt)
      (fun _ =>
         io_bind (report_loop dyn (insertion_sort ids) false)
           (fun exists_any =>
              if negb exists_any then print PrintWarning else io_ret tt)).
Proof.
  intros Hfind Hdata Hdecode Hrev Hman Hids Hstr.
  unfold main. rewrite Hfind. unfold lift at 1. cbn [io_bind].
  rewrite Hdata, Hdecode. unfold lift at 1. cbn [io_bind].
  rewrite Hrev. unfold lift at 1. cbn [io_bind].
  rewrite Hman. unfold lift at 1. cbn [io_bind].
  unfold manifest_objects_of. rewrite Hids. simpl mbind.
  cbn [Py.bind]. rewrite (py_sorted_str ids Hstr).
  unfold print, lift. cbn [io_bind app].
  destruct (report_loop dyn (insertion_sort ids) false) as [out [b|e]];
    [destruct b|]; reflexivity.
Qed.

(** C9.  With the record found and decoded and the manifest declaring the
    identities [ids], the report is the header, the rule, one line for
    each declared identity (in sorted order) marked live exactly when the
    live check says it exists, and then the warning exactly when the live
    check says of every declared identity that it is absent. *)
Theorem main_report (dyn : K8s.DynamicClient) (args : Args)
    (secret : K8s.Secret) (encoded : string) (release revision : pyval)
    (m : string) (ids : list identity) (live : identity -> bool) :
  find_release_secret dyn (arg_name args) (arg_namespace args)
    (arg_revision args) = Ok (Some secret) ->
  K8s.data secret !! "release" = Some encoded ->
  decode_release_payload encoded = Ok release ->
  py_get release "version" (VStr "?") = Ok revision ->
  py_get release "manifest" VNone = Ok (VStr m) ->
  gen_to_list (manifest_objects m (arg_namespace args)) = Ok ids ->
  Forall (fun id => identity_all_str id = true) ids ->
  Forall (fun id => identity_exists dyn id = Ok (live id)) ids ->
  Permutation (insertion_sort ids) ids
  /\ main dyn args
     = ([PrintHeader (arg_name args) revision (arg_namespace args); PrintRule]
          ++ map (report_line live) (insertion_sort ids)
          ++ (if existsb live ids then [] else [PrintWarning]),
        Ok tt)
  /\ (In PrintWarning (fst (main dyn args))
      <-> forall id, In id ids -> live id = false).
Proof.
  intros Hfind Hdata Hdecode Hrev Hman Hids Hstr Hlive.
  pose proof (insertion_sort_perm ids) as Hperm.
  assert (Hmain : main dyn args
     = ([PrintHeader (arg_name args) revision (arg_namespace args); PrintRule]
          ++ map (report_line live) (insertion_sort ids)
          ++ (if existsb live ids then [] else [PrintWarning]),
        Ok tt)).
  { rewrite (main_reaches_report dyn args secret encoded release revision m ids
               Hfind Hdata Hdecode Hrev Hman Hids)
      by (apply forallb_forall; intros id Hin;
          now apply (proj1 (List.Forall_forall _ _) Hstr)).
    rewrite (report_loop_lines dyn live (insertion_sort ids) false).
    - rewrite (existsb_perm live _ _ Hperm). simpl.
      destruct (existsb live ids); simpl; [now rewrite app_nil_r|reflexivity].
    - apply List.Forall_forall. intros id Hin.
      apply (proj1 (List.Forall_forall _ _) Hstr).
      now apply (Permutation_in _ Hperm).
    - apply List.Forall_forall. intros id Hin.
      apply (proj1 (List.Forall_forall _ _) Hlive).
      now apply (Permutation_in _ Hperm). }
  split; [exact Hperm|]. split; [exact Hmain|].
  rewrite Hmain. simpl fst. split.
  - intros Hin id Hid.
    destruct (existsb live ids) eqn:E.
    + exfalso. rewrite app_nil_r in Hin.
      destruct Hin as [Hin|[Hin|Hin]]; try discriminate.
      apply in_map_iff in Hin as ([[[a k] n] nm] & Heq & _). discriminate.
    + destruct (live id) eqn:El; [|reflexivity].
      assert (existsb live ids = true)
        by (apply existsb_exists; now exists id).
      congruence.
  - intros Habsent.
    destruct (existsb live ids) eqn:E.
    + apply existsb_exists in E as (id & Hid & Hl).
      rewrite (Habsent id Hid) in Hl. discriminate.
    + right. right. apply in_or_app. right. now left.
Qed.

(** C10.  When the manifest declares no identity at all, the report is the
    header, the rule and the warning: a release with nothing to deploy is
    reported like one whose resources are all gone. *)
Theorem main_warns_without_resources (dyn : K8s.DynamicClient) (args : Args)
    (secret : K8s.Secret) (encoded : string) (release revision : pyval)
    (m : string) :
  find_release_secret dyn (arg_name args) (arg_namespace args)
    (arg_revision args) = Ok (Some secret) ->
  K8s.data secret !! "release" = Some encoded ->
  decode_release_payload encoded = Ok release ->
  py_get release "version" (VStr "?") = Ok revision ->
  py_get release "manifest" VNone = Ok (VStr m) ->
  gen_to_list (manifest_objects m (arg_namespace args)) = Ok [] ->
  main dyn args
  = ([PrintHeader (arg_name args) revision (arg_namespace args); PrintRule;
      PrintWarning], Ok tt).
Proof.
  intros Hfind Hdata Hdecode Hrev Hman Hids.
  now rewrite (main_reaches_report dyn args secret encoded release revision m []
                 Hfind Hdata Hdecode Hrev Hman Hids eq_refl).
Qed.

End ReportFacts.

Lemma main_report_witness :
  Permutation
    (insertion_sort
       [(VStr "v1", VStr "ConfigMap", VStr "default", VStr "cm1");
        (VStr "v1", VStr "Service", VStr "edge", VStr "svc1");
        (VStr "apps/v1", VStr "Deployment", VStr "default", VStr "web")])
    [(VStr "v1", VStr "ConfigMap", VStr "default", VStr "cm1");
     (VStr "v1", VStr "Service", VStr "edge", VStr "svc1");
     (VStr "apps/v1", VStr "Deployment", VStr "default", VStr "web")]
  /\ main Fixture.dyn Fixture.args_latest
     = ([PrintHeader "myrel" (VInt 3) "default"; PrintRule]
          ++ map (report_line Fixture.live)
               (insertion_sort
                  [(VStr "v1", VStr "ConfigMap", VStr "default", VStr "cm1");
                   (VStr "v1", VStr "Service", VStr "edge", VStr "svc1");
                   (VStr "apps/v1", VStr "Deployment", VStr "default",
                    VStr "web")])
          ++ (if existsb Fixture.live
                   [(VStr "v1", VStr "ConfigMap", VStr "default", VStr "cm1");
                    (VStr "v1", VStr "Service", VStr "edge", VStr "svc1");
                    (VStr "apps/v1", VStr "Deployment", VStr "default",
                     VStr "web")]
              then [] else [PrintWarning]),
        Ok tt)
  /\ (In PrintWarning (fst (main Fixture.dyn Fixture.args_latest))
      <-> forall id,
          In id [(VStr "v1", VStr "ConfigMap", VStr "default", VStr "cm1");
                 (VStr "v1", VStr "Service", VStr "edge", VStr "svc1");
                 (VStr "apps/v1", VStr "Deployment", VStr "default",
                  VStr "web")] ->
          Fixture.live id = false).
Proof.
  apply (main_report Fixture.dyn Fixture.args_latest Fixture.rev3
           Fixture.payload_double Fixture.release (VInt 3) Fixture.manifest
           [(VStr "v1", VStr "ConfigMap", VStr "default", VStr "cm1");
            (VStr "v1", VStr "Service", VStr "edge", VStr "svc1");
            (VStr "apps/v1", VStr "Deployment", VStr "default", VStr "web")]
           Fixture.live);
    [ vm_compute; reflexivity | reflexivity | vm_compute; reflexivity
    | reflexivity | reflexivity | vm_compute; reflexivity
    | repeat constructor | repeat constructor ].
Defined.

Lemma main_warns_without_resources_witness :
  main Fixture.dyn (Fixture.args_rev 1)
  = ([PrintHeader "myrel" (VInt 1) "default"; PrintRule; PrintWarning], Ok tt).
Proof.
  apply (main_warns_without_resources Fixture.dyn (Fixture.args_rev 1)
           Fixture.rev1 Fixture.payload_empty Fixture.release_empty (VInt 1)
           Fixture.manifest_comment_only);
    [ vm_compute; reflexivity | reflexivity | vm_compute; reflexivity
    | reflexivity | reflexivity | vm_compute; reflexivity ].
Defined.

(* ===================================================================== *)
(** ** Further properties of the resolver and the decoder *)
(* ===================================================================== *)

(** X1.  On a record with no label named "get", whose labels can
    therefore be read, a missing or non-numeric [version] label gives
    revision 0 whatever the name of the record is: the name never
    contributes a revision. *)
Theorem secret_version_ignores_name (sec : K8s.Secret) :
  label sec "get" = None ->
  Str.isdigit (version_text sec) = false ->
  secret_version sec = Ok 0.
Proof. apply secret_version_no_label. Qed.

Lemma secret_version_ignores_name_witness :
  secret_version Fixture.legacy_v7 = Ok 0.
Proof.
  apply (secret_version_ignores_name Fixture.legacy_v7); reflexivity.
Defined.

(** X2.  On a record with no label named "get", a [version] label made of
    ASCII digits (at most 63 of them) is the revision, read in base 10,
    whatever the name of the record. *)
Theorem secret_version_numeric_label (sec : K8s.Secret) :
  Str.isdigit (version_text sec) = true ->
  version_label_ok sec = true ->
  secret_version sec = Ok (Str.decimal_value (version_text sec)).
Proof.
  intros Hd Hok. apply version_label_ok_inv in Hok as (Hget & Hascii & Hlen).
  rewrite (secret_version_label sec Hget Hd).
  apply StrFacts.int_decimal.
  - intros E. rewrite E in Hd. discriminate.
  - apply ascii_digits_decimal; [|exact Hascii].
    destruct (version_text sec); [discriminate|exact Hd].
  - unfold Str.int_max_str_digits. lia.
Qed.

Lemma secret_version_numeric_label_witness :
  secret_version Fixture.rev3
  = Ok (Str.decimal_value (version_text Fixture.rev3)).
Proof.
  apply (secret_version_numeric_label Fixture.rev3); reflexivity.
Defined.

(** X3.  When the store has no record for the release, or answers with
    [NotFoundError], the resolver returns the not-found result, with or
    without a requested revision. *)
Theorem find_release_secret_not_found (dyn : K8s.DynamicClient)
    (release_name release_ns : string) (res : K8s.Resource)
    (revision : option Z) :
  K8s.resources_get dyn (VStr "v1") (VStr "Secret") = Ok res ->
  K8s.list_items res release_ns (OWNER_LABEL +:+ ",name=" +:+ release_name)
    = Ok []
  \/ K8s.list_items res release_ns (OWNER_LABEL +:+ ",name=" +:+ release_name)
     = Raise NotFoundError ->
  find_release_secret dyn release_name release_ns revision = Ok None.
Proof.
  intros Hres [Hlist | Hlist]; unfold find_release_secret;
    rewrite Hres; simpl; now rewrite Hlist.
Qed.

Lemma find_release_secret_not_found_witness :
  find_release_secret Fixture.dyn "other" "default" (Some 2) = Ok None.
Proof.
  apply (find_release_secret_not_found Fixture.dyn "other" "default"
           Fixture.secrets (Some 2)); [ reflexivity | left; reflexivity ].
Defined.

(** X4.  [base64.b64decode] gives back what [base64.b64encode] was given, for
    the [bytes] and for the [str] form of the encoding. *)
Theorem base64_decode_inverts_encode (data : bytes) :
  Base64.b64decode (Base64.b64encode data) = Ok data
  /\ Base64.b64decode_str (Base64.b64encode_str data) = Ok data.
Proof.
  split; [apply Base64Facts.b64decode_b64encode
         |apply Base64Facts.b64decode_str_b64encode].
Qed.

Section ExitFacts.
Context {RT : Runtime}.

(** X5.  When no record is found, [main] prints nothing and exits with a
    message that names the requested revision, or says (latest) when none
    was requested. *)
Theorem main_not_found (dyn : K8s.DynamicClient) (args : Args) :
  find_release_secret dyn (arg_name args) (arg_namespace args)
    (arg_revision args) = Ok None ->
  main dyn args = ([], Raise (SystemExit (not_found_message args))).
Proof. intros Hfind. unfold main. now rewrite Hfind. Qed.

(** X7.  A decoded record with no [manifest] makes [main] exit with its own
    message before anything is printed. *)
Theorem main_missing_manifest (dyn : K8s.DynamicClient) (args : Args)
    (secret : K8s.Secret) (encoded : string) (d : list (pyval * pyval)) :
  find_release_secret dyn (arg_name args) (arg_namespace args)
    (arg_revision args) = Ok (Some secret) ->
  K8s.data secret !! "release" = Some encoded ->
  decode_release_payload encoded = Ok (VDict d) ->
  dict_lookup d "manifest" = None \/ dict_lookup d "manifest" = Some VNone ->
  main dyn args
  = ([], Raise (SystemExit "[ERROR] Release payload missing 'manifest' field.")).
Proof.
  intros Hfind Hdata Hdecode Hman. unfold main.
  rewrite Hfind. unfold lift at 1. cbn [io_bind].
  rewrite Hdata, Hdecode. unfold lift at 1. cbn [io_bind].
  unfold py_get.
  destruct Hman as [-> | ->]; reflexivity.
Qed.

End ExitFacts.

Lemma main_missing_manifest_witness :
  main Fixture.dyn_incomplete Fixture.args_latest
  = ([], Raise (SystemExit "[ERROR] Release payload missing 'manifest' field.")).
Proof.
  apply (main_missing_manifest Fixture.dyn_incomplete Fixture.args_latest
           Fixture.incomplete
           (Base64.b64encode_str Fixture.release_incomplete_json)
           [(VStr "name", VStr "myrel"); (VStr "version", VInt 2)]);
    [ vm_compute; reflexivity | reflexivity | vm_compute; reflexivity
    | left; reflexivity ].
Defined.

Lemma main_not_found_witness :
  main Fixture.dyn (Fixture.args_rev 7)
  = ([], Raise (SystemExit (not_found_message (Fixture.args_rev 7)))).
Proof.
  apply (main_not_found Fixture.dyn (Fixture.args_rev 7)).
  vm_compute. reflexivity.
Defined.

(** X6.  The not-found message tells a pinned revision from the latest one. *)
Theorem not_found_message_differs (name namespace : string) (r : Z) :
  not_found_message
    {| arg_name := name; arg_namespace := namespace; arg_revision := Some r |}
  <> not_found_message
       {| arg_name := name; arg_namespace := namespace; arg_revision := None |}.
Proof.
  unfold not_found_message. simpl. intros H.
  apply (inj (String.append _)) in H.
  apply (inj (String.append name)) in H.
  discriminate H.
Qed.

(* ===================================================================== *)
(** ** More on the resolver *)
(* ===================================================================== *)

Module IntFacts.
Import Str StrFacts.

Lemma digit_char_not_space (c : ascii) :
  is_digit_char c = true -> negb (is_space c) = true.
Proof.
  unfold is_digit_char, is_decimal, is_space. intros H.
  apply negb_true_iff.
  repeat (apply orb_true_iff in H as [H|H]).
  - apply andb_true_iff in H as [H1 H2].
    apply N.leb_le in H1. apply N.leb_le in H2.
    repeat (apply orb_false_iff; split);
      first [ apply andb_false_iff;
              (left; apply N.leb_gt; lia) || (right; apply N.leb_gt; lia)
            | apply N.eqb_neq; lia ].
  - apply N.eqb_eq in H.
    repeat (apply orb_false_iff; split);
      first [ apply andb_false_iff;
              (left; apply N.leb_gt; lia) || (right; apply N.leb_gt; lia)
            | apply N.eqb_neq; lia ].
  - apply N.eqb_eq in H.
    repeat (apply orb_false_iff; split);
      first [ apply andb_false_iff;
              (left; apply N.leb_gt; lia) || (right; apply N.leb_gt; lia)
            | apply N.eqb_neq; lia ].
  - apply N.eqb_eq in H.
    repeat (apply orb_false_iff; split);
      first [ apply andb_false_iff;
              (left; apply N.leb_gt; lia) || (right; apply N.leb_gt; lia)
            | apply N.eqb_neq; lia ].
Qed.

Lemma digit_char_not_sign (c : ascii) :
  is_digit_char c = true ->
  c <> "-"%char /\ c <> "+"%char /\ c <> "_"%char.
Proof.
  intros H. repeat split; intros ->; discriminate H.
Qed.

(** [int] on a string with nothing to strip and no sign in front. *)
Lemma int_unsigned (s : string) :
  strip s = s ->
  (forall c r, s = String c r -> c <> "-"%char /\ c <> "+"%char) ->
  int s =
    match int_digits s false 0 0%N with
    | Some (v, n) =>
        if (int_max_str_digits <? n)%N then Raise ValueError else Ok v
    | None => Raise ValueError
    end.
Proof.
  intros Hstrip Hsign. unfold int. rewrite Hstrip.
  destruct s as [|c s]; [reflexivity|].
  destruct (Hsign c s eq_refl) as [Hm Hp].
  assert (Hbody : match String c s with
                  | String "-"%char r => (true, r)
                  | String "+"%char r => (false, r)
                  | _ => (false, String c s)
                  end = (false, String c s)).
  { destruct c as [[] [] [] [] [] [] [] []]; try reflexivity; congruence. }
  rewrite Hbody. destruct (int_digits (String c s) false 0 0%N) as [[v n]|];
    [destruct (int_max_str_digits <? n)%N|]; reflexivity.
Qed.

Lemma int_digits_nonneg (s : string) :
  forall prev acc n v m,
    0 <= acc -> int_digits s prev acc n = Some (v, m) -> 0 <= v.
Proof.
  induction s as [|c s IH]; intros prev acc n v m Hacc; simpl.
  - destruct prev; [|discriminate]. intros H. injection H as <- _. exact Hacc.
  - destruct (is_decimal c) eqn:Hc.
    + apply IH. unfold is_decimal in Hc.
      apply andb_true_iff in Hc as [H1 _]. apply N.leb_le in H1.
      unfold digit_val. lia.
    + destruct (Ascii.eqb c "_"); [|discriminate].
      destruct prev; [|discriminate]. now apply IH.
Qed.

(** A digit that is not a decimal digit ends the reading of the number. *)
Lemma int_digits_nondecimal (s : string) :
  forall prev acc n,
    all_chars is_digit_char s = true ->
    all_chars is_decimal s = false ->
    int_digits s prev acc n = None.
Proof.
  induction s as [|c s IH]; intros prev acc n; simpl; [discriminate|].
  intros Hd Hn. apply andb_true_iff in Hd as [Hc Hs].
  destruct (is_decimal c) eqn:Hdec.
  - simpl in Hn. now apply IH.
  - destruct (digit_char_not_sign c Hc) as (_ & _ & Hu).
    destruct (Ascii.eqb_spec c "_"%char); [contradiction|reflexivity].
Qed.

Lemma digit_string_plain (s : string) :
  all_chars is_digit_char s = true ->
  strip s = s
  /\ (forall c r, s = String c r -> c <> "-"%char /\ c <> "+"%char).
Proof.
  intros H. split.
  - apply strip_none. eapply all_chars_impl; [apply digit_char_not_space|exact H].
  - intros c r ->. simpl in H. apply andb_true_iff in H as [Hc _].
    destruct (digit_char_not_sign c Hc) as (? & ? & _). now split.
Qed.

End IntFacts.

(** When the labels can be read, [secret_version] raises nothing but
    [ValueError]. *)
Lemma secret_version_raises (sec : K8s.Secret) (e : exn) :
  label sec "get" = None ->
  secret_version sec = Raise e -> e = ValueError.
Proof.
  intros Hget. destruct (Str.isdigit (version_text sec)) eqn:Hd.
  - rewrite (secret_version_label sec Hget Hd). unfold Str.int.
    destruct (match Str.strip (version_text sec) with
              | String "-"%char r => (true, r)
              | String "+"%char r => (false, r)
              | _ => (false, Str.strip (version_text sec))
              end) as [neg body].
    destruct (Str.int_digits body false 0 0%N) as [[v n]|];
      [destruct (Str.int_max_str_digits <? n)%N|]; congruence.
  - rewrite (secret_version_no_label sec Hget Hd). discriminate.
Qed.

Lemma secret_version_result_nonneg (sec : K8s.Secret) (v : Z) :
  secret_version sec = Ok v -> 0 <= v.
Proof.
  destruct (label sec "get") as [x|] eqn:Hget.
  { rewrite (version_label_get sec x Hget). discriminate. }
  destruct (Str.isdigit (version_text sec)) eqn:Hd.
  - rewrite (secret_version_label sec Hget Hd).
    assert (Hall : Str.all_chars Str.is_digit_char (version_text sec) = true)
      by (destruct (version_text sec); [discriminate|exact Hd]).
    destruct (IntFacts.digit_string_plain _ Hall) as [Hstrip Hsign].
    rewrite (IntFacts.int_unsigned _ Hstrip Hsign).
    destruct (Str.int_digits (version_text sec) false 0 0%N) as [[w n]|] eqn:E;
      [|discriminate].
    destruct (Str.int_max_str_digits <? n)%N; [discriminate|].
    intros H. injection H as <-.
    now apply (IntFacts.int_digits_nonneg _ _ _ _ _ _ (Z.le_refl 0) E).
  - rewrite (secret_version_no_label sec Hget Hd).
    intros H. injection H as <-. lia.
Qed.

(** X8.  A resolved revision is never negative, whatever the labels and
    the name of the record are. *)
Theorem secret_version_nonneg (sec : K8s.Secret) (v : Z) :
  secret_version sec = Ok v -> 0 <= v.
Proof. apply secret_version_result_nonneg. Qed.

Lemma secret_version_nonneg_witness :
  secret_version Fixture.rev3 = Ok 3 /\ 0 <= 3.
Proof.
  split; [reflexivity|].
  apply (secret_version_nonneg Fixture.rev3 3). reflexivity.
Defined.

(** X9.  On a record with no label named "get", a [version] label that
    [str.isdigit] accepts but that holds a digit other than 0-9 (a
    superscript) is not skipped in favour of the name: [int] rejects it
    outside the [try] and [secret_version] raises [ValueError]. *)
Theorem secret_version_nondecimal_label (sec : K8s.Secret) :
  label sec "get" = None ->
  Str.isdigit (version_text sec) = true ->
  Str.all_chars Str.is_decimal (version_text sec) = false ->
  secret_version sec = Raise ValueError.
Proof.
  intros Hget Hd Hn. rewrite (secret_version_label sec Hget Hd).
  assert (Hall : Str.all_chars Str.is_digit_char (version_text sec) = true)
    by (destruct (version_text sec); [discriminate|exact Hd]).
  destruct (IntFacts.digit_string_plain _ Hall) as [Hstrip Hsign].
  rewrite (IntFacts.int_unsigned _ Hstrip Hsign).
  now rewrite (IntFacts.int_digits_nondecimal _ _ _ _ Hall Hn).
Qed.

Lemma secret_version_nondecimal_label_witness :
  secret_version Scenario.bad_label = Raise ValueError.
Proof.
  apply (secret_version_nondecimal_label Scenario.bad_label); reflexivity.
Defined.

Section MaxSound.
Context {A : Type} (key : A -> result Z).

(** Whenever [max_from] returns, it returns the best so far or a later
    item, every key was computed, and none is greater than the result's. *)
Lemma max_from_sound (l : list A) :
  forall (best : A) (kbest : Z) (sec : A),
    key best = Ok kbest ->
    max_from key best kbest l = Ok sec ->
    (sec = best \/ sec ∈ l)
    /\ exists v, key sec = Ok v /\ kbest <= v
                 /\ forall c, c ∈ l -> exists vc, key c = Ok vc /\ vc <= v.
Proof.
  induction l as [|x l IH]; intros best kbest sec Hbest; simpl.
  - intros H. injection H as <-. split; [now left|].
    exists kbest. split; [exact Hbest|]. split; [lia|].
    intros c Hc. inversion Hc.
  - destruct (key x) as [kx|e] eqn:Hx; simpl; [|discriminate].
    destruct (Z.ltb_spec kbest kx) as [Hlt|Hge]; intros H.
    + destruct (IH x kx sec Hx H) as [Hin (v & Hv & Hle & Hall)].
      split.
      * right. destruct Hin as [-> | Hin];
          [apply list_elem_of_here|now apply list_elem_of_further].
      * exists v. split; [exact Hv|]. split; [lia|].
        intros c Hc. apply elem_of_cons in Hc as [-> | Hc]; [|now apply Hall].
        exists kx. split; [exact Hx|lia].
    + destruct (IH best kbest sec Hbest H) as [Hin (v & Hv & Hle & Hall)].
      split.
      * destruct Hin as [-> | Hin]; [now left|].
        right. now apply list_elem_of_further.
      * exists v. split; [exact Hv|]. split; [lia|].
        intros c Hc. apply elem_of_cons in Hc as [-> | Hc]; [|now apply Hall].
        exists kx. split; [exact Hx|lia].
Qed.

Lemma py_max_sound (l : list A) (sec : A) :
  py_max key l = Ok sec ->
  sec ∈ l
  /\ exists v, key sec = Ok v
               /\ forall c, c ∈ l -> exists vc, key c = Ok vc /\ vc <= v.
Proof.
  destruct l as [|x l]; simpl; [discriminate|].
  destruct (key x) as [kx|e] eqn:Hx; simpl; [|discriminate].
  intros H. destruct (max_from_sound l x kx sec Hx H) as [Hin (v & Hv & Hle & Hall)].
  split.
  - destruct Hin as [-> | Hin];
      [apply list_elem_of_here|now apply list_elem_of_further].
  - exists v. split; [exact Hv|].
    intros c Hc. apply elem_of_cons in Hc as [-> | Hc]; [|now apply Hall].
    exists kx. split; [exact Hx|lia].
Qed.

(** A key that raises makes [max] raise: every key is computed. *)
Lemma max_from_raises (l : list A) (e : exn) :
  forall (best : A) (kbest : Z),
    (forall c e', c ∈ l -> key c = Raise e' -> e' = e) ->
    (exists c, c ∈ l /\ key c = Raise e) ->
    max_from key best kbest l = Raise e.
Proof.
  induction l as [|x l IH]; intros best kbest Hone (c & Hc & Hk).
  - inversion Hc.
  - simpl. destruct (key x) as [kx|e'] eqn:Hx; simpl.
    + apply elem_of_cons in Hc as [-> | Hc]; [congruence|].
      assert (Hone' : forall c e', c ∈ l -> key c = Raise e' -> e' = e)
        by (intros c' e' Hc'; apply Hone; now apply list_elem_of_further).
      destruct (kbest <? kx); apply IH; eauto.
    + now rewrite (Hone x e' (list_elem_of_here _ _) Hx).
Qed.

Lemma py_max_raises (l : list A) (e : exn) :
  (forall c e', c ∈ l -> key c = Raise e' -> e' = e) ->
  (exists c, c ∈ l /\ key c = Raise e) ->
  py_max key l = Raise e.
Proof.
  intros Hone (c & Hc & Hk). destruct l as [|x l]; [inversion Hc|].
  simpl. destruct (key x) as [kx|e'] eqn:Hx; simpl.
  - apply elem_of_cons in Hc as [-> | Hc]; [congruence|].
    apply max_from_raises; [|eauto].
    intros c' e' Hc'. apply Hone. now apply list_elem_of_further.
  - now rewrite (Hone x e' (list_elem_of_here _ _) Hx).
Qed.

End MaxSound.

Lemma first_with_revision_sound (revision : Z) (candidates : list K8s.Secret)
    (sec : K8s.Secret) :
  first_with_revision revision candidates = Ok (Some sec) ->
  sec ∈ candidates /\ secret_version sec = Ok revision.
Proof.
  induction candidates as [|x l IH]; simpl; [discriminate|].
  destruct (secret_version x) as [kx|e] eqn:Hx; simpl; [|discriminate].
  destruct (Z.eqb_spec kx revision) as [-> | Hne]; intros H.
  - injection H as <-. split; [apply list_elem_of_here|exact Hx].
  - destruct (IH H) as [Hin Hv]. split; [now apply list_elem_of_further|exact Hv].
Qed.

Lemma select_release_secret_sound (candidates : list K8s.Secret)
    (revision : option Z) (sec : K8s.Secret) :
  select_release_secret candidates revision = Ok (Some sec) ->
  sec ∈ candidates
  /\ exists v, secret_version sec = Ok v
     /\ match revision with
        | Some r => v = r
        | None => forall c, c ∈ candidates ->
                            exists vc, secret_version c = Ok vc /\ vc <= v
        end.
Proof.
  unfold select_release_secret. destruct candidates as [|x l]; [discriminate|].
  destruct revision as [r|].
  - intros H. destruct (first_with_revision_sound r _ sec H) as [Hin Hv].
    split; [exact Hin|]. now exists r.
  - destruct (py_max secret_version (x :: l)) as [s|e] eqn:Hmax; simpl;
      [|discriminate].
    intros H. injection H as <-.
    destruct (py_max_sound secret_version _ _ Hmax) as [Hin (v & Hv & Hall)].
    split; [exact Hin|]. now exists v.
Qed.

(** X10.  Whatever the labels are, a record that [find_release_secret]
    returns is one of the candidates of the store, its revision could be
    resolved, and that revision is the requested one, or, with no revision
    requested, one that no candidate's revision exceeds. *)
Theorem find_release_secret_sound (dyn : K8s.DynamicClient)
    (release_name release_ns : string) (res : K8s.Resource)
    (candidates : list K8s.Secret) (revision : option Z) (sec : K8s.Secret) :
  K8s.resources_get dyn (VStr "v1") (VStr "Secret") = Ok res ->
  K8s.list_items res release_ns (OWNER_LABEL +:+ ",name=" +:+ release_name)
    = Ok candidates ->
  find_release_secret dyn release_name release_ns revision = Ok (Some sec) ->
  sec ∈ candidates
  /\ exists v, secret_version sec = Ok v
     /\ match revision with
        | Some r => v = r
        | None => forall c, c ∈ candidates ->
                            exists vc, secret_version c = Ok vc /\ vc <= v
        end.
Proof.
  intros Hres Hlist.
  rewrite (find_release_secret_candidates _ _ _ _ _ _ Hres Hlist).
  apply select_release_secret_sound.
Qed.

Lemma find_release_secret_sound_witness :
  Fixture.rev2 ∈ Fixture.candidates
  /\ exists v, secret_version Fixture.rev2 = Ok v /\ v = 2.
Proof.
  apply (find_release_secret_sound Fixture.dyn "myrel" "default"
           Fixture.secrets Fixture.candidates (Some 2) Fixture.rev2);
    reflexivity.
Defined.

(** X11.  A negative revision is never found: resolved revisions are not
    negative, so the request ends in the not-found result or in an error. *)
Theorem find_release_secret_negative_revision (dyn : K8s.DynamicClient)
    (release_name release_ns : string) (res : K8s.Resource)
    (candidates : list K8s.Secret) (R : Z) (sec : K8s.Secret) :
  K8s.resources_get dyn (VStr "v1") (VStr "Secret") = Ok res ->
  K8s.list_items res release_ns (OWNER_LABEL +:+ ",name=" +:+ release_name)
    = Ok candidates ->
  R < 0 ->
  find_release_secret dyn release_name release_ns (Some R) <> Ok (Some sec).
Proof.
  intros Hres Hlist HR Hfind.
  rewrite (find_release_secret_candidates _ _ _ _ _ _ Hres Hlist) in Hfind.
  destruct (select_release_secret_sound _ _ _ Hfind) as [_ (v & Hv & Heq)].
  pose proof (secret_version_result_nonneg sec v Hv). lia.
Qed.

Lemma find_release_secret_negative_revision_witness :
  find_release_secret Fixture.dyn "myrel" "default" (Some (-1))
  <> Ok (Some Fixture.rev1).
Proof.
  apply (find_release_secret_negative_revision Fixture.dyn "myrel" "default"
           Fixture.secrets Fixture.candidates (-1) Fixture.rev1);
    [ reflexivity | reflexivity | lia ].
Defined.

(** X12.  With no revision requested every candidate's revision is
    resolved.  So when the labels of all candidates can be read (none has
    a label named "get"), one candidate whose label makes
    [secret_version] raise makes the whole resolution raise [ValueError],
    wherever it stands in the listing. *)
Theorem find_release_secret_latest_raises (dyn : K8s.DynamicClient)
    (release_name release_ns : string) (res : K8s.Resource)
    (candidates : list K8s.Secret) (bad : K8s.Secret) :
  K8s.resources_get dyn (VStr "v1") (VStr "Secret") = Ok res ->
  K8s.list_items res release_ns (OWNER_LABEL +:+ ",name=" +:+ release_name)
    = Ok candidates ->
  Forall (fun c => label c "get" = None) candidates ->
  bad ∈ candidates ->
  secret_version bad = Raise ValueError ->
  find_release_secret dyn release_name release_ns None = Raise ValueError.
Proof.
  intros Hres Hlist Hget Hin Hbad.
  rewrite (find_release_secret_candidates _ _ _ _ _ _ Hres Hlist).
  unfold select_release_secret. destruct candidates as [|x l]; [inversion Hin|].
  rewrite (py_max_raises secret_version (x :: l) ValueError);
    [reflexivity| |now exists bad].
  intros c e' Hc. apply secret_version_raises.
  apply (proj1 (Forall_forall _ _) Hget c Hc).
Qed.

Lemma find_release_secret_latest_raises_witness :
  find_release_secret
    (Scenario.dyn_listing (Ok [Fixture.rev3; Scenario.bad_label; Fixture.rev1]))
    "myrel" "default" None
  = Raise ValueError.
Proof.
  apply (find_release_secret_latest_raises
           (Scenario.dyn_listing
              (Ok [Fixture.rev3; Scenario.bad_label; Fixture.rev1]))
           "myrel" "default"
           (Scenario.store (Ok [Fixture.rev3; Scenario.bad_label; Fixture.rev1]))
           [Fixture.rev3; Scenario.bad_label; Fixture.rev1] Scenario.bad_label);
    [ reflexivity | reflexivity | repeat constructor
    | apply list_elem_of_further, list_elem_of_here | reflexivity ].
Defined.

(** X13.  An error of the store other than [NotFoundError] is not turned
    into the not-found result: it reaches the caller as it is, whether it
    comes from resolving the Secret kind or from the listing. *)
Theorem find_release_secret_store_error (dyn : K8s.DynamicClient)
    (release_name release_ns : string) (revision : option Z) (e : exn) :
  K8s.resources_get dyn (VStr "v1") (VStr "Secret") = Raise e
  \/ (is_NotFoundError e = false
      /\ exists res,
           K8s.resources_get dyn (VStr "v1") (VStr "Secret") = Ok res
           /\ K8s.list_items res release_ns
                (OWNER_LABEL +:+ ",name=" +:+ release_name) = Raise e) ->
  find_release_secret dyn release_name release_ns revision = Raise e.
Proof.
  unfold find_release_secret.
  intros [Hres | (Hnf & res & Hres & Hlist)]; rewrite Hres; simpl;
    [reflexivity|]. now rewrite Hlist, Hnf.
Qed.

Lemma find_release_secret_store_error_witness :
  find_release_secret (Scenario.dyn_listing (Raise DynamicApiError))
    "myrel" "default" None
  = Raise DynamicApiError.
Proof.
  apply (find_release_secret_store_error
           (Scenario.dyn_listing (Raise DynamicApiError)) "myrel" "default"
           None DynamicApiError).
  right. split; [reflexivity|].
  exists (Scenario.store (Raise DynamicApiError)). split; reflexivity.
Defined.

Lemma select_release_secret_order_independent
    (listing1 listing2 : list K8s.Secret) (revision : option Z) :
  Permutation listing1 listing2 ->
  Forall (fun c => version_label_ok c = true) listing1 ->
  (forall a b, a ∈ listing1 -> b ∈ listing1 ->
               secret_version a = secret_version b -> a = b) ->
  select_release_secret listing1 revision
  = select_release_secret listing2 revision.
Proof.
  intros Hperm Hok Huniq.
  assert (Hok2 : Forall (fun c => version_label_ok c = true) listing2)
    by now rewrite <- Hperm.
  pose proof (candidates_versions _ Hok) as Hv1.
  pose proof (candidates_versions _ Hok2) as Hv2.
  destruct listing1 as [|x1 l1].
  { apply Permutation_nil in Hperm. now subst. }
  destruct listing2 as [|x2 l2].
  { symmetry in Hperm. apply Permutation_nil in Hperm. discriminate. }
  unfold select_release_secret. destruct revision as [r|].
  - pose proof (first_with_revision_exact r _ Hv1) as H1.
    pose proof (first_with_revision_exact r _ Hv2) as H2.
    destruct (first_with_revision r (x1 :: l1)) as [[s1|]|e1]; [| |contradiction];
      destruct (first_with_revision r (x2 :: l2)) as [[s2|]|e2];
      try contradiction.
    + destruct H1 as [Hin1 Hs1]. destruct H2 as [Hin2 Hs2].
      rewrite <- Hperm in Hin2.
      now rewrite (Huniq s1 s2 Hin1 Hin2 ltac:(congruence)).
    + destruct H1 as [Hin1 Hs1]. rewrite Hperm in Hin1.
      now destruct (H2 s1 Hin1).
    + destruct H2 as [Hin2 Hs2]. rewrite <- Hperm in Hin2.
      now destruct (H1 s2 Hin2).
    + reflexivity.
  - destruct (py_max_first_greatest secret_version (x1 :: l1)
                ltac:(discriminate) Hv1)
      as (s1 & v1 & b1 & a1 & Hmax1 & Hsplit1 & Hk1 & Hb1 & Ha1).
    destruct (py_max_first_greatest secret_version (x2 :: l2)
                ltac:(discriminate) Hv2)
      as (s2 & v2 & b2 & a2 & Hmax2 & Hsplit2 & Hk2 & Hb2 & Ha2).
    rewrite Hmax1, Hmax2. simpl.
    assert (Hin1 : s1 ∈ x1 :: l1)
      by (rewrite Hsplit1; apply elem_of_app; right; apply list_elem_of_here).
    assert (Hin2 : s2 ∈ x2 :: l2)
      by (rewrite Hsplit2; apply elem_of_app; right; apply list_elem_of_here).
    assert (Hle1 : forall c, c ∈ x1 :: l1 ->
                     exists vc, secret_version c = Ok vc /\ vc <= v1).
    { intros c Hc. rewrite Hsplit1 in Hc.
      apply elem_of_app in Hc as [Hc|Hc].
      - destruct (Hb1 c Hc) as (vc & ? & ?). exists vc. split; [auto|lia].
      - apply elem_of_cons in Hc as [-> | Hc]; [|now apply Ha1].
        exists v1. split; [auto|lia]. }
    assert (Hle2 : forall c, c ∈ x2 :: l2 ->
                     exists vc, secret_version c = Ok vc /\ vc <= v2).
    { intros c Hc. rewrite Hsplit2 in Hc.
      apply elem_of_app in Hc as [Hc|Hc].
      - destruct (Hb2 c Hc) as (vc & ? & ?). exists vc. split; [auto|lia].
      - apply elem_of_cons in Hc as [-> | Hc]; [|now apply Ha2].
        exists v2. split; [auto|lia]. }
    assert (Hin21 : s2 ∈ x1 :: l1) by now rewrite Hperm.
    assert (Hin12 : s1 ∈ x2 :: l2) by now rewrite <- Hperm.
    destruct (Hle1 s2 Hin21) as (w2 & Hw2 & Hle21).
    destruct (Hle2 s1 Hin12) as (w1 & Hw1 & Hle12).
    assert (v1 = v2) by (rewrite Hk2 in Hw2; rewrite Hk1 in Hw1;
                         injection Hw2 as <-; injection Hw1 as <-; lia).
    subst v2.
    now rewrite (Huniq s1 s2 Hin1 Hin21 ltac:(congruence)).
Qed.

(** X14.  When the labels of the candidates can be read and hold what
    the API server admits (no label named "get", an ASCII [version] label
    of at most 63 characters), and the candidates have pairwise different
    resolved revisions, the order in which the store lists them does not
    matter: two listings of the same records give the same result, with
    or without a requested revision. *)
Theorem find_release_secret_order_independent
    (dyn1 dyn2 : K8s.DynamicClient) (release_name release_ns : string)
    (res1 res2 : K8s.Resource) (listing1 listing2 : list K8s.Secret)
    (revision : option Z) :
  K8s.resources_get dyn1 (VStr "v1") (VStr "Secret") = Ok res1 ->
  K8s.list_items res1 release_ns (OWNER_LABEL +:+ ",name=" +:+ release_name)
    = Ok listing1 ->
  K8s.resources_get dyn2 (VStr "v1") (VStr "Secret") = Ok res2 ->
  K8s.list_items res2 release_ns (OWNER_LABEL +:+ ",name=" +:+ release_name)
    = Ok listing2 ->
  Permutation listing1 listing2 ->
  Forall (fun c => version_label_ok c = true) listing1 ->
  (forall a b, a ∈ listing1 -> b ∈ listing1 ->
               secret_version a = secret_version b -> a = b) ->
  find_release_secret dyn1 release_name release_ns revision
  = find_release_secret dyn2 release_name release_ns revision.
Proof.
  intros Hres1 Hlist1 Hres2 Hlist2 Hperm Hok Huniq.
  rewrite (find_release_secret_candidates _ _ _ _ _ _ Hres1 Hlist1).
  rewrite (find_release_secret_candidates _ _ _ _ _ _ Hres2 Hlist2).
  now apply select_release_secret_order_independent.
Qed.

Lemma find_release_secret_order_independent_witness :
  find_release_secret Fixture.dyn "myrel" "default" None
  = find_release_secret
      (Scenario.dyn_listing (Ok [Fixture.rev1; Fixture.rev2; Fixture.rev3]))
      "myrel" "default" None.
Proof.
  apply (find_release_secret_order_independent Fixture.dyn
           (Scenario.dyn_listing (Ok [Fixture.rev1; Fixture.rev2; Fixture.rev3]))
           "myrel" "default" Fixture.secrets
           (Scenario.store (Ok [Fixture.rev1; Fixture.rev2; Fixture.rev3]))
           [Fixture.rev2; Fixture.rev3; Fixture.rev1]
           [Fixture.rev1; Fixture.rev2; Fixture.rev3] None);
    [ reflexivity | reflexivity | reflexivity | reflexivity | | | ].
  - apply perm_trans with (Fixture.rev2 :: Fixture.rev1 :: [Fixture.rev3]).
    + apply perm_skip. apply perm_swap.
    + apply perm_swap.
  - repeat constructor.
  - intros a b Ha Hb.
    repeat (apply elem_of_cons in Ha as [-> | Ha]);
      try (now inversion Ha);
      repeat (apply elem_of_cons in Hb as [-> | Hb]);
      try (now inversion Hb);
      first [ reflexivity | (vm_compute; discriminate) ].
Defined.

(* ===================================================================== *)
(** ** More on the decoder *)
(* ===================================================================== *)

Lemma a2b_loop_raises (data : bytes) :
  forall quad_pos leftchar pads out e,
    Base64.a2b_loop data quad_pos leftchar pads out = Raise e ->
    e = BinasciiError.
Proof.
  induction data as [|b rest IH]; intros quad_pos leftchar pads out e.
  - simpl. destruct (quad_pos =? 0)%N; congruence.
  - cbn [Base64.a2b_loop]. cbv zeta.
    destruct (Byte.to_N b =? Base64.BASE64_PAD)%N.
    + destruct (2 <=? quad_pos)%N; [|apply IH].
      destruct (4 <=? quad_pos + (pads + 1))%N; [discriminate|apply IH].
    + destruct (64 <=? Base64.table_a2b_base64 (Byte.to_N b))%N; [apply IH|].
      destruct quad_pos as [|[p|p|]]; try apply IH.
      destruct p; apply IH.
Qed.

(** [base64.b64decode] on a [str] fails in two ways only. *)
Lemma b64decode_str_raises (s : string) (e : exn) :
  Base64.b64decode_str s = Raise e ->
  (Str.is_ascii s = false /\ e = ValueError)
  \/ (Str.is_ascii s = true /\ e = BinasciiError).
Proof.
  unfold Base64.b64decode_str, encode_ascii.
  destruct (Str.is_ascii s); simpl.
  - intros H. right. split; [reflexivity|]. now apply a2b_loop_raises in H.
  - intros H. injection H as <-. now left.
Qed.

Section DecoderOutcomes.
Context {RT : Runtime}.

(** X15.  [_try_decompress] returns its argument or the decompression of
    it, the latter only for bytes that begin with the gzip magic; it never
    raises an error of the classes it handles (OSError, EOFError,
    BadGzipFile), and an error it does raise is the decompressor's. *)
Theorem try_decompress_outcome (data : bytes) :
  match _try_decompress data with
  | Ok r =>
      r = data
      \/ (startswith GZIP_MAGIC data = true /\ gzip_decompress data = Ok r)
  | Raise e =>
      startswith GZIP_MAGIC data = true
      /\ gzip_decompress data = Raise e
      /\ is_gzip_failure e = false
  end.
Proof.
  unfold _try_decompress. destruct (startswith GZIP_MAGIC data); [|now left].
  destruct (gzip_decompress data) as [r|e]; simpl; [now right|].
  destruct (is_gzip_failure e) eqn:E; [now left|auto].
Qed.

(** X16.  An error of the first base64 step is not reported as an
    unsupported format: a payload with a character outside ASCII raises
    [ValueError], a payload that is no well-formed base64 raises
    [binascii.Error], and both reach the caller as they are. *)
Theorem decode_release_payload_base64_error (encoded : string) (e : exn) :
  Base64.b64decode_str encoded = Raise e ->
  decode_release_payload encoded = Raise e
  /\ ((Str.is_ascii encoded = false /\ e = ValueError)
      \/ (Str.is_ascii encoded = true /\ e = BinasciiError)).
Proof.
  intros H. split; [|now apply b64decode_str_raises].
  unfold decode_release_payload. now rewrite H.
Qed.

(** X17.  The errors that leave [decode_release_payload]: the unsupported
    format error of the second round; an error of the first base64 step;
    an error of the first decompression outside the handled classes; an
    error of the first parse other than [JSONDecodeError]; or, from the
    second round, an error that is no [Exception].  In particular a
    [JSONDecodeError] of the parser never leaves it. *)
Theorem decode_release_payload_errors (encoded : string) (e : exn) :
  decode_release_payload encoded = Raise e ->
  e = unsupported_format
  \/ Base64.b64decode_str encoded = Raise e
  \/ (exists b, Base64.b64decode_str encoded = Ok b
                /\ gzip_decompress b = Raise e
                /\ is_gzip_failure e = false)
  \/ (exists b raw, Base64.b64decode_str encoded = Ok b
                    /\ _try_decompress b = Ok raw
                    /\ json_loads raw = Raise e
                    /\ is_JSONDecodeError e = false)
  \/ is_Exception e = false.
Proof.
  unfold decode_release_payload.
  destruct (Base64.b64decode_str encoded) as [b|e0] eqn:Hb64; simpl.
  2:{ intros H. injection H as <-. now right; left. }
  pose proof (try_decompress_outcome b) as Htry.
  destruct (_try_decompress b) as [raw|e0] eqn:Hraw; simpl.
  2:{ intros H. injection H as <-. destruct Htry as (_ & Hgz & Hcls).
      right; right; left. now exists b. }
  destruct (json_loads raw) as [v|e1] eqn:Hjson; simpl; [discriminate|].
  destruct (is_JSONDecodeError e1) eqn:Hcls.
  - destruct (raw2 ← (b2 ← Base64.b64decode raw; _try_decompress b2);
              json_loads raw2) as [v|e2]; simpl; [discriminate|].
    destruct (is_Exception e2) eqn:Hexc; intros H; injection H as <-.
    + now left.
    + now right; right; right; right.
  - intros H. injection H as <-. right; right; right; left.
    now exists b, raw.
Qed.

(** X18.  A payload that holds no base64 data at all (the empty string, or
    only characters the decoder skips) is reported as an unsupported
    format, given that the parser rejects the empty text with
    [JSONDecodeError]. *)
Theorem decode_release_payload_no_data (encoded : string) :
  Base64.b64decode_str encoded = Ok [] ->
  json_decode [] = Raise JSONDecodeError ->
  decode_release_payload encoded = Raise unsupported_format.
Proof.
  intros Hb64 Hjson.
  assert (Hloads : json_loads [] = Raise JSONDecodeError)
    by (change (json_loads []) with (json_decode []); exact Hjson).
  unfold decode_release_payload. rewrite Hb64. simpl.
  now rewrite Hloads.
Qed.

End DecoderOutcomes.

Lemma decode_release_payload_base64_error_witness :
  decode_release_payload "A" = Raise BinasciiError
  /\ ((Str.is_ascii "A" = false /\ BinasciiError = ValueError)
      \/ (Str.is_ascii "A" = true /\ BinasciiError = BinasciiError)).
Proof.
  apply (decode_release_payload_base64_error "A" BinasciiError). reflexivity.
Defined.

Lemma decode_release_payload_errors_witness :
  UnicodeDecodeError = unsupported_format
  \/ Base64.b64decode_str "H4s=" = Raise UnicodeDecodeError
  \/ (exists b, Base64.b64decode_str "H4s=" = Ok b
                /\ gzip_decompress b = Raise UnicodeDecodeError
                /\ is_gzip_failure UnicodeDecodeError = false)
  \/ (exists b raw, Base64.b64decode_str "H4s=" = Ok b
                    /\ _try_decompress b = Ok raw
                    /\ json_loads raw = Raise UnicodeDecodeError
                    /\ is_JSONDecodeError UnicodeDecodeError = false)
  \/ is_Exception UnicodeDecodeError = false.
Proof.
  apply (decode_release_payload_errors "H4s=" UnicodeDecodeError). reflexivity.
Defined.

Lemma decode_release_payload_no_data_witness :
  decode_release_payload Fixture.newline = Raise unsupported_format.
Proof.
  apply (decode_release_payload_no_data Fixture.newline); reflexivity.
Defined.

(* ===================================================================== *)
(** ** More on the extractor *)
(* ===================================================================== *)

(** What the loop body yields has been tested: apiVersion, kind and name
    are true values, and the namespace is a true value of the document or
    the default. *)
Lemma document_identity_complete (doc : pyval) (default_ns : string)
    (api_ver kind ns name : pyval) :
  document_identity doc default_ns = Ok (Some (api_ver, kind, ns, name)) ->
  truthy api_ver = true /\ truthy kind = true /\ truthy name = true
  /\ (truthy ns = true \/ ns = VStr default_ns).
Proof.
  destruct doc as [| | | | | |l|d|l|]; try discriminate.
  unfold document_identity.
  destruct (py_get (default (VDict []) (dict_lookup d "metadata")) "name" VNone)
    as [nm|e]; simpl; [|discriminate].
  destruct (py_get (default (VDict []) (dict_lookup d "metadata"))
              "namespace" VNone) as [ns0|e]; simpl; [|discriminate].
  destruct (truthy (default VNone (dict_lookup d "apiVersion"))) eqn:Ha;
    simpl; [|discriminate].
  destruct (truthy (default VNone (dict_lookup d "kind"))) eqn:Hk;
    simpl; [|discriminate].
  destruct (truthy nm) eqn:Hn; [|discriminate].
  intros H. injection H as <- <- <- <-.
  repeat split; try assumption.
  unfold py_or. destruct (truthy ns0) eqn:Hns; [now left|now right].
Qed.

Lemma manifest_loop_complete (docs : gen pyval) (default_ns : string)
    (api_ver kind ns name : pyval) :
  In (api_ver, kind, ns, name) (gen_items (manifest_loop docs default_ns)) ->
  truthy api_ver = true /\ truthy kind = true /\ truthy name = true
  /\ (truthy ns = true \/ ns = VStr default_ns).
Proof.
  induction docs as [|doc rest IH|e]; simpl; try contradiction.
  destruct (document_identity doc default_ns) as [[id|]|e] eqn:Hdoc; simpl.
  - intros [-> | Hin]; [|now apply IH].
    now apply (document_identity_complete doc default_ns).
  - exact IH.
  - contradiction.
Qed.

Lemma manifest_loop_stops (good : list pyval) (bad : pyval)
    (rest : list pyval) (default_ns : string) :
  Forall (fun d => metadata_ok d = true) good ->
  metadata_ok bad = false ->
  gen_items (manifest_loop (gen_of_list (good ++ bad :: rest)) default_ns)
  = omap (declared_identity default_ns) good
  /\ gen_raises (manifest_loop (gen_of_list (good ++ bad :: rest)) default_ns)
     = Some AttributeError.
Proof.
  intros Hgood Hbad. induction Hgood as [|doc good Hdoc _ [IHi IHr]]; simpl.
  - now rewrite (document_identity_bad_metadata bad default_ns Hbad).
  - rewrite (document_identity_declared doc default_ns Hdoc).
    destruct (declared_identity default_ns doc) as [id|]; simpl.
    + split; [now rewrite IHi|exact IHr].
    + now split.
Qed.

Lemma gen_to_list_raises {A} (g : gen A) (e : exn) :
  gen_raises g = Some e -> gen_to_list g = Raise e.
Proof.
  induction g as [|a g IH|e']; simpl; intros H; [discriminate| |congruence].
  now rewrite (IH H).
Qed.

Section ExtractorMore.
Context {RT : Runtime}.

(** X19.  Whatever the manifest holds, every identity the extractor
    yields has an apiVersion, a kind and a name that are true values (not
    missing, null, empty or zero), and its namespace is a true value taken
    from the document or else the default namespace. *)
Theorem manifest_objects_complete (manifest_yaml default_ns : string)
    (api_ver kind ns name : pyval) :
  In (api_ver, kind, ns, name)
     (gen_items (manifest_objects manifest_yaml default_ns)) ->
  truthy api_ver = true /\ truthy kind = true /\ truthy name = true
  /\ (truthy ns = true \/ ns = VStr default_ns).
Proof. apply manifest_loop_complete. Qed.

(** X20.  A mapping document whose [metadata] is no mapping (a null, a
    string, a list) stops the extraction with [AttributeError], even when
    the document lacks apiVersion or kind and would have been skipped: the
    identities of the documents before it have been yielded, those of the
    documents after it never are, and a caller that collects the
    identities gets the error instead of a list. *)
Theorem manifest_objects_stops_at_bad_metadata
    (manifest_yaml default_ns : string) (good : list pyval) (bad : pyval)
    (rest : list pyval) :
  yaml_safe_load_all manifest_yaml = gen_of_list (good ++ bad :: rest) ->
  Forall (fun d => metadata_ok d = true) good ->
  metadata_ok bad = false ->
  gen_items (manifest_objects manifest_yaml default_ns)
  = omap (declared_identity default_ns) good
  /\ gen_to_list (manifest_objects manifest_yaml default_ns)
     = Raise AttributeError.
Proof.
  intros Hload Hgood Hbad. unfold manifest_objects. rewrite Hload.
  destruct (manifest_loop_stops good bad rest default_ns Hgood Hbad) as [Hi Hr].
  split; [exact Hi|]. now apply gen_to_list_raises.
Qed.

End ExtractorMore.

Lemma manifest_objects_complete_witness :
  truthy (VStr "v1") = true /\ truthy (VStr "Service") = true
  /\ truthy (VStr "svc1") = true
  /\ (truthy (VStr "edge") = true \/ VStr "edge" = VStr "default").
Proof.
  apply (manifest_objects_complete Fixture.manifest "default"
           (VStr "v1") (VStr "Service") (VStr "edge") (VStr "svc1")).
  vm_compute. right. left. reflexivity.
Defined.

Lemma manifest_objects_stops_at_bad_metadata_witness :
  gen_items (manifest_objects Fixture.manifest_null_metadata "default")
  = omap (declared_identity "default") [Fixture.doc_cm1]
  /\ gen_to_list (manifest_objects Fixture.manifest_null_metadata "default")
     = Raise AttributeError.
Proof.
  apply (manifest_objects_stops_at_bad_metadata
           Fixture.manifest_null_metadata "default"
           [Fixture.doc_cm1] Fixture.doc_null_metadata []);
    [ reflexivity | repeat constructor | reflexivity ].
Defined.

(* ===================================================================== *)
(** ** More on the live check and the report *)
(* ===================================================================== *)

(** X21.  [object_exists] answers True exactly when the kind resolves and
    the lookup succeeds, the lookup being made with the namespace for a
    namespaced kind and without it otherwise.  It answers False when
    resolving the kind raised [DynamicApiError] (or its subclass
    [NotFoundError]) or the lookup raised [NotFoundError].  Any other
    error of the client is not an answer: it is raised. *)
Theorem object_exists_outcome (dyn : K8s.DynamicClient)
    (api_version kind namespace name : pyval) :
  match object_exists dyn api_version kind namespace name with
  | Ok true =>
      exists res,
        K8s.resources_get dyn api_version kind = Ok res
        /\ K8s.get res name (if K8s.namespaced res then Some namespace else None)
           = Ok tt
  | Ok false =>
      (exists e, K8s.resources_get dyn api_version kind = Raise e
                 /\ is_DynamicApiError e = true)
      \/ (exists res,
            K8s.resources_get dyn api_version kind = Ok res
            /\ K8s.get res name
                 (if K8s.namespaced res then Some namespace else None)
               = Raise NotFoundError)
  | Raise e =>
      (K8s.resources_get dyn api_version kind = Raise e
       /\ is_DynamicApiError e = false)
      \/ (exists res,
            K8s.resources_get dyn api_version kind = Ok res
            /\ K8s.get res name
                 (if K8s.namespaced res then Some namespace else None)
               = Raise e
            /\ is_NotFoundError e = false)
  end.
Proof.
  unfold object_exists.
  destruct (K8s.resources_get dyn api_version kind) as [res|e] eqn:Hres.
  - assert (Hget : (if K8s.namespaced res
                    then K8s.get res name (Some namespace)
                    else K8s.get res name None)
                   = K8s.get res name
                       (if K8s.namespaced res then Some namespace else None))
      by (destruct (K8s.namespaced res); reflexivity).
    rewrite Hget.
    destruct (K8s.get res name
                (if K8s.namespaced res then Some namespace else None))
      as [[]|e] eqn:Hg; simpl.
    + now exists res.
    + destruct e; simpl; try (right; exists res; now repeat split).
  - destruct (is_DynamicApiError e) eqn:Hcls.
    + left. now exists e.
    + now left.
Qed.

(** *** The order of the report

    [String.compare] is a total order; so is the order of the tuples of
    [str], which compares component by component. *)

Lemma str_compare_refl (s : string) : String.compare s s = Eq.
Proof.
  pose proof (String.compare_antisym s s) as H.
  destruct (String.compare s s); simpl in H; congruence.
Qed.

Lemma str_compare_lt_trans (a b c : string) :
  String.compare a b = Lt -> String.compare b c = Lt ->
  String.compare a c = Lt.
Proof.
  intros Hab Hbc.
  apply OrderedTypeEx.String_as_OT.cmp_lt.
  apply (OrderedTypeEx.String_as_OT.lt_trans a b c);
    now apply OrderedTypeEx.String_as_OT.cmp_lt.
Qed.

Lemma identity_all_str_inv (id : identity) :
  identity_all_str id = true ->
  exists s1 s2 s3 s4, id = (VStr s1, VStr s2, VStr s3, VStr s4).
Proof.
  destruct id as [[[a1 a2] a3] a4]. simpl.
  destruct a1; try discriminate. destruct a2; try discriminate.
  destruct a3; try discriminate. destruct a4; try discriminate.
  intros _. now eexists _, _, _, _.
Qed.

Lemma identity_compare_antisym (a b : identity) :
  identity_compare b a = CompOpp (identity_compare a b).
Proof.
  assert (Hp : forall x y, pyval_str_compare y x
                           = CompOpp (pyval_str_compare x y)).
  { intros x y. destruct x, y; try reflexivity. simpl.
    apply String.compare_antisym. }
  destruct a as [[[a1 a2] a3] a4], b as [[[b1 b2] b3] b4].
  unfold identity_compare.
  rewrite (Hp a1 b1), (Hp a2 b2), (Hp a3 b3), (Hp a4 b4).
  destruct (pyval_str_compare a1 b1), (pyval_str_compare a2 b2),
    (pyval_str_compare a3 b3), (pyval_str_compare a4 b4); reflexivity.
Qed.

Lemma identity_ltb_asym (a b : identity) :
  identity_ltb a b = true -> identity_le a b.
Proof.
  unfold identity_le, identity_ltb. rewrite (identity_compare_antisym a b).
  now destruct (identity_compare a b).
Qed.

(** On tuples of [str], [identity_compare] answers [Eq] for equal tuples
    only, and its [Lt] is transitive. *)
Lemma identity_compare_str_eq (a1 a2 a3 a4 b1 b2 b3 b4 : string) :
  identity_compare (VStr a1, VStr a2, VStr a3, VStr a4)
    (VStr b1, VStr b2, VStr b3, VStr b4) = Eq ->
  a1 = b1 /\ a2 = b2 /\ a3 = b3 /\ a4 = b4.
Proof.
  simpl. unfold lex.
  destruct (String.compare a1 b1) eqn:H1; try discriminate.
  destruct (String.compare a2 b2) eqn:H2; try discriminate.
  destruct (String.compare a3 b3) eqn:H3; try discriminate.
  intros H4. repeat split; now apply String.compare_eq_iff.
Qed.

Lemma lex_lt_trans (A : Type) (c : A -> A -> comparison) (x y z : A)
    (rxy ryz rxz : comparison) :
  (forall u, c u u = Eq) ->
  (forall u v, c u v = Eq -> u = v) ->
  (forall u v w, c u v = Lt -> c v w = Lt -> c u w = Lt) ->
  (c x y = Eq -> c y z = Eq -> rxy = Lt -> ryz = Lt -> rxz = Lt) ->
  lex (c x y) rxy = Lt -> lex (c y z) ryz = Lt -> lex (c x z) rxz = Lt.
Proof.
  intros Hrefl Heq Htrans Hrest. unfold lex.
  destruct (c x y) eqn:Hxy; try discriminate;
    destruct (c y z) eqn:Hyz; try discriminate; intros H1 H2.
  - apply Heq in Hxy, Hyz. subst. rewrite Hrefl. now apply Hrest; try apply Hrefl.
  - apply Heq in Hxy. subst. now rewrite Hyz.
  - apply Heq in Hyz. subst. now rewrite Hxy.
  - now rewrite (Htrans x y z Hxy Hyz).
Qed.

Lemma identity_compare_str_lt_trans
    (a1 a2 a3 a4 b1 b2 b3 b4 c1 c2 c3 c4 : string) :
  identity_compare (VStr a1, VStr a2, VStr a3, VStr a4)
    (VStr b1, VStr b2, VStr b3, VStr b4) = Lt ->
  identity_compare (VStr b1, VStr b2, VStr b3, VStr b4)
    (VStr c1, VStr c2, VStr c3, VStr c4) = Lt ->
  identity_compare (VStr a1, VStr a2, VStr a3, VStr a4)
    (VStr c1, VStr c2, VStr c3, VStr c4) = Lt.
Proof.
  simpl.
  apply (lex_lt_trans string String.compare a1 b1 c1);
    [ apply str_compare_refl | apply String.compare_eq_iff
    | apply str_compare_lt_trans | intros _ _ ].
  apply (lex_lt_trans string String.compare a2 b2 c2);
    [ apply str_compare_refl | apply String.compare_eq_iff
    | apply str_compare_lt_trans | intros _ _ ].
  apply (lex_lt_trans string String.compare a3 b3 c3);
    [ apply str_compare_refl | apply String.compare_eq_iff
    | apply str_compare_lt_trans | intros _ _ ].
  apply str_compare_lt_trans.
Qed.

Lemma identity_le_trans (a b c : identity) :
  identity_all_str a = true -> identity_all_str b = true ->
  identity_all_str c = true ->
  identity_le a b -> identity_le b c -> identity_le a c.
Proof.
  intros Ha Hb Hc.
  apply identity_all_str_inv in Ha as (a1 & a2 & a3 & a4 & ->).
  apply identity_all_str_inv in Hb as (b1 & b2 & b3 & b4 & ->).
  apply identity_all_str_inv in Hc as (c1 & c2 & c3 & c4 & ->).
  unfold identity_le, identity_ltb. intros Hab Hbc.
  destruct (identity_compare (VStr c1, VStr c2, VStr c3, VStr c4)
              (VStr a1, VStr a2, VStr a3, VStr a4)) eqn:Hca; try reflexivity.
  destruct (identity_compare (VStr c1, VStr c2, VStr c3, VStr c4)
              (VStr b1, VStr b2, VStr b3, VStr b4)) eqn:Hcb;
    try discriminate Hbc.
  - apply identity_compare_str_eq in Hcb as (-> & -> & -> & ->).
    rewrite Hca in Hab. discriminate Hab.
  - assert (Hbc' : identity_compare (VStr b1, VStr b2, VStr b3, VStr b4)
                     (VStr c1, VStr c2, VStr c3, VStr c4) = Lt)
      by (rewrite identity_compare_antisym, Hcb; reflexivity).
    rewrite (identity_compare_str_lt_trans _ _ _ _ _ _ _ _ _ _ _ _ Hbc' Hca)
      in Hab.
    discriminate Hab.
Qed.

Lemma sorted_insert_sorted (x : identity) (l : list identity) :
  identity_all_str x = true ->
  List.Forall (fun id => identity_all_str id = true) l ->
  StronglySorted identity_le l ->
  StronglySorted identity_le (sorted_insert x l).
Proof.
  intros Hx. induction l as [|y l IH]; intros Hstr Hl; simpl.
  - repeat constructor.
  - apply List.Forall_cons_iff in Hstr as [Hy Hstr].
    apply StronglySorted_inv in Hl as [Hl Hhd].
    destruct (identity_ltb y x) eqn:Hyx.
    + constructor; [now apply IH|].
      apply (Permutation_Forall (Permutation_sym (sorted_insert_perm x l))).
      constructor; [now apply identity_ltb_asym|exact Hhd].
    + constructor; [now constructor|].
      constructor; [exact Hyx|].
      apply List.Forall_forall. intros z Hz.
      apply (identity_le_trans x y z Hx Hy).
      * apply (proj1 (List.Forall_forall _ _) Hstr z Hz).
      * exact Hyx.
      * apply (proj1 (List.Forall_forall _ _) Hhd z Hz).
Qed.

Lemma insertion_sort_sorted (l : list identity) :
  List.Forall (fun id => identity_all_str id = true) l ->
  StronglySorted identity_le (insertion_sort l).
Proof.
  induction l as [|x l IH]; intros Hstr; simpl; [constructor|].
  apply List.Forall_cons_iff in Hstr as [Hx Hstr].
  apply sorted_insert_sorted; [exact Hx| |now apply IH].
  apply (Permutation_Forall (Permutation_sym (insertion_sort_perm l))).
  exact Hstr.
Qed.

Section ReportMore.
Context {RT : Runtime}.

(** X22.  Identities that are tuples of [str] are reported in ascending
    order of the whole tuple (apiVersion first, then kind, namespace and
    name, each compared as [str]): in the sorted list no identity is
    greater than one that comes after it, and the list holds the same
    identities as were collected. *)
Theorem py_sorted_ascending (ids sorted : list identity) :
  forallb identity_all_str ids = true ->
  py_sorted ids = Ok sorted ->
  StronglySorted identity_le sorted /\ Permutation sorted ids.
Proof.
  intros Hstr. rewrite (py_sorted_str ids Hstr). intros H. injection H as <-.
  split; [|apply insertion_sort_perm].
  apply insertion_sort_sorted. apply List.Forall_forall.
  intros x Hx. apply (proj1 (forallb_forall _ _) Hstr x Hx).
Qed.

(** The loop prints report lines only, and its result is whether one of
    them is marked live (or [exists_any] was true before). *)
Lemma report_loop_shape (dyn : K8s.DynamicClient) (ids : list identity) :
  forall exists_any,
    forallb is_report_line (fst (report_loop dyn ids exists_any)) = true
    /\ forall b, snd (report_loop dyn ids exists_any) = Ok b ->
                 b = exists_any
                     || existsb line_is_live
                          (fst (report_loop dyn ids exists_any)).
Proof.
  induction ids as [|[[[a k] n] nm] ids IH]; intros exists_any.
  - simpl. split; [reflexivity|]. intros b H. injection H as <-.
    now rewrite orb_false_r.
  - cbn [report_loop]. unfold lift, print.
    destruct (object_exists dyn a k n nm) as [live|e]; cbn [io_bind];
      [|split; [reflexivity|discriminate]].
    destruct (format_left k) as [[]|e]; cbn [io_bind];
      [|split; [reflexivity|discriminate]].
    destruct (IH (exists_any || live)) as [IHl IHb].
    destruct (report_loop dyn ids (exists_any || live)) as [out r].
    simpl in *. split; [exact IHl|].
    intros b Hb. rewrite (IHb b Hb). now rewrite orb_assoc.
Qed.

(** The part of [main] from the header on. *)
Lemma header_then_report_shape (dyn : K8s.DynamicClient)
    (name namespace : string) (revision : pyval)
    (sorted_ids : result (list identity)) :
  let run :=
    io_bind (print (PrintHeader name revision namespace)) (fun _ =>
    io_bind (print PrintRule) (fun _ =>
    io_bind (lift sorted_ids) (fun ids =>
    io_bind (report_loop dyn ids false) (fun exists_any =>
    if negb exists_any then print PrintWarning else io_ret tt)))) in
  exists lines tail,
    fst run = PrintHeader name revision namespace :: PrintRule :: lines ++ tail
    /\ forallb is_report_line lines = true
    /\ (tail = [] \/ tail = [PrintWarning])
    /\ (tail = [PrintWarning]
        <-> snd run = Ok tt /\ existsb line_is_live lines = false).
Proof.
  cbv zeta. unfold print, lift. cbn [io_bind].
  destruct sorted_ids as [ids|e]; cbn [io_bind].
  2:{ exists [], []. simpl. repeat split; try (now left); try discriminate.
      intros [H _]. discriminate H. }
  destruct (report_loop_shape dyn ids false) as [Hl Hb].
  destruct (report_loop dyn ids false) as [out [b|e]]; simpl in *.
  - specialize (Hb b eq_refl). destruct b; simpl.
    + exists out, []. rewrite app_nil_r. repeat split; try (now left);
        try discriminate; try assumption.
      intros [_ H]. congruence.
    + exists out, [PrintWarning]. repeat split; try (now right);
        try assumption; now symmetry.
  - exists out, []. rewrite app_nil_r. repeat split; try (now left);
      try discriminate; try assumption.
    intros [H _]. discriminate H.
Qed.

Lemma io_bind_lift {A B : Type} (r : result A) (k : A -> io B) :
  io_bind (lift r) k
  = match r with Ok a => k a | Raise e => ([], Raise e) end.
Proof.
  destruct r as [a|e]; simpl; [now destruct (k a)|reflexivity].
Qed.

(** X23.  Whatever the cluster and the libraries answer, [main] prints
    either nothing, and then ends with an exit or an error, or the header,
    the rule, report lines and at most the warning as the last line; the
    warning is printed exactly when the run ends without error and no
    printed line is marked live. *)
Theorem main_output_shape (dyn : K8s.DynamicClient) (args : Args) :
  (fst (main dyn args) = [] /\ exists e, snd (main dyn args) = Raise e)
  \/ exists revision lines tail,
       fst (main dyn args)
       = PrintHeader (arg_name args) revision (arg_namespace args)
           :: PrintRule :: lines ++ tail
       /\ forallb is_report_line lines = true
       /\ (tail = [] \/ tail = [PrintWarning])
       /\ (tail = [PrintWarning]
           <-> snd (main dyn args) = Ok tt
               /\ existsb line_is_live lines = false).
Proof.
  unfold main. rewrite io_bind_lift.
  destruct (find_release_secret dyn (arg_name args) (arg_namespace args)
              (arg_revision args)) as [[secret|]|e];
    [ | left; split; [reflexivity|eauto] | left; split; [reflexivity|eauto] ].
  rewrite io_bind_lift.
  destruct (match K8s.data secret !! "release" with
            | Some encoded => decode_release_payload encoded
            | None => Raise TypeError
            end) as [release|e];
    [|left; split; [reflexivity|eauto]].
  rewrite io_bind_lift.
  destruct (py_get release "version" (VStr "?")) as [revision|e];
    [|left; split; [reflexivity|eauto]].
  rewrite io_bind_lift.
  destruct (py_get release "manifest" VNone) as [manifest|e];
    [|left; split; [reflexivity|eauto]].
  destruct manifest;
    try (right; exists revision; apply header_then_report_shape).
  left. split; [reflexivity|]. unfold sys_exit. simpl. eauto.
Qed.

(** X24.  An error of the payload decoder ends [main] before anything is
    printed, and reaches the caller as it is. *)
Theorem main_decode_error (dyn : K8s.DynamicClient) (args : Args)
    (secret : K8s.Secret) (encoded : string) (e : exn) :
  find_release_secret dyn (arg_name args) (arg_namespace args)
    (arg_revision args) = Ok (Some secret) ->
  K8s.data secret !! "release" = Some encoded ->
  decode_release_payload encoded = Raise e ->
  main dyn args = ([], Raise e).
Proof.
  intros Hfind Hdata Hdecode. unfold main. rewrite Hfind.
  unfold lift at 1. cbn [io_bind]. now rewrite Hdata, Hdecode.
Qed.

(** X25.  A payload that decodes to something other than a mapping (a
    list, a number, a string, a null) ends [main] with [AttributeError]
    before anything is printed: the decoder accepts any JSON value, and
    [main] does not check what it got. *)
Theorem main_release_not_mapping (dyn : K8s.DynamicClient) (args : Args)
    (secret : K8s.Secret) (encoded : string) (release : pyval) :
  find_release_secret dyn (arg_name args) (arg_namespace args)
    (arg_revision args) = Ok (Some secret) ->
  K8s.data secret !! "release" = Some encoded ->
  decode_release_payload encoded = Ok release ->
  (forall d, release <> VDict d) ->
  main dyn args = ([], Raise AttributeError).
Proof.
  intros Hfind Hdata Hdecode Hnd. unfold main. rewrite Hfind.
  unfold lift at 1. cbn [io_bind]. rewrite Hdata, Hdecode.
  unfold lift at 1. cbn [io_bind].
  destruct release; try reflexivity. now destruct (Hnd d).
Qed.

(** X26.  A manifest that cannot be read is found out only after the
    header: when collecting the identities raises (a YAML error, a
    [metadata] that is no mapping, a manifest that is no [str]), [main]
    has printed the header and the rule, prints no line and no warning,
    and raises that error. *)
Theorem main_manifest_error (dyn : K8s.DynamicClient) (args : Args)
    (secret : K8s.Secret) (encoded : string) (release revision manifest : pyval)
    (e : exn) :
  find_release_secret dyn (arg_name args) (arg_namespace args)
    (arg_revision args) = Ok (Some secret) ->
  K8s.data secret !! "release" = Some encoded ->
  decode_release_payload encoded = Ok release ->
  py_get release "version" (VStr "?") = Ok revision ->
  py_get release "manifest" VNone = Ok manifest ->
  manifest <> VNone ->
  gen_to_list (manifest_objects_of manifest (arg_namespace args)) = Raise e ->
  main dyn args
  = ([PrintHeader (arg_name args) revision (arg_namespace args); PrintRule],
     Raise e).
Proof.
  intros Hfind Hdata Hdecode Hrev Hman Hnn Hids.
  unfold main. rewrite Hfind. unfold lift at 1. cbn [io_bind].
  rewrite Hdata, Hdecode. unfold lift at 1. cbn [io_bind].
  rewrite Hrev. unfold lift at 1. cbn [io_bind].
  rewrite Hman. unfold lift at 1. cbn [io_bind].
  destruct manifest; try congruence; rewrite Hids; reflexivity.
Qed.

(** The loop up to a live check that raises. *)
Lemma report_loop_raises (dyn : K8s.DynamicClient) (live : identity -> bool)
    (before : list identity) (id : identity) (after : list identity)
    (e : exn) :
  forall exists_any,
    Forall (fun id => identity_all_str id = true) before ->
    Forall (fun id => identity_exists dyn id = Ok (live id)) before ->
    identity_exists dyn id = Raise e ->
    report_loop dyn (before ++ id :: after) exists_any
    = (map (report_line live) before, Raise e).
Proof.
  induction before as [|x before IH]; intros exists_any Hs Hl Hid.
  - destruct id as [[[a k] n] nm]. simpl in Hid. simpl. now rewrite Hid.
  - apply Forall_cons in Hs as [Hstr Hs]. apply Forall_cons in Hl as [Hx Hl].
    pose proof (format_left_str x Hstr) as Hfmt.
    destruct x as [[[a k] n] nm]. simpl in Hx, Hfmt.
    simpl app. cbn [report_loop]. rewrite Hx, Hfmt.
    unfold lift, print. cbn [io_bind]. now rewrite (IH _ Hs Hl Hid).
Qed.

(** X27.  A live check that raises ends the report where it stands: the
    lines of the identities checked before it have been printed, the
    identities after it are not checked, no warning is printed, and the
    error reaches the caller. *)
Theorem main_live_check_error (dyn : K8s.DynamicClient) (args : Args)
    (secret : K8s.Secret) (encoded : string) (release revision : pyval)
    (m : string) (ids before : list identity) (id : identity)
    (after : list identity) (live : identity -> bool) (e : exn) :
  find_release_secret dyn (arg_name args) (arg_namespace args)
    (arg_revision args) = Ok (Some secret) ->
  K8s.data secret !! "release" = Some encoded ->
  decode_release_payload encoded = Ok release ->
  py_get release "version" (VStr "?") = Ok revision ->
  py_get release "manifest" VNone = Ok (VStr m) ->
  gen_to_list (manifest_objects m (arg_namespace args)) = Ok ids ->
  forallb identity_all_str ids = true ->
  insertion_sort ids = before ++ id :: after ->
  Forall (fun id => identity_exists dyn id = Ok (live id)) before ->
  identity_exists dyn id = Raise e ->
  main dyn args
  = ([PrintHeader (arg_name args) revision (arg_namespace args); PrintRule]
       ++ map (report_line live) before,
     Raise e).
Proof.
  intros Hfind Hdata Hdecode Hrev Hman Hids Hstr Hsort Hlive Hid.
  rewrite (main_reaches_report dyn args secret encoded release revision m ids
             Hfind Hdata Hdecode Hrev Hman Hids Hstr).
  rewrite Hsort.
  rewrite (report_loop_raises dyn live before id after e false);
    [reflexivity| |exact Hlive|exact Hid].
  apply List.Forall_forall. intros x Hx.
  assert (Hin : In x ids).
  { apply (Permutation_in _ (insertion_sort_perm ids)).
    rewrite Hsort. apply in_or_app. now left. }
  apply (proj1 (forallb_forall _ _) Hstr x Hin).
Qed.

End ReportMore.

Lemma py_sorted_ascending_witness :
  StronglySorted identity_le
    [(VStr "apps/v1", VStr "Deployment", VStr "default", VStr "web");
     (VStr "v1", VStr "ConfigMap", VStr "default", VStr "cm1");
     (VStr "v1", VStr "Service", VStr "edge", VStr "svc1")]
  /\ Permutation
       [(VStr "apps/v1", VStr "Deployment", VStr "default", VStr "web");
        (VStr "v1", VStr "ConfigMap", VStr "default", VStr "cm1");
        (VStr "v1", VStr "Service", VStr "edge", VStr "svc1")]
       [(VStr "v1", VStr "ConfigMap", VStr "default", VStr "cm1");
        (VStr "v1", VStr "Service", VStr "edge", VStr "svc1");
        (VStr "apps/v1", VStr "Deployment", VStr "default", VStr "web")].
Proof.
  apply (py_sorted_ascending
           [(VStr "v1", VStr "ConfigMap", VStr "default", VStr "cm1");
            (VStr "v1", VStr "Service", VStr "edge", VStr "svc1");
            (VStr "apps/v1", VStr "Deployment", VStr "default", VStr "web")]);
    reflexivity.
Defined.

Lemma main_decode_error_witness :
  main (Scenario.dyn_listing (Ok [Scenario.corrupt])) Fixture.args_latest
  = ([], Raise UnicodeDecodeError).
Proof.
  apply (main_decode_error (Scenario.dyn_listing (Ok [Scenario.corrupt]))
           Fixture.args_latest Scenario.corrupt "H4s=" UnicodeDecodeError);
    reflexivity.
Defined.

Lemma main_release_not_mapping_witness :
  @main (Scenario.runtime_json (VList [])) Fixture.dyn Fixture.args_latest
  = ([], Raise AttributeError).
Proof.
  apply (@main_release_not_mapping (Scenario.runtime_json (VList []))
           Fixture.dyn Fixture.args_latest Fixture.rev3
           Fixture.payload_double (VList []));
    [ vm_compute; reflexivity | reflexivity | vm_compute; reflexivity
    | discriminate ].
Defined.

Lemma main_manifest_error_witness :
  @main (Scenario.runtime_json
           (VDict [(VStr "manifest", VStr Fixture.manifest_syntax_error)]))
    Fixture.dyn Fixture.args_latest
  = ([PrintHeader "myrel" (VStr "?") "default"; PrintRule], Raise YAMLError)
  /\ @main (Scenario.runtime_json (VDict [(VStr "manifest", VInt 5)]))
       Fixture.dyn Fixture.args_latest
     = ([PrintHeader "myrel" (VStr "?") "default"; PrintRule],
        Raise AttributeError).
Proof.
  split.
  - apply (@main_manifest_error
             (Scenario.runtime_json
                (VDict [(VStr "manifest", VStr Fixture.manifest_syntax_error)]))
             Fixture.dyn Fixture.args_latest Fixture.rev3
             Fixture.payload_double
             (VDict [(VStr "manifest", VStr Fixture.manifest_syntax_error)])
             (VStr "?") (VStr Fixture.manifest_syntax_error) YAMLError);
      [ vm_compute; reflexivity | reflexivity | vm_compute; reflexivity
      | reflexivity | reflexivity | discriminate | vm_compute; reflexivity ].
  - apply (@main_manifest_error
             (Scenario.runtime_json (VDict [(VStr "manifest", VInt 5)]))
             Fixture.dyn Fixture.args_latest Fixture.rev3
             Fixture.payload_double
             (VDict [(VStr "manifest", VInt 5)])
             (VStr "?") (VInt 5) AttributeError);
      [ vm_compute; reflexivity | reflexivity | vm_compute; reflexivity
      | reflexivity | reflexivity | discriminate | reflexivity ].
Defined.

Lemma main_live_check_error_witness :
  main Scenario.dyn_partial Fixture.args_latest
  = ([PrintHeader "myrel" (VInt 3) "default"; PrintRule]
       ++ map (report_line (fun _ => false))
            [(VStr "apps/v1", VStr "Deployment", VStr "default", VStr "web")],
     Raise (Other "ResourceNotFoundError")).
Proof.
  apply (main_live_check_error Scenario.dyn_partial Fixture.args_latest
           Fixture.rev3 Fixture.payload_double Fixture.release (VInt 3)
           Fixture.manifest
           [(VStr "v1", VStr "ConfigMap", VStr "default", VStr "cm1");
            (VStr "v1", VStr "Service", VStr "edge", VStr "svc1");
            (VStr "apps/v1", VStr "Deployment", VStr "default", VStr "web")]
           [(VStr "apps/v1", VStr "Deployment", VStr "default", VStr "web")]
           (VStr "v1", VStr "ConfigMap", VStr "default", VStr "cm1")
           [(VStr "v1", VStr "Service", VStr "edge", VStr "svc1")]
           (fun _ => false) (Other "ResourceNotFoundError"));
    [ vm_compute; reflexivity | reflexivity | vm_compute; reflexivity
    | reflexivity | reflexivity | vm_compute; reflexivity | reflexivity
    | reflexivity | repeat constructor | reflexivity ].
Defined.
